(** * MCP GitHub server: tool dispatch, response cache and SSE sessions

    A shallow embedding of [github-mcp-server.js]: the [GitHubAPIClient]
    class with its in-memory response cache, the two call framings
    ([POST /mcp/tools/call] and the JSON-RPC handler behind [POST /sse])
    and the session bookkeeping of [GET /sse].

    JavaScript values that reach the server are JSON documents, so the
    embedding works on a JSON value type; [async] functions become
    computations in a state-and-exception monad over the process-wide
    [cache] map, the wall clock and the log of [fetch] round trips. *)

From Stdlib Require Import ZArith NArith String Ascii List.
From stdpp Require Import base tactics option list gmap strings pretty.

Local Open Scope string_scope.
Local Open Scope Z_scope.

Set Warnings "-register-all,-notation-for-abbreviation".

(** ** JavaScript values and the operators the server applies to them *)

Module Js.

(** Completion of a synchronous evaluation: a value, or a thrown [Error]
    of which only [error.message] is ever read by the server. *)
Inductive result (A : Type) : Type :=
  | Ok (a : A)
  | Throw (message : string).
Arguments Ok {A} a.
Arguments Throw {A} message.

#[global] Instance result_ret : MRet result := @Ok.
#[global] Instance result_bind : MBind result := λ A B f r,
  match r with Ok a => f a | Throw m => Throw m end.
#[global] Instance result_fmap : FMap result := λ A B f r,
  match r with Ok a => Ok (f a) | Throw m => Throw m end.

(** JSON documents as JavaScript sees them after [JSON.parse], extended
    with [undefined] and with the built-in methods that a property read
    on an array can return ([VNative]).  [VNum] covers the integer
    numbers that print in plain decimal notation; [VObj] keeps the
    properties in insertion order. *)
Inductive value : Type :=
  | VUndefined
  | VNull
  | VBool (b : bool)
  | VNum (n : Z)
  | VStr (s : string)
  | VArr (items : list value)
  | VObj (fields : list (string * value))
  | VNative (name : string).

Definition dquote : ascii := "034"%char.
Definition backslash : ascii := "092"%char.
Definition nl : string := String "010"%char "".

(** Own property lookup in an object literal. *)
Fixpoint own (fields : list (string * value)) (k : string) : option value :=
  match fields with
  | [] => None
  | (k', v) :: rest => if String.eqb k' k then Some v else own rest k
  end.

(** [obj[k] = v]: overwrite in place when the key exists, append otherwise. *)
Fixpoint obj_set (k : string) (v : value) (fields : list (string * value))
  : list (string * value) :=
  match fields with
  | [] => [(k, v)]
  | (k', v') :: rest =>
      if String.eqb k' k then (k, v) :: rest else (k', v') :: obj_set k v rest
  end.

(** The own enumerable properties copied by an object spread [...v]. *)
Definition spread_fields (v : value) : list (string * value) :=
  match v with
  | VObj fields => fields
  | VArr items => imap (λ i x, (pretty (Z.of_nat i), x)) items
  | VStr s => imap (λ i c, (pretty (Z.of_nat i), VStr (String c "")))
                   (list_ascii_of_string s)
  | _ => []
  end.

(** [{ ...base, ...v }] on the property list [base]. *)
Definition obj_spread (base : list (string * value)) (v : value)
  : list (string * value) :=
  fold_left (λ acc kv, obj_set kv.1 kv.2 acc) (spread_fields v) base.

(** Property read [v.k], for the property names the server reads.  None
    of them is inherited from [Object.prototype]; on an array [length],
    [map] and [sort] are found, on a string [length] (counted here in
    characters of the model). *)
Definition get (v : value) (k : string) : result value :=
  match v with
  | VUndefined =>
      Throw ("Cannot read properties of undefined (reading '" +:+ k +:+ "')")
  | VNull =>
      Throw ("Cannot read properties of null (reading '" +:+ k +:+ "')")
  | VObj fields => Ok (default VUndefined (own fields k))
  | VArr items =>
      if String.eqb k "length" then Ok (VNum (Z.of_nat (length items)))
      else if String.eqb k "sort" then Ok (VNative "sort")
      else if String.eqb k "map" then Ok (VNative "map")
      else Ok VUndefined
  | VStr s =>
      if String.eqb k "length" then Ok (VNum (Z.of_nat (String.length s)))
      else Ok VUndefined
  | _ => Ok VUndefined
  end.

(** Default parameter value: [f(x = d)]. *)
Definition default_param (v d : value) : value :=
  match v with VUndefined => d | _ => v end.

(** [ToBoolean]. *)
Definition truthy (v : value) : bool :=
  match v with
  | VUndefined | VNull => false
  | VBool b => b
  | VNum n => negb (n =? 0)
  | VStr s => negb (String.eqb s "")
  | _ => true
  end.

(** [a || b] *)
Definition js_or (a b : value) : value := if truthy a then a else b.

(** [ToString], as applied by a template literal.  An object that came
    out of [JSON.parse] with an own [toString] property shadows
    [Object.prototype.toString] with something that cannot be called. *)
Fixpoint to_string (v : value) : result string :=
  match v with
  | VUndefined => Ok "undefined"
  | VNull => Ok "null"
  | VBool b => Ok (if b then "true" else "false")
  | VNum n => Ok (pretty n)
  | VStr s => Ok s
  | VArr items =>
      (fix join (l : list value) : result string :=
         match l with
         | [] => Ok ""
         | x :: rest =>
             match
               match x with
               | VUndefined | VNull => Ok ""
               | _ => to_string x
               end
             with
             | Throw m => Throw m
             | Ok s =>
                 match rest with
                 | [] => Ok s
                 | _ :: _ =>
                     match join rest with
                     | Throw m => Throw m
                     | Ok r => Ok (s +:+ "," +:+ r)
                     end
                 end
             end
         end) items
  | VObj fields =>
      match own fields "toString" with
      | Some _ => Throw "Cannot convert object to primitive value"
      | None => Ok "[object Object]"
      end
  | VNative name => Ok ("function " +:+ name +:+ "() { [native code] }")
  end.

(** *** [JSON.stringify] *)

Definition hex_digit (n : N) : ascii :=
  match n with
  | 0%N => "0" | 1%N => "1" | 2%N => "2" | 3%N => "3" | 4%N => "4"
  | 5%N => "5" | 6%N => "6" | 7%N => "7" | 8%N => "8" | 9%N => "9"
  | 10%N => "a" | 11%N => "b" | 12%N => "c" | 13%N => "d" | 14%N => "e"
  | _ => "f"
  end%char.

(** The escape of one character inside a JSON string literal. *)
Definition escape_char (c : ascii) : string :=
  let n := N_of_ascii c in
  if Ascii.eqb c dquote then String backslash (String dquote "")
  else if Ascii.eqb c backslash then String backslash (String backslash "")
  else if (n =? 8)%N then String backslash "b"
  else if (n =? 9)%N then String backslash "t"
  else if (n =? 10)%N then String backslash "n"
  else if (n =? 12)%N then String backslash "f"
  else if (n =? 13)%N then String backslash "r"
  else if (n <? 32)%N then
    String backslash
      (String "u" (String "0" (String "0"
        (String (hex_digit (n / 16)) (String (hex_digit (n mod 16)) "")))))
  else String c "".

Fixpoint escape (s : string) : string :=
  match s with
  | "" => ""
  | String c rest => escape_char c +:+ escape rest
  end.

(** [QuoteJSONString] *)
Definition quote (s : string) : string :=
  String dquote (escape s +:+ String dquote "").

(** [JSON.stringify(v)]; [None] is the [undefined] it returns for
    [undefined] and for functions. *)
Fixpoint stringify (v : value) : option string :=
  match v with
  | VUndefined | VNative _ => None
  | VNull => Some "null"
  | VBool b => Some (if b then "true" else "false")
  | VNum n => Some (pretty n)
  | VStr s => Some (quote s)
  | VArr items =>
      Some ("[" +:+ String.concat ","
                      (map (λ x, default "null" (stringify x)) items) +:+ "]")
  | VObj fields =>
      Some ("{" +:+ String.concat ","
                      (omap (λ kv, match kv with
                                   | (k, x) =>
                                       match stringify x with
                                       | Some s => Some (quote k +:+ ":" +:+ s)
                                       | None => None
                                       end
                                   end) fields) +:+ "}")
  end.

(** A template literal: literal chunks and substitutions, evaluated left
    to right; each substitution is evaluated and then converted. *)
Inductive part : Type :=
  | Lit (s : string)
  | Sub (e : result value).

Fixpoint template (parts : list part) : result string :=
  match parts with
  | [] => Ok ""
  | Lit s :: rest => r ← template rest; Ok (s +:+ r)
  | Sub e :: rest =>
      match e ≫= to_string with
      | Throw m => Throw m
      | Ok s => r ← template rest; Ok (s +:+ r)
      end
  end.

(** *** Reading an escape back

    [unescape_char] undoes [escape_char] at the head of a character
    list; it is what makes [escape], hence [quote], injective. *)

Definition unhex (c : ascii) : N :=
  let n := N_of_ascii c in
  if (n <? 58)%N then (n - 48)%N else (n - 87)%N.

Definition unescape_char (l : list ascii) : option (ascii * list ascii) :=
  match l with
  | [] => None
  | c :: rest =>
      if Ascii.eqb c backslash then
        match rest with
        | [] => None
        | x :: rest' =>
            if Ascii.eqb x "b" then Some (ascii_of_N 8, rest')
            else if Ascii.eqb x "t" then Some (ascii_of_N 9, rest')
            else if Ascii.eqb x "n" then Some (ascii_of_N 10, rest')
            else if Ascii.eqb x "f" then Some (ascii_of_N 12, rest')
            else if Ascii.eqb x "r" then Some (ascii_of_N 13, rest')
            else if Ascii.eqb x "u" then
              match rest' with
              | _ :: _ :: h :: l :: rest'' =>
                  Some (ascii_of_N (16 * unhex h + unhex l), rest'')
              | _ => None
              end
            else Some (x, rest')
        end
      else Some (c, rest)
  end.

End Js.

Import Js.

(** ** The process: cache, clock and backend round trips *)

Module Server.

(** [const CACHE_DURATION = 60000; // 1 minute] *)
Definition CACHE_DURATION : Z := 60000.

(** [this.baseURL] *)
Definition baseURL : string := "https://api.github.com".

(** A value of the [cache] map: [{ data, timestamp }]. *)
Record Entry : Type := { data : value; timestamp : Z }.

(** One [fetch(url, init)] call. *)
Record Request : Type := { url : string; init : value }.

(** What [fetch] resolves to: [status], [statusText] and the outcome of
    [response.json()], which throws when the body is not JSON. *)
Record Response : Type :=
  { status : Z; statusText : string; json : result value }.

(** [response.ok] *)
Definition ok (r : Response) : bool := (200 <=? status r) && (status r <=? 299).

(** A [fetch] either rejects (transport fault) or resolves. *)
Inductive FetchResult : Type :=
  | Rejected (message : string)
  | Resolved (r : Response).

(** What lies outside the module: the access token of the environment,
    the data service (its answer may depend on the requests made so far;
    the second component is the duration of the round trip in
    milliseconds) and [Buffer.from(_, 'base64').toString('utf-8')]. *)
Record Env : Type :=
  { token : string;
    backend : list Request → Request → FetchResult * Z;
    base64_utf8 : value → result string }.

(** The mutable process state: the [cache] map, the wall clock read by
    [Date.now()] and the log of backend round trips. *)
Record State : Type :=
  { cache : gmap string Entry; clock : Z; fetched : list Request }.

(** Asynchronous code: state passing with exceptions. *)
Definition M (A : Type) : Type := State → result A * State.

#[global] Instance M_ret : MRet M := λ A a st, (Ok a, st).
#[global] Instance M_bind : MBind M := λ A B f m st,
  match m st with
  | (Ok a, st') => f a st'
  | (Throw e, st') => (Throw e, st')
  end.

Definition lift {A} (r : result A) : M A := λ st, (r, st).
Definition throw {A} (message : string) : M A := λ st, (Throw message, st).

(** [try { body } catch (error) { handler(error.message) }] *)
Definition try_catch {A} (body : M A) (handler : string → M A) : M A := λ st,
  match body st with
  | (Ok a, st') => (Ok a, st')
  | (Throw e, st') => handler e st'
  end.

Definition Date_now : M Z := λ st, (Ok (clock st), st).
Definition cache_get (key : string) : M (option Entry) := λ st,
  (Ok (cache st !! key), st).
Definition cache_set (key : string) (e : Entry) : M unit := λ st,
  (Ok tt, {| cache := <[key := e]> (cache st);
             clock := clock st; fetched := fetched st |}).

Section Client.
Variable env : Env.

(** [await fetch(url, init)] *)
Definition fetch (url : string) (init : value) : M Response := λ st,
  let req := {| url := url; init := init |} in
  let st' := {| cache := cache st;
                clock := clock st + (backend env (fetched st) req).2;
                fetched := fetched st ++ [req] |} in
  match (backend env (fetched st) req).1 with
  | Rejected m => (Throw m, st')
  | Resolved r => (Ok r, st')
  end.

(** [cacheKey] of [makeRequest]. *)
Definition cacheKey (endpoint : string) (options : value) : string :=
  (baseURL +:+ endpoint) +:+ "_" +:+ default "undefined" (stringify options).

(** The second argument of [fetch] in [makeRequest]. *)
Definition fetch_init (options headers : value) : value :=
  VObj (obj_spread
          [("headers",
            VObj (obj_spread
                    [("Authorization", VStr ("token " +:+ token env));
                     ("Accept", VStr "application/vnd.github.v3+json");
                     ("User-Agent", VStr "MCP-GitHub-Server/1.0")]
                    headers))]
          options).

(** [async makeRequest(endpoint, options = {})] *)
Definition makeRequest (endpoint : string) (options : value) : M value :=
  let options := default_param options (VObj []) in
  let url := baseURL +:+ endpoint in
  let cacheKey := cacheKey endpoint options in
  let miss : M value :=
    headers ← lift (get options "headers");
    response ← fetch url (fetch_init options headers);
    if negb (ok response) then
      throw ("GitHub API error: " +:+ pretty (status response) +:+ " "
             +:+ statusText response)
    else
      data ← lift (json response);
      stored ← Date_now;
      _ ← cache_set cacheKey {| data := data; timestamp := stored |};
      mret data in
  cached ← cache_get cacheKey;
  match cached with
  | Some entry =>
      now ← Date_now;
      if bool_decide (now - timestamp entry < CACHE_DURATION)
      then mret (data entry)
      else miss
  | None => miss
  end.

(** [getRepository(owner, repo)] *)
Definition getRepository (owner repo : value) : M value :=
  endpoint ← lift (template [Lit "/repos/"; Sub (Ok owner); Lit "/";
                             Sub (Ok repo)]);
  makeRequest endpoint VUndefined.

(** [listRepositories(per_page = 30, sort = 'updated')] *)
Definition listRepositories (per_page sort : value) : M value :=
  let per_page := default_param per_page (VNum 30) in
  let sort := default_param sort (VStr "updated") in
  endpoint ← lift (template [Lit "/user/repos?per_page="; Sub (Ok per_page);
                             Lit "&sort="; Sub (Ok sort)]);
  makeRequest endpoint VUndefined.

(** [listIssues(owner, repo, state = 'open')] *)
Definition listIssues (owner repo state : value) : M value :=
  let state := default_param state (VStr "open") in
  endpoint ← lift (template [Lit "/repos/"; Sub (Ok owner); Lit "/";
                             Sub (Ok repo); Lit "/issues?state=";
                             Sub (Ok state)]);
  makeRequest endpoint VUndefined.

(** The [options] literal of [createIssue]. *)
Definition post_options (body : value) : value :=
  VObj [("method", VStr "POST");
        ("headers", VObj [("Content-Type", VStr "application/json")]);
        ("body", body)].

(** [createIssue(owner, repo, data)] *)
Definition createIssue (owner repo data : value) : M value :=
  endpoint ← lift (template [Lit "/repos/"; Sub (Ok owner); Lit "/";
                             Sub (Ok repo); Lit "/issues"]);
  makeRequest endpoint
    (post_options (from_option VStr VUndefined (stringify data))).

(** [getFileContent(owner, repo, path, ref = 'main')] *)
Definition getFileContent (owner repo path ref : value) : M value :=
  let ref := default_param ref (VStr "main") in
  endpoint ← lift (template [Lit "/repos/"; Sub (Ok owner); Lit "/";
                             Sub (Ok repo); Lit "/contents/"; Sub (Ok path);
                             Lit "?ref="; Sub (Ok ref)]);
  makeRequest endpoint VUndefined.

(** *** The tool catalog

    The array literal [tools] of [GET /mcp/tools] and of the [tools/list]
    branch of [handleJsonRpcRequest] (the two literals are the same). *)

Definition string_prop (description : string) : value :=
  VObj [("type", VStr "string"); ("description", VStr description)].

Definition tool (name description : string)
    (properties : list (string * value)) (required : option (list string))
  : value :=
  VObj [("name", VStr name);
        ("description", VStr description);
        ("inputSchema",
         VObj ([("type", VStr "object"); ("properties", VObj properties)]
               ++ match required with
                  | Some fields => [("required", VArr (VStr <$> fields))]
                  | None => []
                  end))].

Definition tools : list value :=
  [ tool "github_get_repository" "Get information about a GitHub repository"
      [("owner", string_prop "Repository owner");
       ("repo", string_prop "Repository name")]
      (Some ["owner"; "repo"]);
    tool "github_list_repositories"
      "List repositories for the authenticated user"
      [("per_page",
        VObj [("type", VStr "number");
              ("description", VStr "Number of results per page (max 100)");
              ("default", VNum 30)]);
       ("sort",
        VObj [("type", VStr "string");
              ("enum", VArr [VStr "created"; VStr "updated"; VStr "pushed";
                             VStr "full_name"]);
              ("default", VStr "updated")])]
      None;
    tool "github_list_issues" "List issues for a repository"
      [("owner", string_prop "Repository owner");
       ("repo", string_prop "Repository name");
       ("state",
        VObj [("type", VStr "string");
              ("enum", VArr [VStr "open"; VStr "closed"; VStr "all"]);
              ("default", VStr "open")])]
      (Some ["owner"; "repo"]);
    tool "github_create_issue" "Create a new issue in a repository"
      [("owner", string_prop "Repository owner");
       ("repo", string_prop "Repository name");
       ("title", string_prop "Issue title");
       ("body", string_prop "Issue body");
       ("labels",
        VObj [("type", VStr "array");
              ("items", VObj [("type", VStr "string")]);
              ("description", VStr "Issue labels")])]
      (Some ["owner"; "repo"; "title"]);
    tool "github_get_file_content"
      "Get the content of a file from a repository"
      [("owner", string_prop "Repository owner");
       ("repo", string_prop "Repository name");
       ("path", string_prop "File path");
       ("ref",
        VObj [("type", VStr "string");
              ("description", VStr "Branch/commit/tag reference");
              ("default", VStr "main")])]
      (Some ["owner"; "repo"; "path"]) ].

(** The names of the catalog, in declaration order. *)
Definition tool_names : list string :=
  omap (λ t, match get t "name" with Ok (VStr n) => Some n | _ => None end)
       tools.

(** [v === 'literal'] *)
Definition is_string (v : value) (literal : string) : bool :=
  match v with VStr s => String.eqb s literal | _ => false end.

(** The descriptor called [name], if the catalog has one. *)
Definition descriptor (name : string) : option value :=
  List.find (λ t, match get t "name" with
                  | Ok n => is_string n name
                  | Throw _ => false
                  end) tools.

(** The [required] list of a descriptor's [inputSchema]. *)
Definition required_fields (t : value) : list string :=
  match get t "inputSchema" ≫= (λ schema, get schema "required") with
  | Ok (VArr fields) =>
      omap (λ f, match f with VStr s => Some s | _ => None end) fields
  | _ => []
  end.

(** *** The [switch (name)] of the two call handlers *)

(** [v.map(f)] with [f] producing strings; [what] is the source text of
    [v], which the engine quotes when [map] cannot be called. *)
Definition js_map (what : string) (v : value) (f : value → result string)
  : result (list string) :=
  _ ← get v "map";
  match v with
  | VArr items => mapM f items
  | _ => Throw (what +:+ ".map is not a function")
  end.

Definition repo_line (repo : value) : result string :=
  template [Sub (get repo "full_name"); Lit " - ";
            Sub (d ← get repo "description";
                 Ok (js_or d (VStr "No description")));
            Lit " (";
            Sub (l ← get repo "language"; Ok (js_or l (VStr "Unknown")));
            Lit ")"].

Definition issue_line (issue : value) : result string :=
  template [Lit "#"; Sub (get issue "number"); Lit ": ";
            Sub (get issue "title"); Lit " ("; Sub (get issue "state");
            Lit ") - "; Sub (user ← get issue "user"; get user "login")].

(** The body of [switch (name)]: the text of the content block, or a
    thrown error.  Both handlers contain this switch. *)
Definition run_tool (name args : value) : M string :=
  if is_string name "github_get_repository" then
    owner ← lift (get args "owner");
    repo_name ← lift (get args "repo");
    repo ← getRepository owner repo_name;
    lift (template
      [Lit "Repository: "; Sub (get repo "full_name");
       Lit (nl +:+ "Description: ");
       Sub (d ← get repo "description"; Ok (js_or d (VStr "No description")));
       Lit (nl +:+ "Language: ");
       Sub (l ← get repo "language"; Ok (js_or l (VStr "Unknown")));
       Lit (nl +:+ "Stars: "); Sub (get repo "stargazers_count");
       Lit (nl +:+ "Forks: "); Sub (get repo "forks_count");
       Lit (nl +:+ "Created: "); Sub (get repo "created_at");
       Lit (nl +:+ "Updated: "); Sub (get repo "updated_at");
       Lit (nl +:+ "URL: "); Sub (get repo "html_url")])
  else if is_string name "github_list_repositories" then
    per_page ← lift (get args "per_page");
    sort ← lift (get args "sort");
    repos ← listRepositories per_page sort;
    lines ← lift (js_map "repos" repos repo_line);
    let repoList := String.concat nl lines in
    lift (template
      [Lit "Found "; Sub (get repos "length");
       Lit (" repositories:" +:+ nl +:+ nl); Sub (Ok (VStr repoList))])
  else if is_string name "github_list_issues" then
    owner ← lift (get args "owner");
    repo_name ← lift (get args "repo");
    state ← lift (get args "state");
    issues ← listIssues owner repo_name state;
    lines ← lift (js_map "issues" issues issue_line);
    let issueList := String.concat nl lines in
    lift (template
      [Lit "Issues in "; Sub (get args "owner"); Lit "/";
       Sub (get args "repo"); Lit " ("; Sub (get args "state");
       Lit ("):" +:+ nl +:+ nl);
       Sub (Ok (js_or (VStr issueList) (VStr "No issues found")))])
  else if is_string name "github_create_issue" then
    owner ← lift (get args "owner");
    repo_name ← lift (get args "repo");
    title ← lift (get args "title");
    body ← lift (get args "body");
    labels ← lift (get args "labels");
    newIssue ← createIssue owner repo_name
                 (VObj [("title", title); ("body", body); ("labels", labels)]);
    lift (template
      [Lit "Created issue #"; Sub (get newIssue "number"); Lit ": ";
       Sub (get newIssue "title"); Lit (nl +:+ "URL: ");
       Sub (get newIssue "html_url")])
  else if is_string name "github_get_file_content" then
    owner ← lift (get args "owner");
    repo_name ← lift (get args "repo");
    path ← lift (get args "path");
    ref ← lift (get args "ref");
    fileData ← getFileContent owner repo_name path ref;
    type ← lift (get fileData "type");
    if negb (is_string type "file") then throw "Path is not a file"
    else
      encoded ← lift (get fileData "content");
      content ← lift (base64_utf8 env encoded);
      lift (template
        [Lit "File: "; Sub (get args "path"); Lit " (";
         Sub (get fileData "size"); Lit (" bytes)" +:+ nl +:+ nl);
         Sub (Ok (VStr content))])
  else
    message ← lift (template [Lit "Unknown tool: "; Sub (Ok name)]);
    throw message.

(** *** The two framings of a call *)

(** An HTTP reply: [res.status(code).json(body)]. *)
Record HttpReply : Type := { http_status : Z; http_body : value }.

(** [const { k, ... } = v], where [what] is the source text of [v]. *)
Definition destructure (what : string) (v : value) (k : string)
  : result value :=
  match v with
  | VUndefined =>
      Throw ("Cannot destructure property '" +:+ k +:+ "' of '" +:+ what
             +:+ "' as it is undefined.")
  | VNull =>
      Throw ("Cannot destructure property '" +:+ k +:+ "' of '" +:+ what
             +:+ "' as it is null.")
  | _ => get v k
  end.

(** [{ content: [{ type: 'text', text }] }] *)
Definition text_content (text : string) : value :=
  VArr [VObj [("type", VStr "text"); ("text", VStr text)]].

(** [app.post('/mcp/tools/call', ...)] on [req.body]. *)
Definition post_mcp_tools_call (body : value) : M HttpReply :=
  try_catch
    (name ← lift (destructure "req.body" body "name");
     args ← lift (get body "arguments");
     text ← run_tool name args;
     mret {| http_status := 200;
             http_body := VObj [("content", text_content text)] |})
    (λ message,
       mret {| http_status := 500;
               http_body :=
                 VObj [("content", text_content ("Error: " +:+ message));
                       ("isError", VBool true)] |}).

(** [{ jsonrpc: '2.0', id, result }] and [{ jsonrpc: '2.0', id, error }] *)
Definition rpc_result (id result : value) : value :=
  VObj [("jsonrpc", VStr "2.0"); ("id", id); ("result", result)].
Definition rpc_error (id : value) (code : Z) (message : string) : value :=
  VObj [("jsonrpc", VStr "2.0"); ("id", id);
        ("error", VObj [("code", VNum code); ("message", VStr message)])].

(** [async function handleJsonRpcRequest(message)] *)
Definition handleJsonRpcRequest (message : value) : M value :=
  _ ← lift (destructure "message" message "jsonrpc");
  id ← lift (get message "id");
  method ← lift (get message "method");
  params ← lift (get message "params");
  if is_string method "initialize" then
    mret (rpc_result id
            (VObj [("protocolVersion", VStr "2024-11-05");
                   ("capabilities", VObj [("tools", VObj [])]);
                   ("serverInfo",
                    VObj [("name", VStr "github-mcp-server");
                          ("version", VStr "1.0.0")])]))
  else if is_string method "tools/list" then
    mret (rpc_result id (VObj [("tools", VArr tools)]))
  else if is_string method "tools/call" then
    name ← lift (destructure "params" params "name");
    args ← lift (get params "arguments");
    try_catch
      (content ← run_tool name args;
       mret (rpc_result id (VObj [("content", text_content content)])))
      (λ message, mret (rpc_error id (-32000) message))
  else
    mret (rpc_error id (-32601) "Method not found").

(** [app.post('/sse', ...)] on [req.body]. *)
Definition post_sse (body : value) : M HttpReply :=
  try_catch
    (response ← handleJsonRpcRequest body;
     mret {| http_status := 200; http_body := response |})
    (λ message,
       id ← lift (get body "id");
       mret {| http_status := 500;
               http_body := rpc_error id (-32603) message |}).

(** *** A normal form of the switch

    Every branch of [run_tool] reads some fields of [args], makes one
    client call and formats its payload.  [plan] collects, per call, the
    endpoint and options handed to [makeRequest] and the formatting
    applied to the payload; [run_tool_plan] shows that [run_tool] is
    exactly that. *)

Definition plan (name args : value)
  : result (string * value * (value → result string)) :=
  if is_string name "github_get_repository" then
    owner ← get args "owner";
    repo_name ← get args "repo";
    endpoint ← template [Lit "/repos/"; Sub (Ok owner); Lit "/";
                         Sub (Ok repo_name)];
    Ok (endpoint, VUndefined, λ repo,
      template
        [Lit "Repository: "; Sub (get repo "full_name");
         Lit (nl +:+ "Description: ");
         Sub (d ← get repo "description";
              Ok (js_or d (VStr "No description")));
         Lit (nl +:+ "Language: ");
         Sub (l ← get repo "language"; Ok (js_or l (VStr "Unknown")));
         Lit (nl +:+ "Stars: "); Sub (get repo "stargazers_count");
         Lit (nl +:+ "Forks: "); Sub (get repo "forks_count");
         Lit (nl +:+ "Created: "); Sub (get repo "created_at");
         Lit (nl +:+ "Updated: "); Sub (get repo "updated_at");
         Lit (nl +:+ "URL: "); Sub (get repo "html_url")])
  else if is_string name "github_list_repositories" then
    per_page ← get args "per_page";
    sort ← get args "sort";
    endpoint ← template [Lit "/user/repos?per_page=";
                         Sub (Ok (default_param per_page (VNum 30)));
                         Lit "&sort=";
                         Sub (Ok (default_param sort (VStr "updated")))];
    Ok (endpoint, VUndefined, λ repos,
      lines ← js_map "repos" repos repo_line;
      template
        [Lit "Found "; Sub (get repos "length");
         Lit (" repositories:" +:+ nl +:+ nl);
         Sub (Ok (VStr (String.concat nl lines)))])
  else if is_string name "github_list_issues" then
    owner ← get args "owner";
    repo_name ← get args "repo";
    state ← get args "state";
    endpoint ← template [Lit "/repos/"; Sub (Ok owner); Lit "/";
                         Sub (Ok repo_name); Lit "/issues?state=";
                         Sub (Ok (default_param state (VStr "open")))];
    Ok (endpoint, VUndefined, λ issues,
      lines ← js_map "issues" issues issue_line;
      template
        [Lit "Issues in "; Sub (get args "owner"); Lit "/";
         Sub (get args "repo"); Lit " ("; Sub (get args "state");
         Lit ("):" +:+ nl +:+ nl);
         Sub (Ok (js_or (VStr (String.concat nl lines))
                        (VStr "No issues found")))])
  else if is_string name "github_create_issue" then
    owner ← get args "owner";
    repo_name ← get args "repo";
    title ← get args "title";
    body ← get args "body";
    labels ← get args "labels";
    endpoint ← template [Lit "/repos/"; Sub (Ok owner); Lit "/";
                         Sub (Ok repo_name); Lit "/issues"];
    Ok (endpoint,
        post_options
          (from_option VStr VUndefined
             (stringify (VObj [("title", title); ("body", body);
                               ("labels", labels)]))),
        λ newIssue,
          template
            [Lit "Created issue #"; Sub (get newIssue "number"); Lit ": ";
             Sub (get newIssue "title"); Lit (nl +:+ "URL: ");
             Sub (get newIssue "html_url")])
  else if is_string name "github_get_file_content" then
    owner ← get args "owner";
    repo_name ← get args "repo";
    path ← get args "path";
    ref ← get args "ref";
    endpoint ← template [Lit "/repos/"; Sub (Ok owner); Lit "/";
                         Sub (Ok repo_name); Lit "/contents/"; Sub (Ok path);
                         Lit "?ref=";
                         Sub (Ok (default_param ref (VStr "main")))];
    Ok (endpoint, VUndefined, λ fileData,
      type ← get fileData "type";
      if negb (is_string type "file") then Throw "Path is not a file"
      else
        encoded ← get fileData "content";
        content ← base64_utf8 env encoded;
        template
          [Lit "File: "; Sub (get args "path"); Lit " (";
           Sub (get fileData "size"); Lit (" bytes)" +:+ nl +:+ nl);
           Sub (Ok (VStr content))])
  else
    message ← template [Lit "Unknown tool: "; Sub (Ok name)];
    Throw message.

(** [run_tool] in terms of [plan]. *)
Definition run_plan (name args : value) : M string := λ st,
  match plan name args with
  | Throw m => (Throw m, st)
  | Ok (endpoint, options, format) =>
      match makeRequest endpoint options st with
      | (Ok payload, st') => (format payload, st')
      | (Throw e, st') => (Throw e, st')
      end
  end.

(** *** One [makeRequest], step by step *)

(** [options.headers] for an [options] that is not [null]. *)
Definition request_headers (options : value) : value :=
  match get options "headers" with Ok h => h | Throw _ => VUndefined end.

(** The backend request made for [(endpoint, options)] on a cache miss. *)
Definition backend_request (endpoint : string) (options : value) : Request :=
  {| url := baseURL +:+ endpoint;
     init := fetch_init options (request_headers options) |}.

(** The state once [fetch] has settled. *)
Definition after_fetch (req : Request) (st : State) : State :=
  {| cache := cache st;
     clock := clock st + (backend env (fetched st) req).2;
     fetched := fetched st ++ [req] |}.

(** The miss path of [makeRequest], as a function of the backend's answer. *)
Definition miss_outcome (endpoint : string) (options : value) (st : State)
  : result value * State :=
  let req := backend_request endpoint options in
  let st1 := after_fetch req st in
  match (backend env (fetched st) req).1 with
  | Rejected m => (Throw m, st1)
  | Resolved r =>
      if ok r then
        match json r with
        | Ok d =>
            (Ok d,
             {| cache := <[cacheKey endpoint options :=
                             {| data := d; timestamp := clock st1 |}]>
                           (cache st);
                clock := clock st1; fetched := fetched st1 |})
        | Throw m => (Throw m, st1)
        end
      else
        (Throw ("GitHub API error: " +:+ pretty (status r) +:+ " "
                +:+ statusText r), st1)
  end.

(** The entry under [key], when it is younger than [CACHE_DURATION]. *)
Definition valid_entry (st : State) (key : string) : option Entry :=
  match cache st !! key with
  | Some e =>
      if bool_decide (clock st - timestamp e < CACHE_DURATION)
      then Some e else None
  | None => None
  end.

End Client.

(** *** Vocabulary of the statements *)

(** [message] is a [tools/call] request with the given [id], tool [name]
    and [arguments]. *)
Definition is_call (message id name args : value) : Prop :=
  get message "id" = Ok id ∧
  get message "method" = Ok (VStr "tools/call") ∧
  ∃ params, get message "params" = Ok params ∧
            destructure "params" params "name" = Ok name ∧
            get params "arguments" = Ok args.

(** [body] is the body of a [POST /mcp/tools/call] for [name] and
    [arguments]. *)
Definition is_direct_call (body name args : value) : Prop :=
  destructure "req.body" body "name" = Ok name ∧
  get body "arguments" = Ok args.

(** [name] is not the name of a tool of the catalog. *)
Definition unregistered (name : value) : Prop :=
  ∀ n, n ∈ tool_names → name ≠ VStr n.

(** Values without properties of their own: everything but objects and
    arrays. *)
Definition primitive (v : value) : Prop :=
  match v with VObj _ | VArr _ => False | _ => True end.

(** No cache entry of [st] is younger than [CACHE_DURATION]. *)
Definition all_stale (st : State) : Prop :=
  ∀ key e, cache st !! key = Some e → CACHE_DURATION ≤ clock st - timestamp e.

(** Every entry that is valid when the state is [st] is still valid when
    it is [st']: no entry expires in between. *)
Definition within_ttl (st st' : State) : Prop :=
  ∀ key e, cache st !! key = Some e →
           clock st - timestamp e < CACHE_DURATION →
           clock st' - timestamp e < CACHE_DURATION.

(** The cache key of the request a call makes, when the call gets as
    far as the client. *)
Definition request_key (env : Env) (name args : value) : option string :=
  match plan env name args with
  | Ok (endpoint, options, _) =>
      Some (cacheKey endpoint (default_param options (VObj [])))
  | Throw _ => None
  end.

(** The entry that [st] holds under [key] is still there in [st'], and
    when the state is [st'] it is younger than [CACHE_DURATION]: [st']
    lies within the TTL window of that one entry, whatever has become of
    the others. *)
Definition entry_live (key : string) (st st' : State) : Prop :=
  cache st' !! key = cache st !! key ∧
  ∀ e, cache st !! key = Some e → clock st' - timestamp e < CACHE_DURATION.

(** What a fresh round trip for [req] surfaces: the error of a rejected
    [fetch], the status error of a non-2xx response, or the outcome of
    [response.json()]. *)
Definition fresh_result (env : Env) (log : list Request) (req : Request)
  : result value :=
  match (backend env log req).1 with
  | Rejected m => Throw m
  | Resolved r =>
      if ok r then json r
      else Throw ("GitHub API error: " +:+ pretty (status r) +:+ " "
                  +:+ statusText r)
  end.

(** The backend answered [req], made after the requests [log], with a
    2xx status and a JSON body. *)
Definition answered (env : Env) (log : list Request) (req : Request) : Prop :=
  ∃ r payload, (backend env log req).1 = Resolved r ∧ ok r = true ∧
               json r = Ok payload.

(** The backend failed on [req]: transport fault or non-2xx status; the
    message is that of the error [makeRequest] throws. *)
Definition failure (env : Env) (log : list Request) (req : Request)
  : option string :=
  match (backend env log req).1 with
  | Rejected m => Some m
  | Resolved r =>
      if ok r then None
      else Some ("GitHub API error: " +:+ pretty (status r) +:+ " "
                 +:+ statusText r)
  end.

(** The [options] that the client methods hand to [makeRequest], after
    the default has been filled in: [{}] or the POST literal with a
    string body. *)
Definition client_options (o : value) : Prop :=
  o = VObj [] ∨ ∃ body, o = post_options (VStr body).

(** [JSON.stringify] of the POST literal, up to the text of the body and
    after it. *)
Definition post_prefix : string :=
  "{" +:+ quote "method" +:+ ":" +:+ quote "POST" +:+ "," +:+ quote "headers"
  +:+ ":{" +:+ quote "Content-Type" +:+ ":" +:+ quote "application/json"
  +:+ "}," +:+ quote "body" +:+ ":" +:+ String dquote "".
Definition post_suffix : string := String dquote "}".

(** The JSON texts of [client_options], as character lists. *)
Inductive options_text : list ascii → Prop :=
  | text_empty : options_text (list_ascii_of_string "{}")
  | text_post body :
      options_text (list_ascii_of_string post_prefix
                    ++ list_ascii_of_string (escape body)
                    ++ list_ascii_of_string post_suffix).

(** *** Sample data *)

Definition sample_repo : value :=
  VObj [("full_name", VStr "acme/widgets"); ("description", VNull);
        ("language", VStr "Go"); ("stargazers_count", VNum 5);
        ("forks_count", VNum 1); ("created_at", VStr "2020-01-01T00:00:00Z");
        ("updated_at", VStr "2024-01-01T00:00:00Z");
        ("html_url", VStr "https://github.com/acme/widgets")].

Definition sample_issue : value :=
  VObj [("number", VNum 12); ("title", VStr "Crash on start");
        ("html_url", VStr "https://github.com/acme/widgets/issues/12")].

Definition sample_dir : value :=
  VObj [("type", VStr "dir"); ("name", VStr "src")].

(** A data service that answers every request [200 OK] with [payload]
    after 5 ms. *)
Definition env_ok (payload : value) : Env :=
  {| token := "ghp_example";
     backend := λ _ _,
       (Resolved {| status := 200; statusText := "OK";
                    json := Ok payload |}, 5);
     base64_utf8 := λ _, Ok "" |}.

(** A data service that answers every request [503]. *)
Definition env_down : Env :=
  {| token := "ghp_example";
     backend := λ _ _,
       (Resolved {| status := 503; statusText := "Service Unavailable";
                    json := Throw "Unexpected token" |}, 5);
     base64_utf8 := λ _, Ok "" |}.

Definition st0 : State := {| cache := ∅; clock := 1000; fetched := [] |}.

(** A state whose cache holds [sample_repo] for [/repos/acme/widgets],
    stored half a second ago. *)
Definition st_warm : State :=
  {| cache := {[ "https://api.github.com/repos/acme/widgets_{}" :=
                   {| data := sample_repo; timestamp := 500 |} ]};
     clock := 1000; fetched := [] |}.

(** The state [ms] milliseconds later, nothing else having happened. *)
Definition later (ms : Z) (st : State) : State :=
  {| cache := cache st; clock := clock st + ms; fetched := fetched st |}.

(** A [tools/call] message and a direct-call body. *)
Definition call (id : value) (name : string) (args : value) : value :=
  VObj [("jsonrpc", VStr "2.0"); ("id", id); ("method", VStr "tools/call");
        ("params", VObj [("name", VStr name); ("arguments", args)])].
Definition direct (name : string) (args : value) : value :=
  VObj [("name", VStr name); ("arguments", args)].

Definition acme_widgets : value :=
  VObj [("owner", VStr "acme"); ("repo", VStr "widgets")].

End Server.

(** ** The streaming sessions of [GET /sse] *)

Module Sse.

(** A value of the [sessions] map: [{ res, id }], with [res] the number
    of the connection whose response stream it is (connections are
    numbered in the order in which they are accepted). *)
Record Session : Type := { res : nat; id : string }.

(** What one invocation of the [GET /sse] handler keeps alive: the
    captured [sessionId], the interval created by [setInterval] (the time
    at which it fires next, [None] once cleared), the chunks written to
    [res], and whether the ['close'] listener has run. *)
Record Connection : Type :=
  { sessionId : string;
    keepAliveInterval : option Z;
    written : list string;
    closed : bool }.

(** The event loop: the [sessions] map, the connections accepted so far
    and the timer clock in milliseconds. *)
Record Loop : Type :=
  { sessions : gmap string Session;
    connections : list Connection;
    now : Z }.

Definition start : Loop := {| sessions := ∅; connections := []; now := 0 |}.

(** The period of the keep-alive interval. *)
Definition PING_INTERVAL : Z := 30000.

(** [':ping\n\n'] *)
Definition ping : string := ":ping" +:+ nl +:+ nl.

Inductive Event : Type :=
  | Connect              (* a client opens [GET /sse] *)
  | Elapse (ms : N)      (* time passes, due intervals fire *)
  | Close (conn : nat).  (* the peer of connection [conn] goes away *)

Section Handler.
(** [PORT], and the identifier [uuidv4()] returns for the [n]-th
    connection. *)
Variable PORT : string.
Variable uuidv4 : nat → string.

(** The initial endpoint message. *)
Definition handshake : string :=
  let q s := String dquote (s +:+ String dquote "") in
  "data: {" +:+ q "jsonrpc" +:+ ":" +:+ q "2.0" +:+ "," +:+ q "method"
  +:+ ":" +:+ q "endpoint" +:+ "," +:+ q "params" +:+ ":{" +:+ q "uri"
  +:+ ":" +:+ q ("http://localhost:" +:+ PORT +:+ "/sse") +:+ "}}"
  +:+ nl +:+ nl.

(** [app.get('/sse', ...)]: draw the identifier, register the session,
    send the endpoint message, start the interval, listen for ['close'].
    The response head written by [res.writeHead] is not a frame of the
    stream and is left out. *)
Definition get_sse (l : Loop) : Loop :=
  let conn := length (connections l) in
  let sessionId := uuidv4 conn in
  {| sessions := <[sessionId := {| res := conn; id := sessionId |}]>
                   (sessions l);
     connections :=
       connections l ++
       [{| sessionId := sessionId;
           keepAliveInterval := Some (now l + PING_INTERVAL);
           written := [handshake];
           closed := false |}];
     now := now l |}.

(** How often an interval due at [due] fires up to time [t]. *)
Definition firings (due t : Z) : nat :=
  if due <=? t then Z.to_nat ((t - due) / PING_INTERVAL + 1) else 0%nat.

(** The interval callbacks of one connection that run up to time [t]:
    each is a [res.write(':ping\n\n')]. *)
Definition fire (t : Z) (c : Connection) : Connection :=
  match keepAliveInterval c with
  | Some due =>
      {| sessionId := sessionId c;
         keepAliveInterval :=
           Some (due + PING_INTERVAL * Z.of_nat (firings due t));
         written := written c ++ replicate (firings due t) ping;
         closed := closed c |}
  | None => c
  end.

Definition elapse (ms : N) (l : Loop) : Loop :=
  let t := now l + Z.of_N ms in
  {| sessions := sessions l;
     connections := fire t <$> connections l;
     now := t |}.

(** The ['close'] listener of connection [conn]:
    [clearInterval(keepAliveInterval); sessions.delete(sessionId)].
    The event is emitted once per connection. *)
Definition on_close (conn : nat) (l : Loop) : Loop :=
  match connections l !! conn with
  | Some c =>
      if closed c then l
      else
        {| sessions := delete (sessionId c) (sessions l);
           connections :=
             <[conn := {| sessionId := sessionId c;
                          keepAliveInterval := None;
                          written := written c;
                          closed := true |}]> (connections l);
           now := now l |}
  | None => l
  end.

Definition step (l : Loop) (e : Event) : Loop :=
  match e with
  | Connect => get_sse l
  | Elapse ms => elapse ms l
  | Close conn => on_close conn l
  end.

Definition run (events : list Event) (l : Loop) : Loop :=
  fold_left step events l.

(** The chunks written so far to the response of connection [conn]. *)
Definition stream (l : Loop) (conn : nat) : list string :=
  from_option written [] (connections l !! conn).

(** The milliseconds that pass during a list of events. *)
Definition duration (events : list Event) : Z :=
  foldr (λ e acc, match e with Elapse ms => Z.of_N ms + acc | _ => acc end)
        0 events.

(** *** Vocabulary of the statements *)

(** Every connection holds the identifier drawn for it, and the
    [sessions] map only holds sessions of accepted connections under
    their own identifier. *)
Definition well_formed (l : Loop) : Prop :=
  (∀ conn c, connections l !! conn = Some c → sessionId c = uuidv4 conn) ∧
  (∀ sid s, sessions l !! sid = Some s →
            (res s < length (connections l))%nat ∧ sid = uuidv4 (res s)).

(** The state of a connection accepted at time [t0] that is still open
    after [k] firings of its interval. *)
Definition open_since (l : Loop) (conn : nat) (t0 : Z) (k : nat) : Prop :=
  connections l !! conn
  = Some {| sessionId := uuidv4 conn;
            keepAliveInterval := Some (t0 + PING_INTERVAL * (Z.of_nat k + 1));
            written := handshake :: replicate k ping;
            closed := false |} ∧
  t0 + PING_INTERVAL * Z.of_nat k ≤ now l
  < t0 + PING_INTERVAL * (Z.of_nat k + 1).

(** A closed connection: interval cleared, nothing more written, its
    identifier out of the [sessions] map for good. *)
Definition closed_with (l : Loop) (conn : nat) (frames : list string) : Prop :=
  (∃ c, connections l !! conn = Some c ∧ closed c = true ∧
        keepAliveInterval c = None ∧ written c = frames) ∧
  ((∀ i j, uuidv4 i = uuidv4 j → i = j) → sessions l !! uuidv4 conn = None).

End Handler.
End Sse.

(** ** The stdio variant of the server

    The class [GitHubMCPServer] of the second source file: the same five
    tools behind the [tools/call] handler registered with the SDK
    server, every method returning the finished content object, over a
    [cache] map of the same kind. *)

Module Stdio.
Import Server.

Section Handlers.
Variable env : Env.

(** [async makeGitHubRequest(url, options = {})] *)
Definition makeGitHubRequest (url : string) (options : value) : M value :=
  let options := default_param options (VObj []) in
  let cacheKey := url +:+ "_" +:+ default "undefined" (stringify options) in
  let miss : M value :=
    headers ← lift (get options "headers");
    response ← fetch env url (fetch_init env options headers);
    if negb (ok response) then
      throw ("GitHub API error: " +:+ pretty (status response) +:+ " "
             +:+ statusText response)
    else
      data ← lift (json response);
      stored ← Date_now;
      _ ← cache_set cacheKey {| data := data; timestamp := stored |};
      mret data in
  cached ← cache_get cacheKey;
  match cached with
  | Some entry =>
      now ← Date_now;
      if bool_decide (now - timestamp entry < CACHE_DURATION)
      then mret (data entry)
      else miss
  | None => miss
  end.

(** [{ content: [{ type: 'text', text }] }] *)
Definition content (text : string) : value :=
  VObj [("content", text_content text)].

(** [async getRepository(owner, repo)] *)
Definition getRepository (owner repo : value) : M value :=
  url ← lift (template [Lit "https://api.github.com/repos/"; Sub (Ok owner);
                        Lit "/"; Sub (Ok repo)]);
  data ← makeGitHubRequest url VUndefined;
  text ← lift (template
    [Lit "Repository: "; Sub (get data "full_name");
     Lit (nl +:+ "Description: ");
     Sub (d ← get data "description"; Ok (js_or d (VStr "No description")));
     Lit (nl +:+ "Language: ");
     Sub (l ← get data "language"; Ok (js_or l (VStr "Unknown")));
     Lit (nl +:+ "Stars: "); Sub (get data "stargazers_count");
     Lit (nl +:+ "Forks: "); Sub (get data "forks_count");
     Lit (nl +:+ "Created: "); Sub (get data "created_at");
     Lit (nl +:+ "Updated: "); Sub (get data "updated_at");
     Lit (nl +:+ "URL: "); Sub (get data "html_url")]);
  mret (content text).

(** [async listRepositories(args = {})], with
    [const { per_page = 30, sort = 'updated' } = args]. *)
Definition listRepositories (args : value) : M value :=
  let args := default_param args (VObj []) in
  per_page ← lift (destructure "args" args "per_page");
  sort ← lift (get args "sort");
  let per_page := default_param per_page (VNum 30) in
  let sort := default_param sort (VStr "updated") in
  url ← lift (template [Lit "https://api.github.com/user/repos?per_page=";
                        Sub (Ok per_page); Lit "&sort="; Sub (Ok sort)]);
  data ← makeGitHubRequest url VUndefined;
  lines ← lift (js_map "data" data repo_line);
  let repoList := String.concat nl lines in
  text ← lift (template
    [Lit "Found "; Sub (get data "length");
     Lit (" repositories:" +:+ nl +:+ nl); Sub (Ok (VStr repoList))]);
  mret (content text).

(** [async listIssues(owner, repo, state = 'open')] *)
Definition listIssues (owner repo state : value) : M value :=
  let state := default_param state (VStr "open") in
  url ← lift (template [Lit "https://api.github.com/repos/"; Sub (Ok owner);
                        Lit "/"; Sub (Ok repo); Lit "/issues?state=";
                        Sub (Ok state)]);
  data ← makeGitHubRequest url VUndefined;
  lines ← lift (js_map "data" data issue_line);
  let issueList := String.concat nl lines in
  text ← lift (template
    [Lit "Issues in "; Sub (Ok owner); Lit "/"; Sub (Ok repo); Lit " (";
     Sub (Ok state); Lit ("):" +:+ nl +:+ nl);
     Sub (Ok (js_or (VStr issueList) (VStr "No issues found")))]);
  mret (content text).

(** [async createIssue(args)], with
    [const { owner, repo, title, body, labels } = args]. *)
Definition createIssue (args : value) : M value :=
  owner ← lift (destructure "args" args "owner");
  repo ← lift (get args "repo");
  title ← lift (get args "title");
  body ← lift (get args "body");
  labels ← lift (get args "labels");
  url ← lift (template [Lit "https://api.github.com/repos/"; Sub (Ok owner);
                        Lit "/"; Sub (Ok repo); Lit "/issues"]);
  data ← makeGitHubRequest url
           (post_options
              (from_option VStr VUndefined
                 (stringify (VObj [("title", title); ("body", body);
                                   ("labels", labels)]))));
  text ← lift (template
    [Lit "Created issue #"; Sub (get data "number"); Lit ": ";
     Sub (get data "title"); Lit (nl +:+ "URL: ");
     Sub (get data "html_url")]);
  mret (content text).

(** [async getFileContent(owner, repo, path, ref = 'main')] *)
Definition getFileContent (owner repo path ref : value) : M value :=
  let ref := default_param ref (VStr "main") in
  url ← lift (template [Lit "https://api.github.com/repos/"; Sub (Ok owner);
                        Lit "/"; Sub (Ok repo); Lit "/contents/";
                        Sub (Ok path); Lit "?ref="; Sub (Ok ref)]);
  data ← makeGitHubRequest url VUndefined;
  type ← lift (get data "type");
  if negb (is_string type "file") then throw "Path is not a file"
  else
    encoded ← lift (get data "content");
    decoded ← lift (base64_utf8 env encoded);
    text ← lift (template
      [Lit "File: "; Sub (Ok path); Lit " ("; Sub (get data "size");
       Lit (" bytes)" +:+ nl +:+ nl); Sub (Ok (VStr decoded))]);
    mret (content text).

(** The [switch (name)] of the [tools/call] handler. *)
Definition run_tool (name args : value) : M value :=
  if is_string name "github_get_repository" then
    owner ← lift (get args "owner");
    repo ← lift (get args "repo");
    getRepository owner repo
  else if is_string name "github_list_repositories" then
    listRepositories args
  else if is_string name "github_list_issues" then
    owner ← lift (get args "owner");
    repo ← lift (get args "repo");
    state ← lift (get args "state");
    listIssues owner repo state
  else if is_string name "github_create_issue" then
    createIssue args
  else if is_string name "github_get_file_content" then
    owner ← lift (get args "owner");
    repo ← lift (get args "repo");
    path ← lift (get args "path");
    ref ← lift (get args "ref");
    getFileContent owner repo path ref
  else
    message ← lift (template [Lit "Unknown tool: "; Sub (Ok name)]);
    throw message.

(** The handler of ['tools/call'] on [request.params]. *)
Definition tools_call (params : value) : M value :=
  name ← lift (destructure "request.params" params "name");
  args ← lift (get params "arguments");
  try_catch (run_tool name args)
    (λ message,
       mret (VObj [("content", text_content ("Error: " +:+ message));
                   ("isError", VBool true)])).

(** The handler of ['tools/list']. *)
Definition tools_list : value := VObj [("tools", VArr tools)].

End Handlers.
End Stdio.

(** ** The extended server

    The last copy of the server in [github-mcp-server.js] adds nineteen
    client methods and nineteen cases to the switch of
    [handleJsonRpcRequest]; the five original cases, the direct-call
    handler and [makeRequest] are unchanged.  A character of a string is
    read as a UTF-16 code unit below 256. *)

Module JsText.

Definition hex_upper (n : N) : ascii :=
  match n with
  | 0%N => "0" | 1%N => "1" | 2%N => "2" | 3%N => "3" | 4%N => "4"
  | 5%N => "5" | 6%N => "6" | 7%N => "7" | 8%N => "8" | 9%N => "9"
  | 10%N => "A" | 11%N => "B" | 12%N => "C" | 13%N => "D" | 14%N => "E"
  | _ => "F"
  end%char.

(** One percent-encoded byte. *)
Definition percent (byte : N) : string :=
  String "%" (String (hex_upper (byte / 16))
                     (String (hex_upper (byte mod 16)) "")).

(** The characters [encodeURIComponent] leaves alone: letters, digits and
    [- _ . ! ~ * ' ( )]. *)
Definition unreserved (c : ascii) : bool :=
  let n := N_of_ascii c in
  ((48 <=? n) && (n <=? 57) || (65 <=? n) && (n <=? 90)
   || (97 <=? n) && (n <=? 122))%N
  || existsb (Ascii.eqb c) (list_ascii_of_string "-_.!~*'()").

(** [encodeURIComponent(s)]: the UTF-8 bytes of every other character,
    percent-encoded. *)
Fixpoint encodeURIComponent (s : string) : string :=
  match s with
  | "" => ""
  | String c rest =>
      let n := N_of_ascii c in
      (if unreserved c then String c ""
       else if (n <? 128)%N then percent n
       else percent (192 + n / 64) +:+ percent (128 + n mod 64))
      +:+ encodeURIComponent rest
  end.

(** [s.split(sep)] for a one-character separator. *)
Fixpoint split (sep : ascii) (s : string) : list string :=
  match s with
  | "" => [""]
  | String c rest =>
      if Ascii.eqb c sep then "" :: split sep rest
      else match split sep rest with
           | first :: others => String c first :: others
           | [] => [String c ""]
           end
  end.

(** [s.slice(0, n)] *)
Fixpoint prefix (n : nat) (s : string) : string :=
  match n, s with
  | S n', String c rest => String c (prefix n' rest)
  | _, _ => ""
  end.

(** What [Array.prototype.join] makes of one element. *)
Definition join_element (v : value) : result string :=
  match v with
  | VUndefined | VNull => Ok ""
  | _ => to_string v
  end.

(** [items.join(sep)] *)
Definition join (sep : string) (items : list value) : result string :=
  String.concat sep <$> mapM join_element items.

(** [v.split('\n')[0]], where [what] is the source text of [v]. *)
Definition first_line (what : string) (v : value) : result value :=
  match v with
  | VUndefined =>
      Throw "Cannot read properties of undefined (reading 'split')"
  | VNull => Throw "Cannot read properties of null (reading 'split')"
  | VStr s => Ok (VStr (hd "" (split "010" s)))
  | _ => Throw (what +:+ ".split is not a function")
  end.

(** [v.slice(0, 7)] *)
Definition slice_0_7 (what : string) (v : value) : result value :=
  match v with
  | VUndefined =>
      Throw "Cannot read properties of undefined (reading 'slice')"
  | VNull => Throw "Cannot read properties of null (reading 'slice')"
  | VStr s => Ok (VStr (prefix 7 s))
  | VArr items => Ok (VArr (take 7 items))
  | _ => Throw (what +:+ ".slice is not a function")
  end.

(** [v.split('/').slice(-2).join('/')] *)
Definition last_two_segments (what : string) (v : value) : result value :=
  match v with
  | VUndefined =>
      Throw "Cannot read properties of undefined (reading 'split')"
  | VNull => Throw "Cannot read properties of null (reading 'split')"
  | VStr s =>
      let segments := split "/" s in
      Ok (VStr (String.concat "/"
                  (drop (length segments - 2) segments)))
  | _ => Throw (what +:+ ".split is not a function")
  end.

(** [v.map(f)] for an [f] that returns values. *)
Definition map_values (what : string) (v : value) (f : value → result value)
  : result (list value) :=
  _ ← get v "map";
  match v with
  | VArr items => mapM f items
  | _ => Throw (what +:+ ".map is not a function")
  end.

End JsText.

Module Extended.
Import Server JsText.

Section Client.
Variable env : Env.

Local Notation makeRequest := (Server.makeRequest env).

(** [{ method, headers: { 'Content-Type': 'application/json' }, body }] *)
Definition method_options (method : string) (body : value) : value :=
  VObj [("method", VStr method);
        ("headers", VObj [("Content-Type", VStr "application/json")]);
        ("body", body)].

(** [JSON.stringify(data)] as a value. *)
Definition json_body (data : value) : value :=
  from_option VStr VUndefined (stringify data).

(** [listPullRequests(owner, repo, state = 'open', per_page = 30)] *)
Definition listPullRequests (owner repo state per_page : value) : M value :=
  let state := default_param state (VStr "open") in
  let per_page := default_param per_page (VNum 30) in
  endpoint ← lift (template [Lit "/repos/"; Sub (Ok owner); Lit "/";
                             Sub (Ok repo); Lit "/pulls?state=";
                             Sub (Ok state); Lit "&per_page=";
                             Sub (Ok per_page)]);
  makeRequest endpoint VUndefined.

(** [getPullRequest(owner, repo, pull_number)] *)
Definition getPullRequest (owner repo pull_number : value) : M value :=
  endpoint ← lift (template [Lit "/repos/"; Sub (Ok owner); Lit "/";
                             Sub (Ok repo); Lit "/pulls/";
                             Sub (Ok pull_number)]);
  makeRequest endpoint VUndefined.

(** [createPullRequest(owner, repo, data)] *)
Definition createPullRequest (owner repo data : value) : M value :=
  endpoint ← lift (template [Lit "/repos/"; Sub (Ok owner); Lit "/";
                             Sub (Ok repo); Lit "/pulls"]);
  makeRequest endpoint (method_options "POST" (json_body data)).

(** [mergePullRequest(owner, repo, pull_number, data = {})] *)
Definition mergePullRequest (owner repo pull_number data : value) : M value :=
  let data := default_param data (VObj []) in
  endpoint ← lift (template [Lit "/repos/"; Sub (Ok owner); Lit "/";
                             Sub (Ok repo); Lit "/pulls/";
                             Sub (Ok pull_number); Lit "/merge"]);
  makeRequest endpoint (method_options "PUT" (json_body data)).

(** [listBranches(owner, repo, per_page = 30)] *)
Definition listBranches (owner repo per_page : value) : M value :=
  let per_page := default_param per_page (VNum 30) in
  endpoint ← lift (template [Lit "/repos/"; Sub (Ok owner); Lit "/";
                             Sub (Ok repo); Lit "/branches?per_page=";
                             Sub (Ok per_page)]);
  makeRequest endpoint VUndefined.

(** [getBranch(owner, repo, branch)] *)
Definition getBranch (owner repo branch : value) : M value :=
  endpoint ← lift (template [Lit "/repos/"; Sub (Ok owner); Lit "/";
                             Sub (Ok repo); Lit "/branches/";
                             Sub (Ok branch)]);
  makeRequest endpoint VUndefined.

(** [createBranch(owner, repo, branch, sha)] *)
Definition createBranch (owner repo branch sha : value) : M value :=
  endpoint ← lift (template [Lit "/repos/"; Sub (Ok owner); Lit "/";
                             Sub (Ok repo); Lit "/git/refs"]);
  ref ← lift (template [Lit "refs/heads/"; Sub (Ok branch)]);
  makeRequest endpoint
    (method_options "POST"
       (json_body (VObj [("ref", VStr ref); ("sha", sha)]))).

(** [listCommits(owner, repo, sha = null, per_page = 30)] *)
Definition listCommits (owner repo sha per_page : value) : M value :=
  let sha := default_param sha VNull in
  let per_page := default_param per_page (VNum 30) in
  query ← lift (if truthy sha
                then template [Lit "?sha="; Sub (Ok sha); Lit "&per_page=";
                               Sub (Ok per_page)]
                else template [Lit "?per_page="; Sub (Ok per_page)]);
  endpoint ← lift (template [Lit "/repos/"; Sub (Ok owner); Lit "/";
                             Sub (Ok repo); Lit "/commits";
                             Sub (Ok (VStr query))]);
  makeRequest endpoint VUndefined.

(** [getCommit(owner, repo, ref)] *)
Definition getCommit (owner repo ref : value) : M value :=
  endpoint ← lift (template [Lit "/repos/"; Sub (Ok owner); Lit "/";
                             Sub (Ok repo); Lit "/commits/"; Sub (Ok ref)]);
  makeRequest endpoint VUndefined.

(** The endpoint of the three search methods:
    [`/search/${what}?q=${encodeURIComponent(query)}&per_page=${per_page}`] *)
Definition search (what : string) (query per_page : value) : M value :=
  let per_page := default_param per_page (VNum 30) in
  endpoint ← lift (template
    [Lit ("/search/" +:+ what +:+ "?q=");
     Sub (q ← to_string query; Ok (VStr (encodeURIComponent q)));
     Lit "&per_page="; Sub (Ok per_page)]);
  makeRequest endpoint VUndefined.

(** [searchRepositories(query, per_page = 30)] *)
Definition searchRepositories := search "repositories".
(** [searchCode(query, per_page = 30)] *)
Definition searchCode := search "code".
(** [searchIssues(query, per_page = 30)] *)
Definition searchIssues := search "issues".

(** [listIssueComments(owner, repo, issue_number)] *)
Definition listIssueComments (owner repo issue_number : value) : M value :=
  endpoint ← lift (template [Lit "/repos/"; Sub (Ok owner); Lit "/";
                             Sub (Ok repo); Lit "/issues/";
                             Sub (Ok issue_number); Lit "/comments"]);
  makeRequest endpoint VUndefined.

(** [createIssueComment(owner, repo, issue_number, body)] *)
Definition createIssueComment (owner repo issue_number body : value)
  : M value :=
  endpoint ← lift (template [Lit "/repos/"; Sub (Ok owner); Lit "/";
                             Sub (Ok repo); Lit "/issues/";
                             Sub (Ok issue_number); Lit "/comments"]);
  makeRequest endpoint
    (method_options "POST" (json_body (VObj [("body", body)]))).

(** [updateIssue(owner, repo, issue_number, data)] *)
Definition updateIssue (owner repo issue_number data : value) : M value :=
  endpoint ← lift (template [Lit "/repos/"; Sub (Ok owner); Lit "/";
                             Sub (Ok repo); Lit "/issues/";
                             Sub (Ok issue_number)]);
  makeRequest endpoint (method_options "PATCH" (json_body data)).

(** [createOrUpdateFile(owner, repo, path, data)] *)
Definition createOrUpdateFile (owner repo path data : value) : M value :=
  endpoint ← lift (template [Lit "/repos/"; Sub (Ok owner); Lit "/";
                             Sub (Ok repo); Lit "/contents/"; Sub (Ok path)]);
  makeRequest endpoint (method_options "PUT" (json_body data)).

(** [createRepository(data)] *)
Definition createRepository (data : value) : M value :=
  makeRequest "/user/repos" (method_options "POST" (json_body data)).

(** The options of [forkRepository]: no [body]. *)
Definition fork_options : value :=
  VObj [("method", VStr "POST");
        ("headers", VObj [("Content-Type", VStr "application/json")])].

(** [forkRepository(owner, repo)] *)
Definition forkRepository (owner repo : value) : M value :=
  endpoint ← lift (template [Lit "/repos/"; Sub (Ok owner); Lit "/";
                             Sub (Ok repo); Lit "/forks"]);
  makeRequest endpoint fork_options.

(** [getAuthenticatedUser()] *)
Definition getAuthenticatedUser : M value := makeRequest "/user" VUndefined.

(** [getUser(username)] *)
Definition getUser (username : value) : M value :=
  endpoint ← lift (template [Lit "/users/"; Sub (Ok username)]);
  makeRequest endpoint VUndefined.

(** *** The cases added to the switch of [handleJsonRpcRequest]

    The five cases of the first server and the [default] are textually
    unchanged, so the switch falls back on [Server.run_tool] for them. *)

(** [`#${pr.number}: ${pr.title} (${pr.state}) - ${pr.user.login}`] *)
Definition pr_line (pr : value) : result string :=
  template [Lit "#"; Sub (get pr "number"); Lit ": ";
            Sub (get pr "title"); Lit " ("; Sub (get pr "state");
            Lit ") - "; Sub (user ← get pr "user"; get user "login")].

Definition commit_line (commit : value) : result string :=
  template
    [Sub (sha ← get commit "sha"; slice_0_7 "commit.sha" sha); Lit ": ";
     Sub (c ← get commit "commit"; m ← get c "message";
          first_line "commit.commit.message" m);
     Lit " - "; Sub (author ← get commit "author"; get author "login")].

Definition found_repo_line (repo : value) : result string :=
  template [Sub (get repo "full_name"); Lit " - ";
            Sub (d ← get repo "description";
                 Ok (js_or d (VStr "No description")));
            Lit " (Stars: "; Sub (get repo "stargazers_count"); Lit ")"].

Definition found_code_line (code : value) : result string :=
  template [Sub (r ← get code "repository"; get r "full_name"); Lit "/";
            Sub (get code "path")].

Definition found_issue_line (issue : value) : result string :=
  template
    [Sub (u ← get issue "repository_url";
          last_two_segments "issue.repository_url" u);
     Lit "#"; Sub (get issue "number"); Lit ": "; Sub (get issue "title");
     Lit " ("; Sub (get issue "state"); Lit ")"].

Definition comment_line (comment : value) : result string :=
  template
    [Sub (user ← get comment "user"; get user "login"); Lit " at ";
     Sub (get comment "created_at"); Lit ": ";
     Sub (b ← get comment "body"; first_line "comment.body" b)].

(** [`… search results for "${args.query}":\n\n${list}`] *)
Definition search_text (kind : string) (args : value) (list : string)
  : result string :=
  template [Lit (kind +:+ " search results for " +:+ String dquote "");
            Sub (get args "query");
            Lit (String dquote ":" +:+ nl +:+ nl); Sub (Ok (VStr list))].

Definition run_tool (name args : value) : M string :=
  if is_string name "github_list_pull_requests" then
    owner ← lift (get args "owner");
    repo ← lift (get args "repo");
    state ← lift (get args "state");
    per_page ← lift (get args "per_page");
    pullRequests ← listPullRequests owner repo state per_page;
    lines ← lift (js_map "pullRequests" pullRequests pr_line);
    let prList := String.concat nl lines in
    lift (template
      [Lit "Pull Requests in "; Sub (get args "owner"); Lit "/";
       Sub (get args "repo"); Lit " ("; Sub (get args "state");
       Lit ("):" +:+ nl +:+ nl);
       Sub (Ok (js_or (VStr prList) (VStr "No pull requests found")))])
  else if is_string name "github_get_pull_request" then
    owner ← lift (get args "owner");
    repo ← lift (get args "repo");
    pull_number ← lift (get args "pull_number");
    pullRequest ← getPullRequest owner repo pull_number;
    lift (template
      [Lit "Pull Request #"; Sub (get pullRequest "number"); Lit ": ";
       Sub (get pullRequest "title");
       Lit (nl +:+ "State: "); Sub (get pullRequest "state");
       Lit (nl +:+ "Author: ");
       Sub (user ← get pullRequest "user"; get user "login");
       Lit (nl +:+ "Created: "); Sub (get pullRequest "created_at");
       Lit (nl +:+ "URL: "); Sub (get pullRequest "html_url")])
  else if is_string name "github_create_pull_request" then
    owner ← lift (get args "owner");
    repo ← lift (get args "repo");
    title ← lift (get args "title");
    head ← lift (get args "head");
    base ← lift (get args "base");
    body ← lift (get args "body");
    newPullRequest ← createPullRequest owner repo
      (VObj [("title", title); ("head", head); ("base", base);
             ("body", body)]);
    lift (template
      [Lit "Created pull request #"; Sub (get newPullRequest "number");
       Lit ": "; Sub (get newPullRequest "title"); Lit (nl +:+ "URL: ");
       Sub (get newPullRequest "html_url")])
  else if is_string name "github_merge_pull_request" then
    owner ← lift (get args "owner");
    repo ← lift (get args "repo");
    pull_number ← lift (get args "pull_number");
    merge_method ← lift (get args "merge_method");
    mergedPullRequest ← mergePullRequest owner repo pull_number
      (VObj [("merge_method", js_or merge_method (VStr "merge"))]);
    lift (template
      [Lit "Pull Request #"; Sub (get args "pull_number");
       Lit " merged successfully: "; Sub (get mergedPullRequest "message")])
  else if is_string name "github_list_branches" then
    owner ← lift (get args "owner");
    repo ← lift (get args "repo");
    per_page ← lift (get args "per_page");
    branches ← listBranches owner repo per_page;
    names ← lift (map_values "branches" branches (λ branch, get branch "name"));
    branchList ← lift (join nl names);
    lift (template
      [Lit "Branches in "; Sub (get args "owner"); Lit "/";
       Sub (get args "repo"); Lit (":" +:+ nl +:+ nl);
       Sub (Ok (VStr branchList))])
  else if is_string name "github_get_branch" then
    owner ← lift (get args "owner");
    repo ← lift (get args "repo");
    branch_name ← lift (get args "branch");
    branch ← getBranch owner repo branch_name;
    lift (template
      [Lit "Branch "; Sub (get args "branch"); Lit " in ";
       Sub (get args "owner"); Lit "/"; Sub (get args "repo");
       Lit (nl +:+ "SHA: ");
       Sub (commit ← get branch "commit"; get commit "sha");
       Lit (nl +:+ "Protected: "); Sub (get branch "protected")])
  else if is_string name "github_create_branch" then
    owner ← lift (get args "owner");
    repo ← lift (get args "repo");
    branch ← lift (get args "branch");
    from_branch ← lift (get args "from_branch");
    _ ← createBranch owner repo branch (js_or from_branch (VStr "main"));
    lift (template
      [Lit "Created branch "; Sub (get args "branch"); Lit " in ";
       Sub (get args "owner"); Lit "/"; Sub (get args "repo")])
  else if is_string name "github_list_commits" then
    owner ← lift (get args "owner");
    repo ← lift (get args "repo");
    sha ← lift (get args "sha");
    per_page ← lift (get args "per_page");
    commits ← listCommits owner repo sha per_page;
    lines ← lift (js_map "commits" commits commit_line);
    let commitList := String.concat nl lines in
    lift (template
      [Lit "Commits in "; Sub (get args "owner"); Lit "/";
       Sub (get args "repo"); Lit (":" +:+ nl +:+ nl);
       Sub (Ok (VStr commitList))])
  else if is_string name "github_get_commit" then
    owner ← lift (get args "owner");
    repo ← lift (get args "repo");
    ref ← lift (get args "ref");
    commitDetails ← getCommit owner repo ref;
    lift (template
      [Lit "Commit "; Sub (get commitDetails "sha");
       Lit (nl +:+ "Author: ");
       Sub (author ← get commitDetails "author"; get author "login");
       Lit (nl +:+ "Date: ");
       Sub (c ← get commitDetails "commit"; a ← get c "author";
            get a "date");
       Lit (nl +:+ "Message: ");
       Sub (c ← get commitDetails "commit"; get c "message")])
  else if is_string name "github_search_repositories" then
    query ← lift (get args "query");
    per_page ← lift (get args "per_page");
    repoSearchResults ← searchRepositories query per_page;
    items ← lift (get repoSearchResults "items");
    lines ← lift (js_map "repoSearchResults.items" items found_repo_line);
    lift (search_text "Repository" args (String.concat nl lines))
  else if is_string name "github_search_code" then
    query ← lift (get args "query");
    per_page ← lift (get args "per_page");
    codeSearchResults ← searchCode query per_page;
    items ← lift (get codeSearchResults "items");
    lines ← lift (js_map "codeSearchResults.items" items found_code_line);
    lift (search_text "Code" args (String.concat nl lines))
  else if is_string name "github_search_issues" then
    query ← lift (get args "query");
    per_page ← lift (get args "per_page");
    issueSearchResults ← searchIssues query per_page;
    items ← lift (get issueSearchResults "items");
    lines ← lift (js_map "issueSearchResults.items" items found_issue_line);
    lift (search_text "Issue" args (String.concat nl lines))
  else if is_string name "github_list_issue_comments" then
    owner ← lift (get args "owner");
    repo ← lift (get args "repo");
    issue_number ← lift (get args "issue_number");
    issueComments ← listIssueComments owner repo issue_number;
    lines ← lift (js_map "issueComments" issueComments comment_line);
    let commentList := String.concat nl lines in
    lift (template
      [Lit "Comments on issue #"; Sub (get args "issue_number"); Lit " in ";
       Sub (get args "owner"); Lit "/"; Sub (get args "repo");
       Lit (":" +:+ nl +:+ nl);
       Sub (Ok (js_or (VStr commentList) (VStr "No comments")))])
  else if is_string name "github_create_issue_comment" then
    owner ← lift (get args "owner");
    repo ← lift (get args "repo");
    issue_number ← lift (get args "issue_number");
    body ← lift (get args "body");
    newComment ← createIssueComment owner repo issue_number body;
    lift (template
      [Lit "Comment added to issue #"; Sub (get args "issue_number");
       Lit " in "; Sub (get args "owner"); Lit "/"; Sub (get args "repo");
       Lit (nl +:+ "URL: "); Sub (get newComment "html_url")])
  else if is_string name "github_update_issue" then
    owner ← lift (get args "owner");
    repo ← lift (get args "repo");
    issue_number ← lift (get args "issue_number");
    state ← lift (get args "state");
    title ← lift (get args "title");
    body ← lift (get args "body");
    updatedIssue ← updateIssue owner repo issue_number
      (VObj [("state", state); ("title", title); ("body", body)]);
    lift (template
      [Lit "Updated issue #"; Sub (get updatedIssue "number"); Lit " in ";
       Sub (get args "owner"); Lit "/"; Sub (get args "repo");
       Lit (nl +:+ "State: "); Sub (get updatedIssue "state")])
  else if is_string name "github_create_or_update_file" then
    owner ← lift (get args "owner");
    repo ← lift (get args "repo");
    path ← lift (get args "path");
    message ← lift (get args "message");
    content ← lift (get args "content");
    branch ← lift (get args "branch");
    (* three arguments for the four parameters (owner, repo, path, data) *)
    fileUpdate ← createOrUpdateFile owner repo
      (VObj [("path", path); ("message", message); ("content", content);
             ("branch", branch)])
      VUndefined;
    lift (template
      [Sub (c ← get fileUpdate "content"; type ← get c "type";
            Ok (VStr (if is_string type "file" then "Created"
                      else "Updated")));
       Lit " file "; Sub (get args "path"); Lit " in ";
       Sub (get args "owner"); Lit "/"; Sub (get args "repo");
       Lit (nl +:+ "Commit: ");
       Sub (commit ← get fileUpdate "commit"; get commit "sha")])
  else if is_string name "github_create_repository" then
    repo_name ← lift (get args "name");
    description ← lift (get args "description");
    private ← lift (get args "private");
    newRepository ← createRepository
      (VObj [("name", repo_name); ("description", description);
             ("private", js_or private (VBool false))]);
    lift (template
      [Lit "Created repository "; Sub (get newRepository "full_name");
       Lit (nl +:+ "URL: "); Sub (get newRepository "html_url")])
  else if is_string name "github_fork_repository" then
    owner ← lift (get args "owner");
    repo ← lift (get args "repo");
    _ ← lift (get args "organization");
    forkedRepo ← forkRepository owner repo;
    lift (template
      [Lit "Forked "; Sub (get args "owner"); Lit "/"; Sub (get args "repo");
       Lit " to "; Sub (get forkedRepo "full_name")])
  else if is_string name "github_get_user" then
    username ← lift (get args "username");
    userDetails ← getUser username;
    lift (template
      [Lit "User: ";
       Sub (n ← get userDetails "name";
            if truthy n then Ok n else get userDetails "login");
       Lit (nl +:+ "Email: ");
       Sub (e ← get userDetails "email"; Ok (js_or e (VStr "N/A")));
       Lit (nl +:+ "Company: ");
       Sub (c ← get userDetails "company"; Ok (js_or c (VStr "N/A")));
       Lit (nl +:+ "Public Repos: "); Sub (get userDetails "public_repos");
       Lit (nl +:+ "Followers: "); Sub (get userDetails "followers")])
  else
    Server.run_tool env name args.

(** *** The catalog of [tools/list]

    The array literal [tools] of [handleJsonRpcRequest]: the five
    descriptors of the first server, unchanged, followed by nineteen more. *)

Definition added_tools : list value :=
  [ tool "github_list_pull_requests" "List pull requests in a repository"
      [("owner", string_prop "Repository owner");
       ("repo", string_prop "Repository name");
       ("state",
        VObj [("type", VStr "string");
              ("enum", VArr [VStr "open"; VStr "closed"; VStr "all"]);
              ("default", VStr "open")]);
       ("per_page",
        VObj [("type", VStr "number");
              ("description", VStr "Number of results per page");
              ("default", VNum 30)])]
      (Some ["owner"; "repo"]);
    tool "github_get_pull_request" "Get details of a specific pull request"
      [("owner", string_prop "Repository owner");
       ("repo", string_prop "Repository name");
       ("pull_number",
        VObj [("type", VStr "number");
              ("description", VStr "Pull request number")])]
      (Some ["owner"; "repo"; "pull_number"]);
    tool "github_create_pull_request" "Create a new pull request"
      [("owner", string_prop "Repository owner");
       ("repo", string_prop "Repository name");
       ("title", string_prop "Pull request title");
       ("head", string_prop "Name of the branch with the changes");
       ("base", string_prop "Name of the branch to merge changes into");
       ("body", string_prop "Pull request description")]
      (Some ["owner"; "repo"; "title"; "head"; "base"]);
    tool "github_merge_pull_request" "Merge an existing pull request"
      [("owner", string_prop "Repository owner");
       ("repo", string_prop "Repository name");
       ("pull_number",
        VObj [("type", VStr "number");
              ("description", VStr "Pull request number")]);
       ("merge_method",
        VObj [("type", VStr "string");
              ("enum", VArr [VStr "merge"; VStr "squash"; VStr "rebase"]);
              ("default", VStr "merge")])]
      (Some ["owner"; "repo"; "pull_number"]);
    tool "github_list_branches" "List branches in a repository"
      [("owner", string_prop "Repository owner");
       ("repo", string_prop "Repository name");
       ("per_page",
        VObj [("type", VStr "number");
              ("description", VStr "Number of results per page");
              ("default", VNum 30)])]
      (Some ["owner"; "repo"]);
    tool "github_get_branch" "Get details of a specific branch"
      [("owner", string_prop "Repository owner");
       ("repo", string_prop "Repository name");
       ("branch", string_prop "Branch name")]
      (Some ["owner"; "repo"; "branch"]);
    tool "github_create_branch" "Create a new branch in a repository"
      [("owner", string_prop "Repository owner");
       ("repo", string_prop "Repository name");
       ("branch", string_prop "Name of the new branch");
       ("from_branch",
        VObj [("type", VStr "string");
              ("description", VStr "Source branch to create from");
              ("default", VStr "main")])]
      (Some ["owner"; "repo"; "branch"]);
    tool "github_list_commits" "List commits in a repository"
      [("owner", string_prop "Repository owner");
       ("repo", string_prop "Repository name");
       ("sha", string_prop "SHA or branch to start from");
       ("per_page",
        VObj [("type", VStr "number");
              ("description", VStr "Number of results per page");
              ("default", VNum 30)])]
      (Some ["owner"; "repo"]);
    tool "github_get_commit" "Get details of a specific commit"
      [("owner", string_prop "Repository owner");
       ("repo", string_prop "Repository name");
       ("ref", string_prop "Commit SHA")]
      (Some ["owner"; "repo"; "ref"]);
    tool "github_search_repositories" "Search for repositories"
      [("query", string_prop "Search query");
       ("per_page",
        VObj [("type", VStr "number");
              ("description", VStr "Number of results per page");
              ("default", VNum 30)])]
      (Some ["query"]);
    tool "github_search_code" "Search for code in repositories"
      [("query", string_prop "Search query");
       ("per_page",
        VObj [("type", VStr "number");
              ("description", VStr "Number of results per page");
              ("default", VNum 30)])]
      (Some ["query"]);
    tool "github_search_issues" "Search for issues across repositories"
      [("query", string_prop "Search query");
       ("per_page",
        VObj [("type", VStr "number");
              ("description", VStr "Number of results per page");
              ("default", VNum 30)])]
      (Some ["query"]);
    tool "github_list_issue_comments" "List comments on an issue"
      [("owner", string_prop "Repository owner");
       ("repo", string_prop "Repository name");
       ("issue_number",
        VObj [("type", VStr "number");
              ("description", VStr "Issue number")])]
      (Some ["owner"; "repo"; "issue_number"]);
    tool "github_create_issue_comment" "Add a comment to an issue"
      [("owner", string_prop "Repository owner");
       ("repo", string_prop "Repository name");
       ("issue_number",
        VObj [("type", VStr "number");
              ("description", VStr "Issue number")]);
       ("body", string_prop "Comment body")]
      (Some ["owner"; "repo"; "issue_number"; "body"]);
    tool "github_update_issue" "Update an existing issue"
      [("owner", string_prop "Repository owner");
       ("repo", string_prop "Repository name");
       ("issue_number",
        VObj [("type", VStr "number");
              ("description", VStr "Issue number")]);
       ("state",
        VObj [("type", VStr "string");
              ("enum", VArr [VStr "open"; VStr "closed"]);
              ("description", VStr "Issue state")]);
       ("title", string_prop "Issue title");
       ("body", string_prop "Issue body")]
      (Some ["owner"; "repo"; "issue_number"]);
    tool "github_create_or_update_file"
      "Create or update a file in a repository"
      [("owner", string_prop "Repository owner");
       ("repo", string_prop "Repository name");
       ("path", string_prop "File path");
       ("message", string_prop "Commit message");
       ("content", string_prop "Base64 encoded file content");
       ("branch",
        VObj [("type", VStr "string");
              ("description", VStr "Branch to update");
              ("default", VStr "main")])]
      (Some ["owner"; "repo"; "path"; "message"; "content"]);
    tool "github_create_repository" "Create a new repository"
      [("name", string_prop "Repository name");
       ("description", string_prop "Repository description");
       ("private",
        VObj [("type", VStr "boolean");
              ("description", VStr "Make repository private");
              ("default", VBool false)])]
      (Some ["name"]);
    tool "github_fork_repository" "Fork a repository"
      [("owner", string_prop "Repository owner");
       ("repo", string_prop "Repository name");
       ("organization", string_prop "Optional organization to fork into")]
      (Some ["owner"; "repo"]);
    tool "github_get_user" "Get details of a GitHub user"
      [("username", string_prop "GitHub username")]
      (Some ["username"]) ].

Definition tools : list value := Server.tools ++ added_tools.

(** The names of the catalog, in declaration order. *)
Definition tool_names : list string :=
  omap (λ t, match get t "name" with Ok (VStr n) => Some n | _ => None end)
       tools.

(** [async function handleJsonRpcRequest(message)] *)
Definition handleJsonRpcRequest (message : value) : M value :=
  _ ← lift (destructure "message" message "jsonrpc");
  id ← lift (get message "id");
  method ← lift (get message "method");
  params ← lift (get message "params");
  if is_string method "initialize" then
    mret (rpc_result id
            (VObj [("protocolVersion", VStr "2024-11-05");
                   ("capabilities", VObj [("tools", VObj [])]);
                   ("serverInfo",
                    VObj [("name", VStr "github-mcp-server");
                          ("version", VStr "1.0.0")])]))
  else if is_string method "tools/list" then
    mret (rpc_result id (VObj [("tools", VArr tools)]))
  else if is_string method "tools/call" then
    name ← lift (destructure "params" params "name");
    args ← lift (get params "arguments");
    try_catch
      (content ← run_tool name args;
       mret (rpc_result id (VObj [("content", text_content content)])))
      (λ message, mret (rpc_error id (-32000) message))
  else
    mret (rpc_error id (-32601) "Method not found").

End Client.

(** *** Sample data *)

Definition sample_merge : value :=
  VObj [("merged", VBool true);
        ("message", VStr "Pull Request successfully merged")].

Definition sample_file_update : value :=
  VObj [("content", VObj [("type", VStr "file")]);
        ("commit", VObj [("sha", VStr "abc1234")])].

(** *** Vocabulary of the statements *)

(** The names of the nineteen descriptors the extended catalog adds. *)
Definition added_names : list string :=
  omap (λ t, match get t "name" with Ok (VStr n) => Some n | _ => None end)
       added_tools.

(** A computation that neither reads nor changes the state. *)
Definition pure {A} (m : M A) : Prop := ∃ r, ∀ st, m st = (r, st).

(** The [options] of the writing client methods: a method, the
    [Content-Type] header and, [forkRepository] apart, a body. *)
Definition write_options (o : value) : Prop :=
  o = fork_options ∨ ∃ method body, o = method_options method body.

End Extended.

(** ** Further vocabulary *)

Module Replies.
Import Server.

(** The JSON-RPC reply to a call whose switch ended in [r]. *)
Definition rpc_reply (id : value) (r : result string) : value :=
  match r with
  | Ok text => rpc_result id (VObj [("content", text_content text)])
  | Throw m => rpc_error id (-32000) m
  end.

End Replies.

Module SseInvariants.
Import Sse.

Section Invariants.
Variable PORT : string.
Variable uuidv4 : nat → string.

(** The [sessions] map holds exactly the open connections, each under
    the identifier drawn for it. *)
Definition registry_exact (l : Loop) : Prop :=
  ∀ sid s,
    sessions l !! sid = Some s ↔
    ∃ c, connections l !! res s = Some c ∧ closed c = false ∧
         sid = uuidv4 (res s) ∧ id s = sid.

(** What every connection record looks like: the identifier of its
    number; the endpoint message followed by pings and nothing else; an
    interval exactly when it is open, due within the next period. *)
Definition connection_ok (l : Loop) (conn : nat) (c : Connection) : Prop :=
  sessionId c = uuidv4 conn ∧
  (∃ k, written c = handshake PORT :: replicate k ping) ∧
  if closed c then keepAliveInterval c = None
  else ∃ due, keepAliveInterval c = Some due ∧
              now l < due ≤ now l + PING_INTERVAL.

Definition connections_ok (l : Loop) : Prop :=
  ∀ conn c, connections l !! conn = Some c → connection_ok l conn c.

End Invariants.
End SseInvariants.

(** ** Reasoning about the embedding *)

Import Server.

Ltac decide_now := apply (bool_decide_unpack _); vm_compute; exact I.

Lemma string_app_cons a s t : String a s +:+ t = String a (s +:+ t).
Proof. reflexivity. Qed.

Lemma string_app_nil_r s : s +:+ "" = s.
Proof. induction s as [|a s IH]; [done|]. by rewrite string_app_cons, IH. Qed.

(** *** The cache key determines the request *)

Section KeyFacts.

Notation chars := list_ascii_of_string.

Lemma chars_app s t : chars (s +:+ t) = (chars s ++ chars t)%list.
Proof. induction s as [|a s IH]; [done|]. simpl. by rewrite <- IH. Qed.

Lemma chars_inj s t : chars s = chars t → s = t.
Proof.
  intros H. rewrite <- (string_of_list_ascii_of_string s),
    <- (string_of_list_ascii_of_string t). by rewrite H.
Qed.

Lemma unescape_escape_char c l :
  unescape_char (chars (escape_char c) ++ l) = Some (c, l).
Proof. by destruct c as [[] [] [] [] [] [] [] []]. Qed.

Lemma escape_inj b1 b2 : chars (escape b1) = chars (escape b2) → b1 = b2.
Proof.
  revert b2. induction b1 as [|c1 b1 IH]; intros [|c2 b2]; simpl; [done|..].
  - rewrite chars_app. intros H.
    apply (f_equal unescape_char) in H.
    by rewrite unescape_escape_char in H.
  - rewrite chars_app. intros H.
    apply (f_equal unescape_char) in H.
    by rewrite unescape_escape_char in H.
  - rewrite !chars_app. intros H.
    apply (f_equal unescape_char) in H.
    rewrite !unescape_escape_char in H. injection H as -> H.
    by rewrite (IH _ H).
Qed.

(** A character that does not occur in [p] is found behind [p]. *)
Lemma skip_prefix (c : ascii) (p x l y : list ascii) :
  Forall (λ a, a ≠ c) p →
  (p ++ x = l ++ c :: y)%list →
  ∃ l', l = (p ++ l')%list ∧ x = (l' ++ c :: y)%list.
Proof.
  intros Hp. revert l. induction Hp as [|a p Ha _ IH]; intros l; simpl.
  - intros ->. by exists l.
  - destruct l as [|a' l]; simpl; intros [= -> H]; [done|].
    destruct (IH _ H) as (l' & -> & ->). by exists l'.
Qed.

(** An escape is the brace itself or contains no brace, and never starts
    with a double quote. *)
Lemma escape_char_brace c :
  chars (escape_char c) = ["{"%char] ∨
  Forall (λ a, a ≠ "{"%char) (chars (escape_char c)).
Proof.
  destruct c as [[] [] [] [] [] [] [] []];
    first [by left | right; vm_compute; by repeat constructor].
Qed.

Lemma escape_char_head c l rest : (chars (escape_char c) ++ l)%list ≠ dquote :: rest.
Proof. by destruct c as [[] [] [] [] [] [] [] []]. Qed.

(** An opening brace followed by a double quote and the letter m (the
    start of the POST literal) does not occur in an escaped body followed
    by its closing quote and brace: a quote inside the body is behind a
    backslash. *)
Lemma no_brace_quote b pre rest :
  (chars (escape b) ++ chars post_suffix)%list
  ≠ (pre ++ "{"%char :: dquote :: "m"%char :: rest)%list.
Proof.
  revert pre. induction b as [|c b IH]; intros pre; simpl.
  - by destruct pre as [|? [|? [|? ?]]].
  - rewrite chars_app, <- app_assoc. intros H.
    destruct (escape_char_brace c) as [Hc|Hc].
    + rewrite Hc in H. destruct pre as [|a pre]; simpl in H.
      * injection H as H. destruct b as [|c' b]; simpl in H; [done|].
        rewrite chars_app, <- app_assoc in H.
        by apply escape_char_head in H.
      * injection H as _ H. by apply IH in H.
    + destruct (skip_prefix _ _ _ _ _ Hc H) as (l' & _ & H').
      by apply IH in H'.
Qed.

Lemma chars_post_prefix :
  Forall (λ a, a ≠ "_"%char) (chars post_prefix) ∧
  ∃ rest, chars post_prefix = "{"%char :: dquote :: "m"%char :: rest.
Proof. split; [vm_compute; by repeat constructor|by eexists]. Qed.

Lemma stringify_post_options body :
  stringify (post_options (VStr body))
  = Some (post_prefix +:+ escape body +:+ post_suffix).
Proof.
  unfold post_options, post_prefix, post_suffix. simpl. f_equal.
  unfold quote. apply chars_inj. rewrite !chars_app. simpl.
  rewrite !chars_app. simpl. by rewrite <- !app_assoc.
Qed.

(** One options text cannot start inside another one, behind an
    underscore. *)
Lemma no_overlap l j1 j2 :
  options_text j1 → options_text j2 →
  "_"%char :: j2 = (l ++ "_"%char :: j1)%list → l = [].
Proof.
  intros H1 H2 H. destruct l as [|c l]; [done|]. exfalso.
  injection H as _ H. destruct H2 as [|b2].
  - by destruct l as [|? [|? [|? ?]]].
  - destruct chars_post_prefix as [Hp [rest Hrest]].
    destruct (skip_prefix _ _ _ _ _ Hp H) as (l' & _ & H').
    destruct H1 as [|b1].
    + apply (f_equal (@rev ascii)) in H'. rewrite !rev_app_distr in H'.
      unfold post_suffix in H'. simpl in H'. by injection H'.
    + rewrite Hrest in H'. simpl in H'.
      rewrite (cons_middle "_"%char l'), app_assoc in H'.
      by apply no_brace_quote in H'.
Qed.

Lemma options_text_inj j1 j2 u1 u2 :
  options_text j1 → options_text j2 →
  (u1 ++ "_"%char :: j1 = u2 ++ "_"%char :: j2)%list → u1 = u2 ∧ j1 = j2.
Proof.
  intros H1 H2 H.
  apply List.app_eq_app in H as [l [[-> H]|[-> H]]].
  - pose proof (no_overlap _ _ _ H1 H2 H) as ->. simpl in H.
    injection H as ->. by rewrite app_nil_r.
  - pose proof (no_overlap _ _ _ H2 H1 H) as ->. simpl in H.
    injection H as ->. by rewrite app_nil_r.
Qed.

Lemma client_options_text o :
  client_options o →
  ∃ j, stringify o = Some (string_of_list_ascii j) ∧ options_text j.
Proof.
  intros [->|[body ->]].
  - exists (chars "{}"). split; [done|constructor].
  - eexists. split; [|apply (text_post body)].
    rewrite stringify_post_options. f_equal. apply chars_inj.
    by rewrite list_ascii_of_string_of_list_ascii, !chars_app.
Qed.

Lemma options_text_client o1 o2 j :
  client_options o1 → client_options o2 →
  stringify o1 = Some j → stringify o2 = Some j → o1 = o2.
Proof.
  intros [->|[b1 ->]] [->|[b2 ->]]; rewrite ?stringify_post_options.
  - done.
  - by intros [= <-] [=].
  - by intros [= <-] [=].
  - intros [= <-] [= H]. apply (f_equal chars) in H.
    rewrite !chars_app in H. apply app_inv_head, app_inv_tail in H.
    by rewrite (escape_inj _ _ H).
Qed.

(** [cacheKey] is injective on the requests of the client. *)
Lemma cacheKey_inj e1 o1 e2 o2 :
  client_options o1 → client_options o2 →
  cacheKey e1 o1 = cacheKey e2 o2 → e1 = e2 ∧ o1 = o2.
Proof.
  intros H1 H2. unfold cacheKey.
  destruct (client_options_text o1 H1) as (j1 & Hs1 & Hj1).
  destruct (client_options_text o2 H2) as (j2 & Hs2 & Hj2).
  rewrite Hs1, Hs2. simpl. intros H. apply (f_equal chars) in H.
  rewrite !chars_app, !list_ascii_of_string_of_list_ascii in H.
  rewrite <- !app_assoc in H. apply app_inv_head in H. simpl in H.
  apply options_text_inj in H as [He ->]; [|done..].
  split; [by apply chars_inj|].
  by eapply options_text_client.
Qed.

End KeyFacts.

Section ClientFacts.
Variable env : Env.

Local Notation makeRequest := (Server.makeRequest env).
Local Notation run_tool := (Server.run_tool env).
Local Notation run_plan := (Server.run_plan env).
Local Notation plan := (Server.plan env).
Local Notation miss_outcome := (Server.miss_outcome env).
Local Notation request_key := (Server.request_key env).
Local Notation after_fetch := (Server.after_fetch env).
Local Notation backend_request := (Server.backend_request env).
Local Notation handleJsonRpcRequest := (Server.handleJsonRpcRequest env).
Local Notation post_mcp_tools_call := (Server.post_mcp_tools_call env).
Local Notation post_sse := (Server.post_sse env).

Ltac case_result :=
  match goal with
  | |- context [match ?r with Ok _ => _ | Throw _ => _ end] =>
      lazymatch r with
      | context [makeRequest] => fail
      | _ => destruct r eqn:?
      end
  end.

Lemma run_tool_plan name args st :
  run_tool name args st = run_plan name args st.
Proof.
  unfold run_tool, run_plan, plan.
  repeat (destruct (is_string name _); [|]).
  all: unfold getRepository, listRepositories, listIssues, createIssue,
         getFileContent, lift, throw, mbind, M_bind, result_bind; simpl.
  all: repeat (case_result; simpl; try reflexivity).
  all: repeat (destruct (makeRequest _ _ _) as [[?|?] ?]; simpl;
               try reflexivity).
  all: repeat (case_result; simpl; try reflexivity).
  all: repeat (match goal with
               | |- context [if ?b then _ else _] => destruct b
               end; simpl; try reflexivity).
  all: repeat (case_result; simpl; try reflexivity).
Qed.

Lemma makeRequest_unfold endpoint options st :
  options ≠ VNull →
  let o := default_param options (VObj []) in
  makeRequest endpoint options st =
    match valid_entry st (cacheKey endpoint o) with
    | Some e => (Ok (data e), st)
    | None => miss_outcome endpoint o st
    end.
Proof.
  intros Hnull o.
  assert (Ho : get o "headers" = Ok (request_headers o)).
  { unfold request_headers, o. destruct options; try done. }
  unfold makeRequest, valid_entry, miss_outcome, after_fetch, fetch,
    cache_get, cache_set, Date_now, lift, throw, mbind, M_bind.
  fold o. rewrite Ho. simpl.
  destruct (cache st !! cacheKey endpoint o) as [e|]; simpl.
  - case_bool_decide; [done|].
    destruct (backend env (fetched st) (backend_request endpoint o))
      as [[m|r] dt] eqn:Hb; unfold backend_request in Hb |- *;
      rewrite Hb; simpl; [done|].
    destruct (ok r); simpl; [|done]. by destruct (json r).
  - destruct (backend env (fetched st) (backend_request endpoint o))
      as [[m|r] dt] eqn:Hb; unfold backend_request in Hb |- *;
      rewrite Hb; simpl; [done|].
    destruct (ok r); simpl; [|done]. by destruct (json r).
Qed.

Lemma valid_entry_Some st key e :
  valid_entry st key = Some e ↔
  cache st !! key = Some e ∧ clock st - timestamp e < CACHE_DURATION.
Proof.
  unfold valid_entry. destruct (cache st !! key) as [e'|].
  - case_bool_decide; split.
    + by intros [= ->].
    + by intros [[= ->] _].
    + done.
    + intros [[= ->] ?]. contradiction.
  - split; [done|]. by intros [? _].
Qed.

Lemma valid_entry_None st key :
  valid_entry st key = None ↔
  cache st !! key = None ∨
  ∃ e, cache st !! key = Some e ∧ CACHE_DURATION ≤ clock st - timestamp e.
Proof.
  unfold valid_entry. destruct (cache st !! key) as [e'|].
  - case_bool_decide; split.
    + done.
    + intros [?|(e & [= <-] & ?)]; [done|lia].
    + intros _. right. exists e'. split; [done|lia].
    + done.
  - split; [by left|done].
Qed.

(** A miss always appends exactly one request to the log. *)
Lemma miss_outcome_fetched endpoint options st :
  fetched (miss_outcome endpoint options st).2
  = (fetched st ++ [backend_request endpoint options])%list.
Proof.
  unfold miss_outcome.
  destruct (backend env _ _).1 as [m|r]; [done|].
  destruct (ok r); [|done]. by destruct (json r).
Qed.

Lemma miss_outcome_ne endpoint options st r :
  miss_outcome endpoint options st ≠ (r, st).
Proof.
  intros H. pose proof (miss_outcome_fetched endpoint options st) as Hf.
  rewrite H in Hf. simpl in Hf.
  apply (f_equal length) in Hf. rewrite length_app in Hf. simpl in Hf. lia.
Qed.

(** *** What a call does to the state *)

Ltac plan_inv H :=
  unfold Server.plan in H;
  repeat match type of H with
         | context [if is_string ?n ?l then _ else _] =>
             let E := fresh "E" in
             destruct (is_string n l) eqn:E;
             try (cbv in E; discriminate E)
         end;
  unfold mbind, result_bind in H;
  repeat match type of H with
         | context [match ?r with Ok _ => _ | Throw _ => _ end] =>
             destruct r eqn:?; try discriminate H
         end;
  try discriminate H; injection H as <- <- <-.

(** The options of a planned request are the default or the POST
    literal, never [null]. *)
Lemma plan_options name args endpoint options format :
  plan name args = Ok (endpoint, options, format) → options ≠ VNull.
Proof. intros H. plan_inv H; done. Qed.

(** A call either leaves the state alone (it failed before the client
    was reached, or was served from the cache) or takes the miss path of
    one planned request. *)
Lemma run_tool_shape name args st :
  (∃ r, run_tool name args st = (r, st)) ∨
  ∃ endpoint options format,
    plan name args = Ok (endpoint, options, format) ∧
    let o := default_param options (VObj []) in
    valid_entry st (cacheKey endpoint o) = None ∧
    run_tool name args st =
      (match (miss_outcome endpoint o st).1 with
       | Ok payload => format payload
       | Throw m => Throw m
       end, (miss_outcome endpoint o st).2).
Proof.
  rewrite run_tool_plan. unfold Server.run_plan.
  destruct (plan name args) as [[[endpoint options] format]|m] eqn:Hplan;
    [|eauto].
  rewrite (makeRequest_unfold _ _ _ (plan_options _ _ _ _ _ Hplan)).
  destruct (valid_entry st _) as [e|] eqn:Hv; [eauto|].
  right. exists endpoint, options, format. repeat split; [done|].
  by destruct (miss_outcome _ _ st) as [[payload|m] st'].
Qed.

(** At most one backend round trip per call. *)
Lemma run_tool_fetched name args st :
  fetched (run_tool name args st).2 = fetched st ∨
  ∃ req, fetched (run_tool name args st).2 = (fetched st ++ [req])%list.
Proof.
  destruct (run_tool_shape name args st)
    as [[r ->]|(endpoint & options & format & _ & _ & ->)]; [by left|].
  right. eexists. apply miss_outcome_fetched.
Qed.

Lemma app_singleton_ne {A} (l : list A) (x : A) : l ≠ (l ++ [x])%list.
Proof.
  intros H. apply (f_equal length) in H. rewrite length_app in H.
  simpl in H. lia.
Qed.

(** The outcome of a miss, by the backend's answer. *)
Lemma miss_outcome_answered endpoint options st :
  answered env (fetched st) (backend_request endpoint options) →
  ∃ payload st',
    miss_outcome endpoint options st = (Ok payload, st') ∧
    cache st' !! cacheKey endpoint options
    = Some {| data := payload; timestamp := clock st' |} ∧
    cache st'
    = <[cacheKey endpoint options :=
          {| data := payload; timestamp := clock st' |}]> (cache st).
Proof.
  intros (r & payload & Hb & Hok & Hjson). unfold Server.miss_outcome.
  rewrite Hb, Hok, Hjson. eexists _, _. split; [done|]. simpl.
  split; [apply lookup_insert_eq|done].
Qed.

Lemma miss_outcome_failure endpoint options st m :
  failure env (fetched st) (backend_request endpoint options) = Some m →
  miss_outcome endpoint options st
  = (Throw m, after_fetch (backend_request endpoint options) st).
Proof.
  unfold failure, Server.miss_outcome.
  destruct (backend env _ _).1 as [m'|r]; [by intros [= ->]|].
  destruct (ok r); [done|]. by intros [= ->].
Qed.

(** Whatever the backend answers, the cache changes only by the entry of
    a successful response. *)
Lemma miss_outcome_cache endpoint options st :
  cache (miss_outcome endpoint options st).2 = cache st ∨
  ∃ payload,
    answered env (fetched st) (backend_request endpoint options) ∧
    (miss_outcome endpoint options st).1 = Ok payload ∧
    cache (miss_outcome endpoint options st).2
    = <[cacheKey endpoint options :=
          {| data := payload;
             timestamp := clock (miss_outcome endpoint options st).2 |}]>
        (cache st).
Proof.
  unfold Server.miss_outcome, answered.
  destruct (backend env _ _).1 as [m'|r] eqn:Hb; [by left|].
  destruct (ok r) eqn:Hok; [|by left].
  destruct (json r) as [payload|m] eqn:Hjson; [|by left].
  right. exists payload. split; [|done]. by exists r, payload.
Qed.


(** The same, under a condition on the one entry of the request. *)
Lemma makeRequest_replay_entry endpoint options st st2 :
  options ≠ VNull →
  (∀ req, fetched (makeRequest endpoint options st).2
          = (fetched st ++ [req])%list → answered env (fetched st) req) →
  entry_live (cacheKey endpoint (default_param options (VObj [])))
             (makeRequest endpoint options st).2 st2 →
  makeRequest endpoint options st2
  = ((makeRequest endpoint options st).1, st2).
Proof.
  intros Hnull. rewrite !(makeRequest_unfold _ _ _ Hnull).
  set (o := default_param options (VObj [])). set (key := cacheKey endpoint o).
  destruct (valid_entry st key) as [e|] eqn:Hv; simpl.
  - intros _ [Hcache Hage]. apply valid_entry_Some in Hv as [Hk _].
    assert (valid_entry st2 key = Some e) as ->; [|done].
    apply valid_entry_Some. rewrite Hcache. split; [done|]. by apply Hage.
  - intros Hans.
    destruct (miss_outcome_answered endpoint o st)
      as (payload & st' & Hmiss & Hk & _).
    { apply Hans, miss_outcome_fetched. }
    rewrite Hmiss. simpl. intros [Hcache Hage].
    assert (valid_entry st2 key
            = Some {| data := payload; timestamp := clock st' |}) as ->;
      [|done].
    apply valid_entry_Some. rewrite Hcache. split; [done|].
    by apply (Hage _ Hk).
Qed.

Lemma run_tool_replay_entry name args st st2 :
  (∀ req, fetched (run_tool name args st).2 = (fetched st ++ [req])%list →
          answered env (fetched st) req) →
  (∀ key, request_key name args = Some key →
          entry_live key (run_tool name args st).2 st2) →
  run_tool name args st2 = ((run_tool name args st).1, st2).
Proof.
  rewrite !run_tool_plan. unfold Server.run_plan, Server.request_key.
  destruct (plan name args) as [[[endpoint options] format]|m] eqn:Hplan;
    [|done].
  pose proof (plan_options _ _ _ _ _ Hplan) as Hnull.
  pose proof (makeRequest_replay_entry endpoint options st st2 Hnull)
    as Hreplay.
  destruct (makeRequest endpoint options st) as [[payload|m] st'] eqn:Hfirst;
    simpl in *; intros Hans Hlive;
    by rewrite (Hreplay Hans (Hlive _ eq_refl)).
Qed.

(** *** The two handlers on a call *)

Lemma handle_call message id name args st :
  is_call message id name args →
  handleJsonRpcRequest message st =
    match run_tool name args st with
    | (Ok text, st') =>
        (Ok (rpc_result id (VObj [("content", text_content text)])), st')
    | (Throw m, st') => (Ok (rpc_error id (-32000) m), st')
    end.
Proof.
  intros (Hid & Hmethod & params & Hparams & Hname & Hargs).
  unfold Server.handleJsonRpcRequest, lift, mbind, M_bind, try_catch.
  assert (∃ j, destructure "message" message "jsonrpc" = Ok j) as [j ->].
  { destruct message; try discriminate; simpl; eauto. }
  rewrite Hid, Hmethod, Hparams. simpl. rewrite Hname, Hargs.
  unfold mret, M_ret.
  destruct (Server.run_tool env name args st) as [[text|m] st']; done.
Qed.

Lemma direct_call body name args st :
  is_direct_call body name args →
  post_mcp_tools_call body st =
    match run_tool name args st with
    | (Ok text, st') =>
        (Ok {| http_status := 200;
               http_body := VObj [("content", text_content text)] |}, st')
    | (Throw m, st') =>
        (Ok {| http_status := 500;
               http_body :=
                 VObj [("content", text_content ("Error: " +:+ m));
                       ("isError", VBool true)] |}, st')
    end.
Proof.
  intros [Hname Hargs].
  unfold Server.post_mcp_tools_call, lift, mbind, M_bind, try_catch.
  rewrite Hname, Hargs. unfold mret, M_ret.
  destruct (Server.run_tool env name args st) as [[text|m] st']; done.
Qed.

(** *** The cache check of [makeRequest] *)

(** C4: [makeRequest] returns the stored value, without touching the
    state or the backend, exactly when the cache holds an entry for the
    key whose age [now - timestamp] is below 60000 ms.  When the key was
    never written, or the entry is 60000 ms old or older, the backend is
    invoked afresh and what is returned is the outcome of that round trip
    alone, never the stored value; a successful payload replaces the
    entry, a failure leaves the cache as it was. *)
Theorem cache_get_within_ttl endpoint options st :
  options ≠ VNull →
  let o := default_param options (VObj []) in
  let key := cacheKey endpoint o in
  let req := backend_request endpoint o in
  let out := makeRequest endpoint options st in
  (∀ r, out = (r, st) ↔
        ∃ e, cache st !! key = Some e ∧ clock st - timestamp e < 60000 ∧
             r = Ok (data e)) ∧
  (cache st !! key = None ∨
   (∃ e, cache st !! key = Some e ∧ 60000 ≤ clock st - timestamp e) →
   fetched out.2 = (fetched st ++ [req])%list ∧
   out.1 = fresh_result env (fetched st) req ∧
   clock out.2 = clock st + (backend env (fetched st) req).2 ∧
   cache out.2
   = match out.1 with
     | Ok d => <[key := {| data := d; timestamp := clock out.2 |}]> (cache st)
     | Throw _ => cache st
     end).
Proof.
  intros Hnull o key req out. subst out.
  rewrite (makeRequest_unfold _ _ _ Hnull). fold o key.
  split.
  - intros r. destruct (valid_entry st key) as [e|] eqn:Hv.
    + apply valid_entry_Some in Hv as [Hk Hage]. split.
      * intros [= <-]. by exists e.
      * intros (e' & Hk' & _ & ->). congruence.
    + split.
      * intros H. by apply miss_outcome_ne in H.
      * intros (e & Hk & Hage & _).
        assert (valid_entry st key = Some e) by by apply valid_entry_Some.
        congruence.
  - intros H. apply valid_entry_None in H. rewrite H.
    unfold Server.miss_outcome, Server.fresh_result, Server.after_fetch.
    fold req.
    destruct (backend env (fetched st) req).1 as [m|resp]; [done|].
    destruct (ok resp); [|done]. by destruct (json resp).
Qed.

(** *** Repeated calls *)

(** C5, as the code has it: when the backend answers the request of the
    first call (if it makes one) with a 2xx JSON response, an identical
    call issued within the TTL window of the entry of that request (the
    entry still in the cache and less than 60000 ms old, whatever has
    happened to other entries) gets the identical reply and leaves the
    state, hence the log of backend requests, unchanged; the first call
    makes at most one request.  Both framings. *)
Theorem repeated_call_served_from_cache message id body name args st st2 :
  is_call message id name args →
  is_direct_call body name args →
  ((∀ req, fetched (handleJsonRpcRequest message st).2
           = (fetched st ++ [req])%list → answered env (fetched st) req) →
   (∀ key, request_key name args = Some key →
           entry_live key (handleJsonRpcRequest message st).2 st2) →
   handleJsonRpcRequest message st2
   = ((handleJsonRpcRequest message st).1, st2) ∧
   (fetched (handleJsonRpcRequest message st).2 = fetched st ∨
    ∃ req, fetched (handleJsonRpcRequest message st).2
           = (fetched st ++ [req])%list)) ∧
  ((∀ req, fetched (post_mcp_tools_call body st).2
           = (fetched st ++ [req])%list → answered env (fetched st) req) →
   (∀ key, request_key name args = Some key →
           entry_live key (post_mcp_tools_call body st).2 st2) →
   post_mcp_tools_call body st2 = ((post_mcp_tools_call body st).1, st2) ∧
   (fetched (post_mcp_tools_call body st).2 = fetched st ∨
    ∃ req, fetched (post_mcp_tools_call body st).2
           = (fetched st ++ [req])%list)).
Proof.
  intros Hcall Hdirect.
  rewrite !(handle_call _ _ _ _ _ Hcall), !(direct_call _ _ _ _ Hdirect).
  pose proof (run_tool_replay_entry name args st st2) as Hreplay.
  pose proof (run_tool_fetched name args st) as Hlog.
  destruct (run_tool name args st) as [[text|m] st'] eqn:Hfirst; simpl in *.
  all: split; intros Hans Hlive;
    by rewrite (Hreplay Hans Hlive).
Qed.

(** C8: the POST of [github_create_issue] goes through the same cache:
    once the backend has answered the first creation, an identical call
    issued within the TTL window of the entry stored for it (the entry
    still in the cache and less than 60000 ms old) makes no backend
    request and returns the reply of the first call. *)
Theorem create_issue_replayed_from_cache message id args st st2 req key :
  is_call message id (VStr "github_create_issue") args →
  fetched (handleJsonRpcRequest message st).2 = (fetched st ++ [req])%list →
  answered env (fetched st) req →
  request_key (VStr "github_create_issue") args = Some key →
  entry_live key (handleJsonRpcRequest message st).2 st2 →
  get (init req) "method" = Ok (VStr "POST") ∧
  handleJsonRpcRequest message st2
  = ((handleJsonRpcRequest message st).1, st2) ∧
  fetched (handleJsonRpcRequest message st2).2 = fetched st2.
Proof.
  intros Hcall. rewrite !(handle_call _ _ _ _ _ Hcall).
  pose proof (run_tool_replay_entry (VStr "github_create_issue") args st st2)
    as Hreplay.
  pose proof (run_tool_shape (VStr "github_create_issue") args st) as Hshape.
  destruct (run_tool (VStr "github_create_issue") args st)
    as [r st'] eqn:Hfirst.
  assert (fetched st' = (fetched st ++ [req])%list →
          get (init req) "method" = Ok (VStr "POST")) as Hpost.
  { destruct Hshape as [[r' [= _ ->]]|(ep & o & fmt & Hplan & _ & Heq)].
    { intros H. by apply app_singleton_ne in H. }
    injection Heq as _ ->. rewrite miss_outcome_fetched.
    intros [= <-]%(inj (app (fetched st))). by plan_inv Hplan. }
  destruct r as [text|m]; simpl in *; intros Hlog Hans Hkey Hlive.
  all: assert (∀ req', fetched st' = (fetched st ++ [req'])%list →
                       answered env (fetched st) req') as Hans'
    by (intros req' H; rewrite Hlog in H;
        by apply (inj (app (fetched st))) in H as [= <-]).
  all: assert (∀ key', request_key (VStr "github_create_issue") args
                       = Some key' → entry_live key' st' st2) as Hlive'
    by (intros key' H; rewrite Hkey in H; by injection H as <-).
  all: rewrite (Hreplay Hans' Hlive'); split; [by apply Hpost|done].
Qed.

(** *** Failures *)

(** C6: when the backend fails on the request of a call (transport fault
    or non-2xx status), the handler returns normally with an error
    outcome that carries the message of the failure (a JSON-RPC error
    envelope, or an [isError] content block with status 500), and the
    cache is what it was before the call; whatever a call does, the only
    change it can make to the cache is to store the payload of a request
    that the backend answered with a 2xx JSON response. *)
Theorem backend_failure_reported message id body name args st req m :
  is_call message id name args →
  is_direct_call body name args →
  failure env (fetched st) req = Some m →
  (fetched (handleJsonRpcRequest message st).2 = (fetched st ++ [req])%list →
   (handleJsonRpcRequest message st).1 = Ok (rpc_error id (-32000) m) ∧
   cache (handleJsonRpcRequest message st).2 = cache st) ∧
  (fetched (post_mcp_tools_call body st).2 = (fetched st ++ [req])%list →
   (post_mcp_tools_call body st).1
   = Ok {| http_status := 500;
           http_body := VObj [("content", text_content ("Error: " +:+ m));
                              ("isError", VBool true)] |} ∧
   cache (post_mcp_tools_call body st).2 = cache st) ∧
  (cache (handleJsonRpcRequest message st).2 = cache st ∨
   ∃ req' key payload,
     answered env (fetched st) req' ∧
     cache (handleJsonRpcRequest message st).2
     = <[key := {| data := payload;
                   timestamp := clock (handleJsonRpcRequest message st).2 |}]>
         (cache st)).
Proof.
  intros Hcall Hdirect Hfail.
  rewrite !(handle_call _ _ _ _ _ Hcall), !(direct_call _ _ _ _ Hdirect).
  assert (fetched (run_tool name args st).2 = (fetched st ++ [req])%list →
          run_tool name args st
          = (Throw m, after_fetch req st)) as Hrun.
  { destruct (run_tool_shape name args st)
      as [[r ->]|(ep & o & fmt & _ & _ & ->)]; simpl.
    { intros H. by apply app_singleton_ne in H. }
    rewrite miss_outcome_fetched.
    intros [= <-]%(inj (app (fetched st))).
    by rewrite (miss_outcome_failure _ _ _ _ Hfail). }
  assert (cache (run_tool name args st).2 = cache st ∨
          ∃ req' key payload,
            answered env (fetched st) req' ∧
            cache (run_tool name args st).2
            = <[key := {| data := payload;
                          timestamp := clock (run_tool name args st).2 |}]>
                (cache st)) as Hcache.
  { destruct (run_tool_shape name args st)
      as [[r ->]|(ep & o & fmt & _ & _ & ->)]; [by left|]. simpl.
    destruct (miss_outcome_cache ep (default_param o (VObj [])) st)
      as [Hsame|(payload & Hans & _ & Hc)]; [by left|].
    right. by eexists _, _, _. }
  destruct (run_tool name args st) as [r st'] eqn:Hfirst.
  split; [|split].
  - intros Hlog.
    assert (fetched st' = (fetched st ++ [req])%list) as Hlog'
      by by destruct r.
    by injection (Hrun Hlog') as -> ->.
  - intros Hlog.
    assert (fetched st' = (fetched st ++ [req])%list) as Hlog'
      by by destruct r.
    by injection (Hrun Hlog') as -> ->.
  - by destruct r.
Qed.

(** *** Calls that never reach the backend, and calls that always do *)

Lemma is_string_true v literal : is_string v literal = true → v = VStr literal.
Proof. destruct v; try done. simpl. by intros ->%String.eqb_eq. Qed.

Lemma is_string_false v literal : v ≠ VStr literal → is_string v literal = false.
Proof.
  intros H. destruct (is_string v literal) eqn:E; [|done].
  by apply is_string_true in E.
Qed.

Lemma plan_unregistered name args s :
  unregistered name → to_string name = Ok s →
  plan name args = Throw ("Unknown tool: " +:+ s).
Proof.
  intros Hname Hs. unfold Server.plan.
  rewrite !is_string_false by (apply Hname; decide_now).
  simpl. rewrite Hs. simpl. by rewrite string_app_nil_r.
Qed.

(** C3, as the code has it: a call that names no tool of the catalog is
    answered without any backend request and without touching the cache
    (the state is unchanged); the JSON-RPC framing reports it as an error
    envelope with code -32000 and the message [Unknown tool: name], the
    direct framing as an in-band [isError] content block. *)
Theorem unknown_tool_rejected message id body name args s st :
  is_call message id name args →
  is_direct_call body name args →
  unregistered name →
  to_string name = Ok s →
  handleJsonRpcRequest message st
  = (Ok (rpc_error id (-32000) ("Unknown tool: " +:+ s)), st) ∧
  post_mcp_tools_call body st
  = (Ok {| http_status := 500;
           http_body :=
             VObj [("content",
                    text_content ("Error: " +:+ "Unknown tool: " +:+ s));
                   ("isError", VBool true)] |}, st).
Proof.
  intros Hcall Hdirect Hname Hs.
  rewrite (handle_call _ _ _ _ _ Hcall), (direct_call _ _ _ _ Hdirect).
  rewrite run_tool_plan. unfold Server.run_plan.
  by rewrite (plan_unregistered _ _ _ Hname Hs).
Qed.

Lemma to_string_primitive v : primitive v → ∃ s, to_string v = Ok s.
Proof. destruct v; simpl; try done; eauto. Qed.

Lemma default_param_primitive v d :
  primitive v → primitive d → primitive (default_param v d).
Proof. by destruct v. Qed.

Lemma get_primitive fields k :
  Forall (λ kv, primitive kv.2) fields →
  ∃ v, get (VObj fields) k = Ok v ∧ primitive v.
Proof.
  intros H. simpl. eexists. split; [done|].
  induction H as [|[k' v] rest Hv _ IH]; simpl; [done|].
  by destruct (String.eqb k' k).
Qed.

Ltac read_args Hargs :=
  repeat match goal with
         | |- context [get (VObj ?fields) ?k] =>
             let v := fresh "v" in
             let E := fresh "E" in
             let P := fresh "P" in
             destruct (get_primitive fields k Hargs) as (v & E & P);
             rewrite !E; clear E
         end.

Ltac convert_args :=
  repeat match goal with
         | |- context [to_string ?v] =>
             let s := fresh "s" in
             let E := fresh "E" in
             assert (∃ s, to_string v = Ok s) as [s E]
               by (apply to_string_primitive;
                   repeat apply default_param_primitive; done);
             rewrite !E; clear E; simpl
         end.

(** With primitive argument values, every tool of the catalog gets as
    far as its client request, whichever fields are there. *)
Lemma plan_registered n fields :
  n ∈ tool_names →
  Forall (λ kv, primitive kv.2) fields →
  ∃ endpoint options format,
    plan (VStr n) (VObj fields) = Ok (endpoint, options, format).
Proof.
  intros Hn Hargs. unfold Server.plan.
  repeat (apply elem_of_cons in Hn as [->|Hn]); [..|by apply elem_of_nil in Hn].
  all: read_args Hargs; simpl; convert_args; eauto.
Qed.

Lemma all_stale_valid_entry st key : all_stale st → valid_entry st key = None.
Proof.
  intros H. apply valid_entry_None.
  destruct (cache st !! key) as [e|] eqn:Hk; [|by left]. right. eauto.
Qed.

Lemma run_tool_miss name args endpoint options format st :
  plan name args = Ok (endpoint, options, format) →
  all_stale st →
  let o := default_param options (VObj []) in
  run_tool name args st =
    (match (miss_outcome endpoint o st).1 with
     | Ok payload => format payload
     | Throw m => Throw m
     end, (miss_outcome endpoint o st).2).
Proof.
  intros Hplan Hstale o. rewrite run_tool_plan. unfold Server.run_plan.
  rewrite Hplan, (makeRequest_unfold _ _ _ (plan_options _ _ _ _ _ Hplan)).
  fold o. rewrite (all_stale_valid_entry _ _ Hstale).
  by destruct (miss_outcome endpoint o st) as [[payload|m] st'].
Qed.

(** C1, as the code has it: nothing checks the arguments of a call
    against the schema of its tool.  For every tool of the catalog and
    every arguments object with primitive field values, whichever fields
    are absent, the call goes on to the client request, and with no valid
    cache entry the backend is invoked exactly once.  Both framings. *)
Theorem arguments_not_validated message id body n fields st :
  is_call message id (VStr n) (VObj fields) →
  is_direct_call body (VStr n) (VObj fields) →
  n ∈ tool_names →
  Forall (λ kv, primitive kv.2) fields →
  all_stale st →
  (∃ req, fetched (handleJsonRpcRequest message st).2
          = (fetched st ++ [req])%list) ∧
  (∃ req, fetched (post_mcp_tools_call body st).2
          = (fetched st ++ [req])%list).
Proof.
  intros Hcall Hdirect Hn Hargs Hstale.
  rewrite (handle_call _ _ _ _ _ Hcall), (direct_call _ _ _ _ Hdirect).
  destruct (plan_registered n fields Hn Hargs)
    as (endpoint & options & format & Hplan).
  rewrite (run_tool_miss _ _ _ _ _ _ Hplan Hstale).
  pose proof (miss_outcome_fetched endpoint
                (default_param options (VObj [])) st) as Hlog.
  destruct (miss_outcome _ _ st) as [[payload|m] st']; simpl in *.
  - destruct (format payload); simpl; eauto.
  - eauto.
Qed.


(** *** Cache keys of distinct requests *)

Lemma plan_client_options name args endpoint options format :
  plan name args = Ok (endpoint, options, format) →
  client_options (default_param options (VObj [])).
Proof.
  intros H. plan_inv H; simpl; [by left..| |by left].
  right. by eexists.
Qed.

(** C2: two calls whose backend requests differ (in the URL, that is
    endpoint path and query, or in the options, that is method, headers
    and body) are looked up and stored under different cache keys. *)
Theorem distinct_requests_distinct_keys
    name1 args1 endpoint1 options1 format1
    name2 args2 endpoint2 options2 format2 :
  plan name1 args1 = Ok (endpoint1, options1, format1) →
  plan name2 args2 = Ok (endpoint2, options2, format2) →
  backend_request endpoint1 (default_param options1 (VObj []))
  ≠ backend_request endpoint2 (default_param options2 (VObj [])) →
  cacheKey endpoint1 (default_param options1 (VObj []))
  ≠ cacheKey endpoint2 (default_param options2 (VObj [])).
Proof.
  intros H1 H2 Hreq Hkey. apply Hreq.
  apply cacheKey_inj in Hkey as [-> ->]; [done|..];
    by eapply plan_client_options.
Qed.

(** *** Correlation of replies *)

Lemma get_defined v k :
  v ≠ VUndefined → v ≠ VNull → ∃ x, get v k = Ok x.
Proof.
  intros ??. destruct v; simpl; try done; eauto.
  - destruct (String.eqb k "length"); eauto.
  - destruct (String.eqb k "length"); [eauto|].
    destruct (String.eqb k "sort"); [eauto|].
    destruct (String.eqb k "map"); eauto.
Qed.

Lemma destructure_defined what v k :
  v ≠ VUndefined → v ≠ VNull → destructure what v k = get v k.
Proof. by destruct v. Qed.

Lemma get_rpc_result id result :
  get (rpc_result id result) "jsonrpc" = Ok (VStr "2.0") ∧
  get (rpc_result id result) "id" = Ok id.
Proof. done. Qed.

Lemma get_rpc_error id code message :
  get (rpc_error id code message) "jsonrpc" = Ok (VStr "2.0") ∧
  get (rpc_error id code message) "id" = Ok id.
Proof. done. Qed.

(** Every value [handleJsonRpcRequest] returns is a reply to [message]. *)
Lemma handle_correlated message st reply st' :
  handleJsonRpcRequest message st = (Ok reply, st') →
  get reply "jsonrpc" = Ok (VStr "2.0") ∧ get reply "id" = get message "id".
Proof.
  unfold Server.handleJsonRpcRequest, lift, mbind, M_bind, try_catch,
    mret, M_ret.
  destruct (destructure "message" message "jsonrpc") as [j|m] eqn:Hj;
    [|done].
  assert (message ≠ VUndefined ∧ message ≠ VNull) as [Hu Hn]
    by by destruct message.
  destruct (get_defined message "id" Hu Hn) as [id ->].
  destruct (get_defined message "method" Hu Hn) as [method ->].
  destruct (get_defined message "params" Hu Hn) as [params ->].
  destruct (is_string method "initialize");
    [intros [= <- _]; apply get_rpc_result|].
  destruct (is_string method "tools/list");
    [intros [= <- _]; apply get_rpc_result|].
  destruct (is_string method "tools/call");
    [|intros [= <- _]; apply get_rpc_error].
  destruct (destructure "params" params "name") as [name|m]; [|done].
  destruct (get params "arguments") as [args|m]; [|done].
  destruct (Server.run_tool env name args st) as [[text|m] st''];
    intros [= <- _]; [apply get_rpc_result|apply get_rpc_error].
Qed.

(** C9: whatever [handleJsonRpcRequest] returns, result or error, has
    [jsonrpc] equal to ["2.0"] and the [id] of the incoming message; and
    [POST /sse] answers every message (a JSON object or array, as the
    body parser delivers it) with such a reply, also when the handler
    throws. *)
Theorem jsonrpc_reply_correlated message st :
  (∀ reply st',
     handleJsonRpcRequest message st = (Ok reply, st') →
     get reply "jsonrpc" = Ok (VStr "2.0") ∧
     get reply "id" = get message "id") ∧
  (message ≠ VUndefined → message ≠ VNull →
   ∃ reply st',
     post_sse message st = (Ok reply, st') ∧
     get (http_body reply) "jsonrpc" = Ok (VStr "2.0") ∧
     get (http_body reply) "id" = get message "id").
Proof.
  split; [apply handle_correlated|].
  intros Hu Hn. unfold Server.post_sse, lift, mbind, M_bind, try_catch,
    mret, M_ret.
  destruct (Server.handleJsonRpcRequest env message st)
    as [[reply|m] st'] eqn:Hhandle.
  - eexists _, _. split; [done|]. by eapply handle_correlated.
  - destruct (get_defined message "id" Hu Hn) as [id Hid]. rewrite Hid.
    eexists _, _. split; [done|]. apply get_rpc_error.
Qed.

End ClientFacts.

(** *** Instances *)

Ltac solve_call :=
  first [ done
        | repeat split; first [done | eexists; repeat split; done] ].

Lemma within_ttl_decide st st' :
  bool_decide
    (map_Forall (λ _ e, clock st - timestamp e < CACHE_DURATION →
                        clock st' - timestamp e < CACHE_DURATION)
                (cache st)) →
  within_ttl st st'.
Proof. intros H%bool_decide_unpack. exact H. Qed.

Ltac decide_cache := apply within_ttl_decide; vm_compute; exact I.

(** Settles [entry_live key st st'] on closed states. *)
Ltac decide_entry :=
  split;
  [ reflexivity
  | let e := fresh "e" in
    let He := fresh "He" in
    intros e He; vm_compute in He; injection He as <-;
    vm_compute; reflexivity ].

(** The same for the entry of the key of a call. *)
Ltac decide_key :=
  let key := fresh "key" in
  let Hkey := fresh "Hkey" in
  intros key Hkey; vm_compute in Hkey; injection Hkey as <-; decide_entry.

Lemma st0_all_stale : all_stale st0.
Proof. intros key e H. simpl in H. by rewrite lookup_empty in H. Qed.

(** C1 fails as stated: [owner] and [repo] are required by the
    descriptor of [github_get_repository], yet a call without them is not
    rejected; the backend is asked for [/repos/undefined/undefined] and
    its answer is formatted as a result. *)
Lemma missing_required_fields_reach_backend :
  let message := call (VNum 1) "github_get_repository" (VObj []) in
  let out := handleJsonRpcRequest (env_ok sample_repo) message st0 in
  (required_fields <$> descriptor "github_get_repository")
  = Some ["owner"; "repo"] ∧
  (∃ text, out.1 = Ok (rpc_result (VNum 1)
                         (VObj [("content", text_content text)]))) ∧
  (url <$> fetched out.2)
  = ["https://api.github.com/repos/undefined/undefined"] ∧
  fetched out.2 ≠ [].
Proof. vm_compute. repeat split; [eauto|done]. Qed.

(** A [github_create_issue] call without [repo] and [title], both
    required by its descriptor. *)
Lemma arguments_not_validated_witness :
  ∃ req,
    fetched (handleJsonRpcRequest (env_ok sample_repo)
               (call (VNum 1) "github_create_issue"
                  (VObj [("owner", VStr "acme")])) st0).2
    = (fetched st0 ++ [req])%list.
Proof.
  refine (proj1 (arguments_not_validated (env_ok sample_repo)
                   _ (VNum 1)
                   (direct "github_create_issue"
                      (VObj [("owner", VStr "acme")]))
                   "github_create_issue" [("owner", VStr "acme")] st0
                   _ _ _ _ _)).
  - solve_call.
  - solve_call.
  - decide_now.
  - by repeat constructor.
  - apply st0_all_stale.
Defined.

(** C3 fails as stated in its JSON-RPC half: the reply to an unknown
    tool carries code -32000, not the method-not-found error (-32601)
    that the same handler gives to an unknown method. *)
Lemma unknown_tool_is_not_method_not_found :
  let env := env_ok sample_repo in
  let out := handleJsonRpcRequest env
               (call (VNum 1) "no_such_tool" (VObj [])) st0 in
  ("no_such_tool" ∉ tool_names) ∧
  out.1 = Ok (rpc_error (VNum 1) (-32000) "Unknown tool: no_such_tool") ∧
  out.1 ≠ Ok (rpc_error (VNum 1) (-32601) "Method not found") ∧
  (handleJsonRpcRequest env
     (VObj [("jsonrpc", VStr "2.0"); ("id", VNum 1);
            ("method", VStr "tools/nope")]) st0).1
  = Ok (rpc_error (VNum 1) (-32601) "Method not found").
Proof. split; [decide_now|]. vm_compute. by repeat split. Qed.

(** The amended C3 on the tool name [no_such_tool]. *)
Lemma unknown_tool_rejected_witness :
  handleJsonRpcRequest (env_ok sample_repo)
    (call (VNum 1) "no_such_tool" acme_widgets) st0
  = (Ok (rpc_error (VNum 1) (-32000) ("Unknown tool: " +:+ "no_such_tool")),
     st0).
Proof.
  refine (proj1 (unknown_tool_rejected (env_ok sample_repo) _ (VNum 1)
                   (direct "no_such_tool" acme_widgets)
                   (VStr "no_such_tool") acme_widgets "no_such_tool" st0
                   _ _ _ _)).
  - solve_call.
  - solve_call.
  - intros n Hn [= <-]. revert Hn. decide_now.
  - done.
Defined.

(** The check of C4 on a half-second-old entry (hit) and on the same
    entry 99 seconds later (stale): there the payload of the backend is
    returned, not the stored one, after one request. *)
Lemma cache_get_within_ttl_witness :
  let env := env_ok sample_dir in
  let stale := later 99000 st_warm in
  makeRequest env "/repos/acme/widgets" VUndefined st_warm
  = (Ok sample_repo, st_warm) ∧
  (makeRequest env "/repos/acme/widgets" VUndefined stale).1
  = Ok sample_dir ∧
  fetched (makeRequest env "/repos/acme/widgets" VUndefined stale).2
  = [backend_request env "/repos/acme/widgets" (VObj [])].
Proof.
  intros env stale.
  destruct (cache_get_within_ttl env "/repos/acme/widgets" VUndefined st_warm)
    as [Hhit _]; [done|].
  destruct (cache_get_within_ttl env "/repos/acme/widgets" VUndefined stale)
    as [_ Hmiss]; [done|].
  destruct Hmiss as (Hlog & Hresult & _).
  { right. exists {| data := sample_repo; timestamp := 500 |}. by split. }
  split; [|split].
  - apply Hhit. exists {| data := sample_repo; timestamp := 500 |}.
    by repeat split.
  - exact Hresult.
  - exact Hlog.
Defined.

(** C5 fails as stated: a failed backend call leaves no cache entry, so
    the identical call that follows 5 ms later goes to the backend
    again. *)
Lemma failed_call_is_not_cached :
  let message := call (VNum 1) "github_get_repository" acme_widgets in
  let first := handleJsonRpcRequest env_down message st0 in
  let second := handleJsonRpcRequest env_down message first.2 in
  fetched st0 = [] ∧
  clock first.2 - clock st0 < 60000 ∧
  length (fetched second.2) = 2%nat ∧
  cache second.2 = ∅.
Proof. vm_compute. by repeat split. Qed.

(** C5 on an issue listing repeated 59.9 seconds later, in both
    framings, while the older entry of [st_warm] expires in between. *)
Lemma repeated_call_served_from_cache_witness :
  let env := env_ok (VArr []) in
  let message := call (VNum 1) "github_list_issues" acme_widgets in
  let body := direct "github_list_issues" acme_widgets in
  let first := handleJsonRpcRequest env message st_warm in
  let st2 := later 59900 first.2 in
  valid_entry st2 "https://api.github.com/repos/acme/widgets_{}" = None ∧
  handleJsonRpcRequest env message st2 = (first.1, st2) ∧
  post_mcp_tools_call env body st2
  = ((post_mcp_tools_call env body st_warm).1, st2).
Proof.
  intros env message body first st2.
  destruct (repeated_call_served_from_cache env message (VNum 1) body
              (VStr "github_list_issues") acme_widgets st_warm st2)
    as [Hrpc Hdirect].
  - solve_call.
  - solve_call.
  - split; [reflexivity|]. split.
    + apply Hrpc.
      * intros req _. by eexists _, _.
      * decide_key.
    + apply Hdirect.
      * intros req _. by eexists _, _.
      * decide_key.
Defined.

(** C8 on an issue created twice, 59.9 seconds apart, while the older
    entry of [st_warm] expires in between. *)
Lemma create_issue_replayed_from_cache_witness :
  let env := env_ok sample_issue in
  let args := VObj [("owner", VStr "acme"); ("repo", VStr "widgets");
                    ("title", VStr "Crash on start")] in
  let message := call (VNum 2) "github_create_issue" args in
  let first := handleJsonRpcRequest env message st_warm in
  let st2 := later 59900 first.2 in
  valid_entry st2 "https://api.github.com/repos/acme/widgets_{}" = None ∧
  handleJsonRpcRequest env message st2 = (first.1, st2) ∧
  fetched (handleJsonRpcRequest env message st2).2 = fetched first.2.
Proof.
  intros env args message first st2. split; [reflexivity|].
  edestruct (create_issue_replayed_from_cache env message (VNum 2) args
               st_warm st2) as (_ & Hreply & Hlog).
  - solve_call.
  - reflexivity.
  - by eexists _, _.
  - reflexivity.
  - decide_entry.
  - split; [exact Hreply|exact Hlog].
Defined.

(** C6 with a backend that answers 503, in both framings. *)
Lemma backend_failure_reported_witness :
  let message := call (VNum 3) "github_get_repository" acme_widgets in
  let body := direct "github_get_repository" acme_widgets in
  ((handleJsonRpcRequest env_down message st0).1
   = Ok (rpc_error (VNum 3) (-32000)
           "GitHub API error: 503 Service Unavailable") ∧
   cache (handleJsonRpcRequest env_down message st0).2 = cache st0) ∧
  (http_status <$> (post_mcp_tools_call env_down body st0).1) = Ok 500 ∧
  cache (post_mcp_tools_call env_down body st0).2 = cache st0.
Proof.
  intros message body.
  destruct (backend_failure_reported env_down message (VNum 3) body
              (VStr "github_get_repository") acme_widgets st0
              (backend_request env_down "/repos/acme/widgets" (VObj []))
              "GitHub API error: 503 Service Unavailable")
    as (Hrpc & Hdirect & _).
  - solve_call.
  - solve_call.
  - by vm_compute.
  - split.
    + apply Hrpc. by vm_compute.
    + destruct Hdirect as [Hreply Hcache]; [by vm_compute|].
      split; [by rewrite Hreply|exact Hcache].
Defined.


(** C9 on a call that succeeds and on a [tools/call] without [params],
    where the handler throws and [POST /sse] answers with code -32603. *)
Lemma jsonrpc_reply_correlated_witness :
  let env := env_ok sample_repo in
  let message := call (VNum 5) "github_get_repository" acme_widgets in
  let broken := VObj [("id", VStr "x"); ("method", VStr "tools/call")] in
  (∃ reply st',
     handleJsonRpcRequest env message st0 = (Ok reply, st') ∧
     get reply "jsonrpc" = Ok (VStr "2.0") ∧
     get reply "id" = Ok (VNum 5)) ∧
  (∃ reply st',
     post_sse env broken st0 = (Ok reply, st') ∧
     get (http_body reply) "jsonrpc" = Ok (VStr "2.0") ∧
     get (http_body reply) "id" = Ok (VStr "x")).
Proof.
  intros env message broken. split.
  - destruct (handleJsonRpcRequest env message st0) as [[reply|m] st'] eqn:H;
      [|by vm_compute in H].
    exists reply, st'. split; [done|].
    by apply (proj1 (jsonrpc_reply_correlated env message st0) reply st').
  - by apply (proj2 (jsonrpc_reply_correlated env broken st0)).
Defined.

(** C2 on the listing and the creation of issues of one repository,
    which differ in query, method and body. *)
Lemma distinct_requests_distinct_keys_witness :
  cacheKey "/repos/acme/widgets/issues?state=open" (VObj [])
  ≠ cacheKey "/repos/acme/widgets/issues"
      (post_options
         (VStr (default "" (stringify
                  (VObj [("title", VStr "Crash on start");
                         ("body", VUndefined); ("labels", VUndefined)]))))).
Proof.
  refine (distinct_requests_distinct_keys (env_ok sample_issue)
            (VStr "github_list_issues") acme_widgets
            "/repos/acme/widgets/issues?state=open" VUndefined _
            (VStr "github_create_issue")
            (VObj [("owner", VStr "acme"); ("repo", VStr "widgets");
                   ("title", VStr "Crash on start")])
            "/repos/acme/widgets/issues"
            (post_options
               (VStr (default "" (stringify
                        (VObj [("title", VStr "Crash on start");
                               ("body", VUndefined);
                               ("labels", VUndefined)])))))
            _ _ _ _).
  - reflexivity.
  - reflexivity.
  - by vm_compute.
Defined.

(** *** Streaming sessions *)

Import Sse.

Section SseFacts.
Variable PORT : string.
Variable uuidv4 : nat → string.

Local Notation get_sse := (Sse.get_sse PORT uuidv4).
Local Notation step := (Sse.step PORT uuidv4).
Local Notation run := (Sse.run PORT uuidv4).
Local Notation handshake := (Sse.handshake PORT).
Local Notation well_formed := (Sse.well_formed uuidv4).
Local Notation open_since := (Sse.open_since PORT uuidv4).
Local Notation closed_with := (Sse.closed_with uuidv4).

Lemma run_cons e events l : run (e :: events) l = run events (step l e).
Proof. done. Qed.

Lemma step_length l e :
  (length (connections l) ≤ length (connections (step l e)))%nat.
Proof.
  destruct e as [|ms|conn]; simpl.
  - rewrite length_app. lia.
  - by rewrite length_fmap.
  - unfold on_close. destruct (connections l !! conn) as [c|]; [|done].
    destruct (closed c); [done|]. simpl. by rewrite length_insert.
Qed.

Lemma now_run events l : now (run events l) = now l + duration events.
Proof.
  revert l. induction events as [|e events IH]; intros l; simpl; [lia|].
  fold (run events (step l e)). rewrite IH.
  destruct e as [|ms|conn]; simpl; [lia..|].
  unfold on_close. destruct (connections l !! conn) as [c|]; [|lia].
  destruct (closed c); simpl; lia.
Qed.

Lemma well_formed_start : well_formed start.
Proof. split; [by intros conn c|by intros sid s]. Qed.

Lemma well_formed_step l e : well_formed l → well_formed (step l e).
Proof.
  intros [Hids Hsessions]. destruct e as [|ms|conn]; simpl.
  - split.
    + intros conn c. simpl. intros [H|[Hlen H]]%lookup_app_Some; [eauto|].
      destruct (conn - length (connections l))%nat as [|?] eqn:Hd; [|done].
      injection H as <-. simpl. f_equal. lia.
    + intros sid s. simpl. rewrite length_app. simpl.
      intros [[<- <-]|[_ H]]%lookup_insert_Some; simpl; [split; [lia|done]|].
      destruct (Hsessions _ _ H). split; [lia|done].
  - split.
    + intros conn c. simpl. rewrite list_lookup_fmap.
      destruct (connections l !! conn) as [c'|] eqn:Hc; [|done].
      intros [= <-]. rewrite <- (Hids _ _ Hc). unfold fire.
      by destruct (keepAliveInterval c').
    + intros sid s. simpl. rewrite length_fmap. apply Hsessions.
  - unfold on_close. destruct (connections l !! conn) as [c|] eqn:Hc; [|done].
    destruct (closed c); [done|]. split.
    + intros conn' c'. simpl. destruct (decide (conn = conn')) as [<-|Hne].
      * rewrite list_lookup_insert_eq by by eapply lookup_lt_Some.
        intros [= <-]. simpl. eauto.
      * rewrite list_lookup_insert_ne by done. eauto.
    + intros sid s. simpl. rewrite length_insert.
      intros [_ H]%lookup_delete_Some. eauto.
Qed.

Lemma well_formed_run events l : well_formed l → well_formed (run events l).
Proof.
  revert l. induction events as [|e events IH]; intros l H; [done|].
  rewrite run_cons. by apply IH, well_formed_step.
Qed.

Lemma open_since_get_sse l :
  open_since (get_sse l) (length (connections l)) (now l) 0.
Proof.
  split; simpl.
  - rewrite lookup_app_r, Nat.sub_diag by done. simpl.
    by rewrite Z.mul_1_r.
  - unfold PING_INTERVAL. lia.
Qed.

Lemma firings_spec due t :
  due ≤ t →
  let n := Z.of_nat (firings due t) in
  1 ≤ n ∧ due + PING_INTERVAL * (n - 1) ≤ t < due + PING_INTERVAL * n.
Proof.
  intros Hdue. unfold firings, PING_INTERVAL.
  destruct (Z.leb_spec due t) as [_|?]; [|lia].
  pose proof (Z.div_pos (t - due) 30000 ltac:(lia) ltac:(lia)).
  pose proof (Z.mul_div_le (t - due) 30000 ltac:(lia)).
  pose proof (Z.mul_succ_div_gt (t - due) 30000 ltac:(lia)).
  rewrite Z2Nat.id by lia. simpl. lia.
Qed.

Lemma firings_early due t : t < due → firings due t = 0%nat.
Proof. intros H. unfold firings. destruct (Z.leb_spec due t); [lia|done]. Qed.

Lemma open_since_step l e conn t0 k :
  open_since l conn t0 k → e ≠ Close conn →
  ∃ k', open_since (step l e) conn t0 k'.
Proof.
  intros [Hc Hnow] He. destruct e as [|ms|conn']; simpl.
  - exists k. split; [|done]. simpl. by rewrite lookup_app_l
      by by eapply lookup_lt_Some.
  - set (due := t0 + PING_INTERVAL * (Z.of_nat k + 1)) in *.
    set (t := now l + Z.of_N ms).
    exists (k + firings due t)%nat. split; simpl.
    + rewrite list_lookup_fmap, Hc. simpl. unfold fire. simpl.
      fold due t. do 2 f_equal.
      * f_equal. unfold due. lia.
      * by rewrite replicate_add.
    + fold t. destruct (Z_lt_le_dec t due) as [Hlt|Hle].
      * rewrite (firings_early _ _ Hlt). rewrite Nat.add_0_r. fold due. lia.
      * pose proof (firings_spec due t Hle) as Hf. simpl in Hf.
        unfold due in *. lia.
  - exists k. unfold on_close.
    destruct (connections l !! conn') as [c|] eqn:Hc'; [|done].
    destruct (closed c); [done|]. split; [|done]. simpl.
    rewrite list_lookup_insert_ne by congruence. done.
Qed.

Lemma open_since_run events l conn t0 k :
  open_since l conn t0 k → Close conn ∉ events →
  ∃ k', open_since (run events l) conn t0 k'.
Proof.
  revert l k. induction events as [|e events IH]; intros l k H Hev; [eauto|].
  rewrite run_cons. apply not_elem_of_cons in Hev as [He Hev].
  destruct (open_since_step l e conn t0 k H) as [k' H']; [done|]. eauto.
Qed.

Lemma open_since_firings l conn t0 k :
  open_since l conn t0 k → k = Z.to_nat ((now l - t0) / PING_INTERVAL).
Proof.
  intros [_ Hnow]. unfold PING_INTERVAL in *.
  rewrite <- (Z.div_unique (now l - t0) 30000 (Z.of_nat k)
                (now l - t0 - 30000 * Z.of_nat k)); lia.
Qed.

(** The session of an open connection stays registered. *)
Lemma registered_step l e conn :
  (∀ i j, uuidv4 i = uuidv4 j → i = j) →
  well_formed l →
  (conn < length (connections l))%nat →
  sessions l !! uuidv4 conn = Some {| res := conn; id := uuidv4 conn |} →
  e ≠ Close conn →
  sessions (step l e) !! uuidv4 conn
  = Some {| res := conn; id := uuidv4 conn |}.
Proof.
  intros Hinj [Hids _] Hlt Hs He. destruct e as [|ms|conn']; simpl; [|done|].
  - rewrite lookup_insert_ne; [done|]. intros H%Hinj. lia.
  - unfold on_close. destruct (connections l !! conn') as [c|] eqn:Hc; [|done].
    destruct (closed c); [done|]. simpl.
    rewrite lookup_delete_ne; [done|].
    rewrite (Hids _ _ Hc). intros H%Hinj. congruence.
Qed.

Lemma registered_run events l conn :
  (∀ i j, uuidv4 i = uuidv4 j → i = j) →
  well_formed l →
  (conn < length (connections l))%nat →
  sessions l !! uuidv4 conn = Some {| res := conn; id := uuidv4 conn |} →
  Close conn ∉ events →
  sessions (run events l) !! uuidv4 conn
  = Some {| res := conn; id := uuidv4 conn |}.
Proof.
  intros Hinj. revert l.
  induction events as [|e events IH]; intros l Hwf Hlt Hs Hev; [done|].
  rewrite run_cons. apply not_elem_of_cons in Hev as [He Hev].
  apply IH; [by apply well_formed_step| |by apply registered_step|done].
  pose proof (step_length l e). lia.
Qed.

Lemma closed_with_step l e conn frames :
  closed_with l conn frames → closed_with (step l e) conn frames.
Proof.
  intros [(c & Hc & Hclosed & Htimer & Hframes) Hs].
  pose proof (lookup_lt_Some _ _ _ Hc) as Hlt.
  destruct e as [|ms|conn']; simpl.
  - split.
    + exists c. simpl. by rewrite lookup_app_l.
    + intros Hinj. simpl. rewrite lookup_insert_ne; [by apply Hs|].
      intros H%Hinj. lia.
  - split; [|done]. exists c. simpl. rewrite list_lookup_fmap, Hc. simpl.
    unfold fire. by rewrite Htimer.
  - unfold on_close. destruct (connections l !! conn') as [c'|] eqn:Hc';
      [|by split; [exists c|]].
    destruct (closed c') eqn:Hclosed'; [by split; [exists c|]|]. split.
    + exists c. simpl. rewrite list_lookup_insert_ne; [done|]. congruence.
    + intros Hinj. simpl. apply lookup_delete_None. right. by apply Hs.
Qed.

Lemma closed_with_run events l conn frames :
  closed_with l conn frames → closed_with (run events l) conn frames.
Proof.
  revert l. induction events as [|e events IH]; intros l H; [done|].
  rewrite run_cons. by apply IH, closed_with_step.
Qed.

Lemma closed_with_on_close l conn t0 k :
  open_since l conn t0 k →
  closed_with (on_close conn l) conn (handshake :: replicate k ping).
Proof.
  intros [Hc _]. unfold on_close. rewrite Hc. simpl. split.
  - eexists. simpl.
    rewrite list_lookup_insert_eq by by eapply lookup_lt_Some. done.
  - intros _. simpl. apply lookup_delete_eq.
Qed.

(** C7: a connection to [GET /sse] gets an identifier that is not in
    the live set (given that [uuidv4] never repeats), is registered
    under it and receives exactly the endpoint message; as long as its
    peer has not gone away it stays registered and has received one ping
    for every full 30000 ms since it was opened; once ['close'] has been
    handled its identifier is out of the live set, its interval is
    cleared, and whatever happens afterwards nothing more is written to
    it and the identifier does not come back. *)
Theorem session_lifecycle (before during : list Event) :
  (∀ i j, uuidv4 i = uuidv4 j → i = j) →
  let l0 := run before start in
  let conn := length (connections l0) in
  let sid := uuidv4 conn in
  let l1 := run during (get_sse l0) in
  let l2 := on_close conn l1 in
  Close conn ∉ during →
  sessions l0 !! sid = None ∧
  sessions (get_sse l0) !! sid = Some {| res := conn; id := sid |} ∧
  stream (get_sse l0) conn = [handshake] ∧
  sessions l1 !! sid = Some {| res := conn; id := sid |} ∧
  stream l1 conn
  = handshake :: replicate (Z.to_nat (duration during / 30000)) ping ∧
  sessions l2 !! sid = None ∧
  (∃ c, connections l2 !! conn = Some c ∧ keepAliveInterval c = None) ∧
  ∀ after, stream (run after l2) conn = stream l2 conn ∧
           sessions (run after l2) !! sid = None.
Proof.
  intros Hinj l0 conn sid l1 l2 Hopen.
  assert (well_formed l0) as Hwf0
    by apply well_formed_run, well_formed_start.
  assert (sessions l0 !! sid = None) as Hfresh.
  { destruct (sessions l0 !! sid) as [s|] eqn:Hs; [|done].
    destruct Hwf0 as [_ Hsessions].
    destruct (Hsessions _ _ Hs) as [Hlt Heq%Hinj]. unfold conn in Heq. lia. }
  assert (sessions (get_sse l0) !! sid = Some {| res := conn; id := sid |})
    as Hreg by apply lookup_insert_eq.
  pose proof (open_since_get_sse l0) as Hopen0.
  destruct (open_since_run during _ _ _ _ Hopen0 Hopen)
    as [k Hk].
  fold conn l1 in Hk.
  pose proof (open_since_firings _ _ _ _ Hk) as Hfirings.
  unfold l1 in Hfirings at 1. rewrite now_run in Hfirings. simpl in Hfirings.
  replace (now l0 + duration during - now l0) with (duration during)
    in Hfirings by lia.
  pose proof (closed_with_on_close _ _ _ _ Hk) as Hclosed.
  fold l2 in Hclosed.
  repeat split.
  - done.
  - done.
  - unfold Sse.stream, conn. by rewrite (proj1 Hopen0).
  - apply registered_run; [done| | |done..].
    + by apply (well_formed_step _ Connect).
    + simpl. rewrite length_app. simpl. fold conn. lia.
  - unfold Sse.stream. rewrite (proj1 Hk). simpl. by rewrite Hfirings.
  - by apply Hclosed.
  - destruct Hclosed as [(c & Hc & _ & Htimer & _) _]. eauto.
  - pose proof (closed_with_run after _ _ _ Hclosed)
      as [(c & Hc & _ & _ & Hframes) _].
    destruct Hclosed as [(c' & Hc' & _ & _ & Hframes') _].
    unfold Sse.stream. rewrite Hc, Hc'. simpl. congruence.
  - pose proof (closed_with_run after _ _ _ Hclosed) as [_ H].
    by apply H.
Qed.

End SseFacts.

(** C7 on the second of three connections, 65 seconds after it was
    opened: still registered, two pings behind the endpoint message. *)
Lemma session_lifecycle_witness :
  let uuidv4 : nat → string := pretty in
  let l0 := Sse.run "3000" uuidv4 [Connect; Elapse 1000] start in
  let l1 := Sse.run "3000" uuidv4 [Elapse 65000; Connect]
              (Sse.get_sse "3000" uuidv4 l0) in
  sessions l1 !! uuidv4 1%nat = Some {| res := 1; id := uuidv4 1%nat |} ∧
  stream l1 1 = [Sse.handshake "3000"; ping; ping].
Proof.
  intros uuidv4 l0 l1.
  pose proof (session_lifecycle "3000" uuidv4 [Connect; Elapse 1000]
                [Elapse 65000; Connect]) as H.
  destruct H as (_ & _ & _ & Hregistered & Hstream & _).
  - intros i j Hij. by apply (inj pretty) in Hij.
  - intros H. repeat (apply elem_of_cons in H as [H|H]; [discriminate H|]).
    by apply elem_of_nil in H.
  - split; [exact Hregistered|exact Hstream].
Defined.

(** ** Further properties of the handlers *)

Section HandlerFacts.
Variable env : Env.

Local Notation makeRequest := (Server.makeRequest env).
Local Notation run_tool := (Server.run_tool env).
Local Notation plan := (Server.plan env).
Local Notation miss_outcome := (Server.miss_outcome env).
Local Notation backend_request := (Server.backend_request env).
Local Notation handleJsonRpcRequest := (Server.handleJsonRpcRequest env).
Local Notation post_mcp_tools_call := (Server.post_mcp_tools_call env).
Local Notation post_sse := (Server.post_sse env).

Ltac invert_plan H :=
  unfold Server.plan in H;
  repeat match type of H with
         | context [if is_string ?n ?l then _ else _] =>
             let E := fresh "E" in
             destruct (is_string n l) eqn:E;
             try (cbv in E; discriminate E)
         end;
  unfold mbind, result_bind in H;
  repeat match type of H with
         | context [match ?r with Ok _ => _ | Throw _ => _ end] =>
             destruct r eqn:?; try discriminate H
         end;
  try discriminate H; injection H as <- <- <-.

(** X1: only [tools/call] can touch the cache or the backend.  Whatever
    the message, if its method is not ['tools/call'] the handler leaves
    the state as it is; and a method that is none of the three known
    ones, a missing method included, is answered with the error -32601
    [Method not found]. *)
Theorem other_methods_are_pure message id method st :
  get message "id" = Ok id →
  get message "method" = Ok method →
  method ≠ VStr "tools/call" →
  (handleJsonRpcRequest message st).2 = st ∧
  (method ≠ VStr "initialize" → method ≠ VStr "tools/list" →
   handleJsonRpcRequest message st
   = (Ok (rpc_error id (-32601) "Method not found"), st)).
Proof.
  intros Hid Hmethod Hcall.
  unfold Server.handleJsonRpcRequest, lift, mbind, M_bind, try_catch,
    mret, M_ret.
  assert (message ≠ VUndefined ∧ message ≠ VNull) as [Hu Hn]
    by by destruct message.
  rewrite (destructure_defined _ _ _ Hu Hn).
  destruct (get_defined message "jsonrpc" Hu Hn) as [j ->].
  destruct (get_defined message "params" Hu Hn) as [params ->].
  rewrite Hid, Hmethod, (is_string_false _ _ Hcall).
  split.
  - by repeat case_match.
  - intros Hi Hl. by rewrite (is_string_false _ _ Hi), (is_string_false _ _ Hl).
Qed.

(** X2: a [tools/call] message without [params] makes the handler throw
    before its [try]; [POST /sse] catches that and answers with status
    500 and the error -32603, the state untouched. *)
Theorem call_without_params message id params st :
  get message "id" = Ok id →
  get message "method" = Ok (VStr "tools/call") →
  get message "params" = Ok params →
  params = VUndefined ∨ params = VNull →
  ∃ m,
    handleJsonRpcRequest message st = (Throw m, st) ∧
    post_sse message st
    = (Ok {| http_status := 500;
             http_body := rpc_error id (-32603) m |}, st).
Proof.
  intros Hid Hmethod Hparams Hmissing.
  unfold Server.post_sse, Server.handleJsonRpcRequest, lift, mbind, M_bind,
    try_catch, mret, M_ret.
  assert (message ≠ VUndefined ∧ message ≠ VNull) as [Hu Hn]
    by by destruct message.
  rewrite (destructure_defined _ _ _ Hu Hn).
  destruct (get_defined message "jsonrpc" Hu Hn) as [j ->].
  rewrite Hid, Hmethod, Hparams. simpl.
  destruct Hmissing as [-> | ->]; simpl; eauto.
Qed.

(** X3: a call to a tool of the catalog without [arguments] fails on the
    first read of a field, inside the [try]: the reply is an error
    outcome (code -32000, or the in-band error block with status 500),
    no request is made and the cache is untouched. *)
Theorem call_without_arguments message id body n args st :
  is_call message id (VStr n) args →
  is_direct_call body (VStr n) args →
  n ∈ tool_names →
  args = VUndefined ∨ args = VNull →
  ∃ m,
    handleJsonRpcRequest message st = (Ok (rpc_error id (-32000) m), st) ∧
    post_mcp_tools_call body st
    = (Ok {| http_status := 500;
             http_body :=
               VObj [("content", text_content ("Error: " +:+ m));
                     ("isError", VBool true)] |}, st).
Proof.
  intros Hcall Hdirect Hn Hargs.
  rewrite (handle_call env _ _ _ _ _ Hcall),
    (direct_call env _ _ _ _ Hdirect), run_tool_plan.
  unfold Server.run_plan.
  assert (∃ m, plan (VStr n) args = Throw m) as [m ->]; [|eauto].
  unfold Server.plan.
  repeat (apply elem_of_cons in Hn as [->|Hn]); [..|by apply elem_of_nil in Hn].
  all: destruct Hargs as [-> | ->]; simpl; eauto.
Qed.

(** X4: the headers a request is sent with.  A call that reaches the
    backend sends the [Authorization] header with the token of the
    environment, unless it is [github_create_issue]: there the spread of
    [options] replaces the whole [headers] object, and the request goes
    out with [Content-Type] alone. *)
Theorem request_headers_of_call n args st req :
  n ∈ tool_names →
  fetched (run_tool (VStr n) args st).2 = (fetched st ++ [req])%list →
  ∃ headers,
    get (init req) "headers" = Ok headers ∧
    if String.eqb n "github_create_issue"
    then headers = VObj [("Content-Type", VStr "application/json")]
    else get headers "Authorization" = Ok (VStr ("token " +:+ token env)).
Proof.
  intros Hn.
  destruct (run_tool_shape env (VStr n) args st)
    as [[r ->]|(ep & o & fmt & Hplan & _ & ->)]; simpl.
  { intros H. by apply app_singleton_ne in H. }
  rewrite miss_outcome_fetched.
  intros [= <-]%(inj (app (fetched st))).
  repeat (apply elem_of_cons in Hn as [->|Hn]); [..|by apply elem_of_nil in Hn].
  all: invert_plan Hplan; by eexists.
Qed.

End HandlerFacts.

(** X1 on a [ping] message, with a warm cache. *)
Lemma other_methods_are_pure_witness :
  let env := env_ok sample_repo in
  let message := VObj [("jsonrpc", VStr "2.0"); ("id", VNum 7);
                       ("method", VStr "ping")] in
  (handleJsonRpcRequest env message st_warm).2 = st_warm ∧
  handleJsonRpcRequest env message st_warm
  = (Ok (rpc_error (VNum 7) (-32601) "Method not found"), st_warm).
Proof.
  intros env message.
  destruct (other_methods_are_pure env message (VNum 7) (VStr "ping") st_warm)
    as [Hstate Hreply]; [done..|].
  split; [exact Hstate|]. by apply Hreply.
Defined.

(** X2 on a call message that has no [params]. *)
Lemma call_without_params_witness :
  let env := env_ok sample_repo in
  let message := VObj [("jsonrpc", VStr "2.0"); ("id", VNum 3);
                       ("method", VStr "tools/call")] in
  ∃ m, handleJsonRpcRequest env message st0 = (Throw m, st0) ∧
       post_sse env message st0
       = (Ok {| http_status := 500;
                http_body := rpc_error (VNum 3) (-32603) m |}, st0).
Proof.
  intros env message.
  apply (call_without_params env message (VNum 3) VUndefined st0);
    [done..|by left].
Defined.

(** X3 on a repository lookup whose [arguments] is [null]. *)
Lemma call_without_arguments_witness :
  let env := env_ok sample_repo in
  let message := call (VNum 5) "github_get_repository" VNull in
  let body := direct "github_get_repository" VNull in
  ∃ m,
    handleJsonRpcRequest env message st0
    = (Ok (rpc_error (VNum 5) (-32000) m), st0) ∧
    post_mcp_tools_call env body st0
    = (Ok {| http_status := 500;
             http_body :=
               VObj [("content", text_content ("Error: " +:+ m));
                     ("isError", VBool true)] |}, st0).
Proof.
  intros env message body.
  apply (call_without_arguments env message (VNum 5) body
           "github_get_repository" VNull st0).
  - solve_call.
  - solve_call.
  - decide_now.
  - by right.
Defined.

(** X4 on an issue creation: the request carries no token. *)
Lemma request_headers_of_call_witness :
  let env := env_ok sample_issue in
  let args := VObj [("owner", VStr "acme"); ("repo", VStr "widgets");
                    ("title", VStr "Crash on start")] in
  let out := Server.run_tool env (VStr "github_create_issue") args st0 in
  ∃ req headers,
    last (fetched out.2) = Some req ∧
    get (init req) "headers" = Ok headers ∧
    headers = VObj [("Content-Type", VStr "application/json")].
Proof.
  intros env args out.
  edestruct (request_headers_of_call env "github_create_issue" args st0)
    as (headers & Hheaders & Hshape); [decide_now|reflexivity|].
  eexists _, headers. split; [reflexivity|]. split; [exact Hheaders|].
  exact Hshape.
Defined.

Import Replies.

Section CacheSharing.
Variable env : Env.

Local Notation run_tool := (Server.run_tool env).
Local Notation plan := (Server.plan env).
Local Notation backend_request := (Server.backend_request env).
Local Notation handleJsonRpcRequest := (Server.handleJsonRpcRequest env).

Lemma handle_call_reply message id name args st :
  is_call message id name args →
  handleJsonRpcRequest message st
  = (Ok (rpc_reply id (run_tool name args st).1), (run_tool name args st).2).
Proof.
  intros H. rewrite (handle_call env _ _ _ _ _ H).
  by destruct (run_tool name args st) as [[text|m] st'].
Qed.

(** A planned call that finds a valid entry formats its payload. *)
Lemma run_tool_hit name args endpoint options format entry st :
  plan name args = Ok (endpoint, options, format) →
  valid_entry st (cacheKey endpoint (default_param options (VObj [])))
  = Some entry →
  run_tool name args st = (format (data entry), st).
Proof.
  intros Hplan Hv. rewrite run_tool_plan. unfold Server.run_plan.
  rewrite Hplan, (makeRequest_unfold env _ _ _ (plan_options env _ _ _ _ _ Hplan)).
  by rewrite Hv.
Qed.

(** What a call can do to the entry under a key. *)
Lemma run_tool_cache_other name args endpoint options format key st :
  plan name args = Ok (endpoint, options, format) →
  key ≠ cacheKey endpoint (default_param options (VObj [])) →
  cache (run_tool name args st).2 !! key = cache st !! key.
Proof.
  intros Hplan Hkey.
  destruct (run_tool_shape env name args st)
    as [[r ->]|(ep & o & fmt & Hplan' & _ & ->)]; [done|].
  rewrite Hplan in Hplan'. injection Hplan' as <- <- <-. simpl.
  destruct (miss_outcome_cache env endpoint
              (default_param options (VObj [])) st)
    as [->|(payload & _ & _ & ->)]; [done|].
  by rewrite lookup_insert_ne.
Qed.

(** A request that the backend answers, or that needs no backend,
    yields a payload. *)
Lemma makeRequest_answered endpoint options st :
  options ≠ VNull →
  (∀ req, fetched (Server.makeRequest env endpoint options st).2
          = (fetched st ++ [req])%list → answered env (fetched st) req) →
  ∃ payload, (Server.makeRequest env endpoint options st).1 = Ok payload.
Proof.
  intros Hnull. rewrite (makeRequest_unfold env _ _ _ Hnull).
  destruct (valid_entry st _) as [e|]; [by exists (data e)|].
  intros Hans.
  destruct (miss_outcome_answered env endpoint
              (default_param options (VObj [])) st)
    as (payload & st' & -> & _); [|by exists payload].
  apply Hans, miss_outcome_fetched.
Qed.

(** X5: a call leaves the cached result of every other request alone.
    If a call would be served from the cache, it still is, with the same
    reply, after any call with a different backend request has run (as
    long as the entry has not expired meanwhile): in particular creating
    an issue does not invalidate the cached list of issues. *)
Theorem cached_reply_survives_other_call
    message1 id1 name1 args1 endpoint1 options1 format1
    message2 id2 name2 args2 endpoint2 options2 format2 entry st :
  is_call message1 id1 name1 args1 →
  is_call message2 id2 name2 args2 →
  plan name1 args1 = Ok (endpoint1, options1, format1) →
  plan name2 args2 = Ok (endpoint2, options2, format2) →
  backend_request endpoint1 (default_param options1 (VObj []))
  ≠ backend_request endpoint2 (default_param options2 (VObj [])) →
  valid_entry st (cacheKey endpoint2 (default_param options2 (VObj [])))
  = Some entry →
  within_ttl st (handleJsonRpcRequest message1 st).2 →
  handleJsonRpcRequest message2 (handleJsonRpcRequest message1 st).2
  = ((handleJsonRpcRequest message2 st).1,
     (handleJsonRpcRequest message1 st).2).
Proof.
  intros Hcall1 Hcall2 Hplan1 Hplan2 Hreq Hv.
  rewrite !(handle_call_reply _ _ _ _ _ Hcall1),
    !(handle_call_reply _ _ _ _ _ Hcall2). simpl. intros Httl.
  rewrite (run_tool_hit _ _ _ _ _ _ _ Hplan2 Hv). simpl.
  set (st' := (run_tool name1 args1 st).2) in *.
  rewrite (run_tool_hit name2 args2 _ _ _ entry st' Hplan2); [done|].
  apply valid_entry_Some in Hv as [Hk Hage]. apply valid_entry_Some.
  split; [|by eapply Httl].
  unfold st'. rewrite (run_tool_cache_other _ _ _ _ _ _ _ Hplan1); [done|].
  intros Hkey. apply Hreq. symmetry in Hkey.
  apply cacheKey_inj in Hkey as [-> ->]; [done|..];
    by eapply plan_client_options.
Qed.

(** X6: calls that derive the same backend request share one cache
    entry, whatever their arguments: once the backend has answered the
    first, the second, made within the TTL window of that entry (the
    entry still in the cache and less than 60000 ms old), is formatted
    from the stored payload without any request.  Omitting an argument and
    passing its default value are such calls. *)
Theorem same_request_shares_entry
    message1 id1 name1 args1 format1
    message2 id2 name2 args2 format2 endpoint options st st2 :
  is_call message1 id1 name1 args1 →
  is_call message2 id2 name2 args2 →
  plan name1 args1 = Ok (endpoint, options, format1) →
  plan name2 args2 = Ok (endpoint, options, format2) →
  (∀ req, fetched (handleJsonRpcRequest message1 st).2
          = (fetched st ++ [req])%list → answered env (fetched st) req) →
  entry_live (cacheKey endpoint (default_param options (VObj [])))
             (handleJsonRpcRequest message1 st).2 st2 →
  ∃ payload,
    (handleJsonRpcRequest message1 st).1
    = Ok (rpc_reply id1 (format1 payload)) ∧
    handleJsonRpcRequest message2 st2
    = (Ok (rpc_reply id2 (format2 payload)), st2).
Proof.
  intros Hcall1 Hcall2 Hplan1 Hplan2.
  rewrite !(handle_call_reply _ _ _ _ _ Hcall1),
    !(handle_call_reply _ _ _ _ _ Hcall2). simpl.
  rewrite !run_tool_plan. unfold Server.run_plan. rewrite Hplan1, Hplan2.
  pose proof (plan_options env _ _ _ _ _ Hplan1) as Hnull.
  pose proof (makeRequest_replay_entry env endpoint options st st2 Hnull)
    as Hreplay.
  pose proof (makeRequest_answered endpoint options st Hnull) as Hpayload.
  destruct (Server.makeRequest env endpoint options st) as [r st'];
    simpl in *.
  intros Hans Hlive.
  assert (∀ req, fetched st' = (fetched st ++ [req])%list →
                 answered env (fetched st) req) as Hans'
    by (intros req Hreq; apply Hans; by destruct r).
  assert (entry_live (cacheKey endpoint (default_param options (VObj [])))
                     st' st2) as Hlive' by by destruct r.
  destruct (Hpayload Hans') as [payload ->].
  rewrite (Hreplay Hans' Hlive'). by exists payload.
Qed.

End CacheSharing.

(** X5: the cached repository of [st_warm] is still served after an
    issue listing went to the backend. *)
Lemma cached_reply_survives_other_call_witness :
  let env := env_ok sample_repo in
  let message1 := call (VNum 1) "github_list_issues" acme_widgets in
  let message2 := call (VNum 2) "github_get_repository" acme_widgets in
  let st1 := (handleJsonRpcRequest env message1 st_warm).2 in
  handleJsonRpcRequest env message2 st1
  = ((handleJsonRpcRequest env message2 st_warm).1, st1).
Proof.
  intros env message1 message2 st1.
  eapply (cached_reply_survives_other_call env
            message1 (VNum 1) (VStr "github_list_issues") acme_widgets _ _ _
            message2 (VNum 2) (VStr "github_get_repository") acme_widgets).
  - solve_call.
  - solve_call.
  - reflexivity.
  - reflexivity.
  - intros [=].
  - reflexivity.
  - decide_cache.
Defined.

(** X6: a repository lookup whose [repo] spells out an issue listing
    shares the cache entry of that listing, 59.9 seconds later and with
    the older entry of [st_warm] expired in between. *)
Lemma same_request_shares_entry_witness :
  let env := env_ok (VArr []) in
  let args1 := VObj [("owner", VStr "acme"); ("repo", VStr "widgets");
                     ("state", VStr "open")] in
  let args2 := VObj [("owner", VStr "acme");
                     ("repo", VStr "widgets/issues?state=open")] in
  let message1 := call (VNum 1) "github_list_issues" args1 in
  let message2 := call (VNum 2) "github_get_repository" args2 in
  let st1 := (handleJsonRpcRequest env message1 st_warm).2 in
  let st2 := later 59900 st1 in
  ∃ (format1 format2 : value → result string) (payload : value),
    (handleJsonRpcRequest env message1 st_warm).1
    = Ok (rpc_reply (VNum 1) (format1 payload)) ∧
    handleJsonRpcRequest env message2 st2
    = (Ok (rpc_reply (VNum 2) (format2 payload)), st2).
Proof.
  intros env args1 args2 message1 message2 st1 st2. eexists _, _.
  eapply (same_request_shares_entry env
            message1 (VNum 1) (VStr "github_list_issues") args1 _
            message2 (VNum 2) (VStr "github_get_repository") args2).
  - solve_call.
  - solve_call.
  - reflexivity.
  - reflexivity.
  - intros req _. by eexists _, _.
  - decide_entry.
Defined.

(** ** Further properties of the streaming sessions *)

Import SseInvariants.

Section SessionInvariants.
Variable PORT : string.
Variable uuidv4 : nat → string.

Local Notation step := (Sse.step PORT uuidv4).
Local Notation run := (Sse.run PORT uuidv4).
Local Notation connections_ok := (SseInvariants.connections_ok PORT uuidv4).
Local Notation registry_exact := (SseInvariants.registry_exact uuidv4).

Lemma fire_closed t c : closed (fire t c) = closed c.
Proof. unfold fire. by destruct (keepAliveInterval c). Qed.

Lemma connections_ok_step l e : connections_ok l → connections_ok (step l e).
Proof.
  intros Hok. destruct e as [|ms|conn]; simpl.
  - intros conn c. simpl.
    intros [H|[Hlen H]]%lookup_app_Some; [by apply Hok|].
    destruct (conn - length (connections l))%nat as [|?] eqn:Hd; [|done].
    injection H as <-. repeat split; simpl.
    + f_equal. lia.
    + by exists 0%nat.
    + eexists. split; [done|]. unfold PING_INTERVAL. lia.
  - intros conn c'. simpl. rewrite list_lookup_fmap.
    destruct (connections l !! conn) as [c|] eqn:Hc; [|done].
    intros [= <-]. destruct (Hok _ _ Hc) as (Hid & [k Hk] & Htimer).
    unfold connection_ok. rewrite fire_closed. unfold fire.
    destruct (closed c).
    + rewrite Htimer. repeat split; [done|by exists k|done].
    + destruct Htimer as (due & -> & Hdue). simpl. repeat split; [done|..].
      * exists (k + firings due (now l + Z.of_N ms))%nat.
        by rewrite Hk, replicate_add.
      * eexists. split; [done|].
        destruct (Z_lt_le_dec (now l + Z.of_N ms) due) as [Hlt|Hle].
        -- rewrite (firings_early _ _ Hlt). lia.
        -- pose proof (firings_spec due _ Hle) as Hf. simpl in Hf. lia.
  - unfold on_close. destruct (connections l !! conn) as [c|] eqn:Hc; [|done].
    destruct (closed c) eqn:Hclosed; [done|].
    intros conn' c'. simpl. destruct (decide (conn = conn')) as [<-|Hne].
    + rewrite list_lookup_insert_eq by by eapply lookup_lt_Some.
      intros [= <-]. destruct (Hok _ _ Hc) as (Hid & Hframes & _).
      by repeat split.
    + rewrite list_lookup_insert_ne by done. apply Hok.
Qed.

Lemma connections_ok_run events l :
  connections_ok l → connections_ok (run events l).
Proof.
  revert l. induction events as [|e events IH]; intros l H; [done|].
  apply IH, connections_ok_step, H.
Qed.

(** X7: every connection the server has accepted, at any time, has been
    sent the endpoint message followed by pings and nothing else, carries
    the identifier drawn for it, and has a running interval exactly as
    long as it is open: no interval outlives its connection, and the next
    ping of an open connection is due within 30000 ms. *)
Theorem connections_are_well_formed events conn c :
  connections (run events start) !! conn = Some c →
  sessionId c = uuidv4 conn ∧
  (∃ k, written c = handshake PORT :: replicate k ping) ∧
  (closed c = true → keepAliveInterval c = None) ∧
  (closed c = false →
   ∃ due, keepAliveInterval c = Some due ∧
          now (run events start) < due ≤ now (run events start) + 30000).
Proof.
  intros Hc.
  assert (connections_ok (run events start)) as Hok
    by (apply connections_ok_run; by intros ??).
  destruct (Hok _ _ Hc) as (Hid & Hframes & Htimer).
  repeat split; [done..| |]; intros Hclosed; by rewrite Hclosed in Htimer.
Qed.

Lemma session_eta (s : Session) : {| res := res s; id := id s |} = s.
Proof. by destruct s. Qed.

Lemma registry_exact_step l e :
  (∀ i j, uuidv4 i = uuidv4 j → i = j) →
  connections_ok l → registry_exact l → registry_exact (step l e).
Proof.
  intros Hinj Hok Hreg. destruct e as [|ms|conn]; simpl.
  - intros sid s. simpl. split.
    + intros [[<- <-]|[Hne Hs]]%lookup_insert_Some; simpl.
      * eexists. by rewrite lookup_app_r, Nat.sub_diag.
      * apply Hreg in Hs as (c & Hc & Hopen & Hsid & Hid).
        exists c. by rewrite lookup_app_l by by eapply lookup_lt_Some.
    + intros (c & Hc & Hopen & Hsid & Hid).
      apply lookup_app_Some in Hc as [Hc|[Hlen Hc]].
      * rewrite lookup_insert_ne.
        { apply Hreg. by exists c. }
        rewrite Hsid. intros H%Hinj. apply lookup_lt_Some in Hc. lia.
      * destruct (res s - length (connections l))%nat as [|?] eqn:Hd;
          [|done].
        assert (res s = length (connections l)) as Hres by lia.
        rewrite Hsid, Hres. rewrite <- (session_eta s), Hid, Hsid, Hres.
        apply lookup_insert_eq.
  - intros sid s. simpl. rewrite list_lookup_fmap. split.
    + intros (c & Hc & Hopen & Hsid & Hid)%Hreg.
      exists (fire (now l + Z.of_N ms) c).
      by rewrite Hc, fire_closed.
    + intros (c' & Hc' & Hopen & Hsid & Hid).
      destruct (connections l !! res s) as [c|] eqn:Hc; [|done].
      injection Hc' as <-. rewrite fire_closed in Hopen.
      apply Hreg. by exists c.
  - unfold on_close. destruct (connections l !! conn) as [c|] eqn:Hc; [|done].
    destruct (closed c) eqn:Hclosed; [done|].
    destruct (Hok _ _ Hc) as (Hcid & _).
    intros sid s. simpl. rewrite Hcid. split.
    + intros [Hne Hs]%lookup_delete_Some.
      apply Hreg in Hs as (c' & Hc' & Hopen & Hsid & Hid).
      exists c'. rewrite list_lookup_insert_ne; [done|].
      intros Heq. congruence.
    + intros (c' & Hc' & Hopen & Hsid & Hid).
      destruct (decide (conn = res s)) as [Heq|Hne].
      * rewrite <- Heq in Hc'.
        rewrite list_lookup_insert_eq in Hc' by by eapply lookup_lt_Some.
        by injection Hc' as <-.
      * rewrite list_lookup_insert_ne in Hc' by done.
        apply lookup_delete_Some. split.
        { rewrite Hsid. intros H%Hinj. done. }
        apply Hreg. by exists c'.
Qed.

Lemma registry_exact_run events l :
  (∀ i j, uuidv4 i = uuidv4 j → i = j) →
  connections_ok l → registry_exact l → registry_exact (run events l).
Proof.
  intros Hinj. revert l.
  induction events as [|e events IH]; intros l Hok Hreg; [done|].
  apply IH; [by apply connections_ok_step|by apply registry_exact_step].
Qed.

(** X8: as long as [uuidv4] does not repeat, the [sessions] map is at
    every moment exactly the set of open connections: each open
    connection is registered under its identifier with its own response
    stream, and nothing else is registered (no closed connection is left
    behind, no open one is missing). *)
Theorem live_sessions_are_open_connections events sid s :
  (∀ i j, uuidv4 i = uuidv4 j → i = j) →
  sessions (run events start) !! sid = Some s ↔
  ∃ c, connections (run events start) !! res s = Some c ∧
       closed c = false ∧ sid = uuidv4 (res s) ∧ id s = sid.
Proof.
  intros Hinj. apply registry_exact_run; [done|by intros ??|].
  intros sid' s'. simpl. rewrite lookup_empty. split; [done|].
  by intros (c & Hc & _).
Qed.

End SessionInvariants.

(** X7 on the second of two connections, after the first was closed. *)
Lemma connections_are_well_formed_witness :
  let uuidv4 : nat → string := pretty in
  let l := Sse.run "3000" uuidv4
             [Connect; Elapse 1000; Connect; Elapse 65000; Close 0] start in
  ∃ c, connections l !! 1%nat = Some c ∧
       sessionId c = uuidv4 1%nat ∧
       (∃ k, written c = Sse.handshake "3000" :: replicate k ping) ∧
       (closed c = true → keepAliveInterval c = None) ∧
       (closed c = false →
        ∃ due, keepAliveInterval c = Some due ∧ now l < due ≤ now l + 30000).
Proof.
  intros uuidv4 l. eexists. split; [reflexivity|].
  by apply (connections_are_well_formed "3000" uuidv4
              [Connect; Elapse 1000; Connect; Elapse 65000; Close 0] 1%nat).
Defined.

(** X8 on the same run: the identifier of the second connection. *)
Lemma live_sessions_are_open_connections_witness :
  let uuidv4 : nat → string := pretty in
  let l := Sse.run "3000" uuidv4
             [Connect; Elapse 1000; Connect; Elapse 65000; Close 0] start in
  let s := {| res := 1; id := uuidv4 1%nat |} in
  sessions l !! uuidv4 1%nat = Some s ↔
  ∃ c, connections l !! res s = Some c ∧ closed c = false ∧
       uuidv4 1%nat = uuidv4 (res s) ∧ id s = uuidv4 1%nat.
Proof.
  intros uuidv4 l s.
  apply (live_sessions_are_open_connections "3000" uuidv4
           [Connect; Elapse 1000; Connect; Elapse 65000; Close 0]).
  intros i j Hij. by apply (inj pretty) in Hij.
Defined.

(** ** The stdio variant against the HTTP server *)

Section StdioFacts.
Variable env : Env.

#[local] Arguments template : simpl never.
#[local] Arguments to_string : simpl never.
#[local] Arguments get : simpl never.
#[local] Arguments js_map : simpl never.

Lemma makeGitHubRequest_makeRequest endpoint options :
  Stdio.makeGitHubRequest env (baseURL +:+ endpoint) options
  = Server.makeRequest env endpoint options.
Proof. reflexivity. Qed.

Lemma js_map_what what what' v f lines :
  js_map what v f = Ok lines → js_map what' v f = Ok lines.
Proof.
  unfold js_map. destruct (get v "map"); simpl; [|done]. by destruct v.
Qed.

Lemma string_app_assoc s t u : (s +:+ t) +:+ u = s +:+ (t +:+ u).
Proof.
  induction s as [|a s IH]; [done|]. by rewrite !string_app_cons, IH.
Qed.

Lemma url_template p parts :
  template (Lit (baseURL +:+ p) :: parts)
  = match template (Lit p :: parts) with
    | Ok endpoint => Ok (baseURL +:+ endpoint)
    | Throw m => Throw m
    end.
Proof.
  unfold template; fold template.
  destruct (template parts); simpl; [by rewrite string_app_assoc|done].
Qed.

Lemma destructure_get what v k x : get v k = Ok x → destructure what v k = Ok x.
Proof. by destruct v. Qed.

Ltac next_result :=
  match goal with
  | H : context [match ?r with Ok _ => _ | Throw _ => _ end] |- _ =>
      lazymatch r with
      | context [Server.makeRequest] => fail
      | _ => destruct r eqn:?; simpl in H |- *; try discriminate H
      end
  end.

Ltac next_request :=
  match goal with
  | H : context [Server.makeRequest env ?e ?o ?st] |- _ =>
      rewrite ?makeGitHubRequest_makeRequest;
      destruct (Server.makeRequest env e o st) as [[?data|?m] ?st];
      simpl in H |- *; try discriminate H
  end.

Ltac same_text H :=
  let Ht := fresh "Ht" in
  injection H as Ht <-; rewrite ?Ht; done.

Lemma stdio_run_tool_agrees name args text st st' :
  Server.run_tool env name args st = (Ok text, st') →
  (name = VStr "github_list_issues" → get args "state" ≠ Ok VUndefined) →
  Stdio.run_tool env name args st = (Ok (Stdio.content text), st').
Proof.
  unfold Server.run_tool, Stdio.run_tool.
  destruct (is_string name "github_get_repository") eqn:E1;
  [|destruct (is_string name "github_list_repositories") eqn:E2;
  [|destruct (is_string name "github_list_issues") eqn:E3;
  [|destruct (is_string name "github_create_issue") eqn:E4;
  [|destruct (is_string name "github_get_file_content") eqn:E5]]]].
  - unfold Server.getRepository, Stdio.getRepository.
    change "https://api.github.com/repos/" with (baseURL +:+ "/repos/").
    unfold lift, throw, mbind, M_bind, mret, M_ret.
    intros H _. simpl in *. repeat next_result.
    rewrite url_template, Heqr1. simpl.
    next_request. same_text H.
  - unfold Server.listRepositories, Stdio.listRepositories.
    change "https://api.github.com/user/repos?per_page="
      with (baseURL +:+ "/user/repos?per_page=").
    unfold lift, throw, mbind, M_bind, mret, M_ret.
    intros H _. simpl in *. repeat next_result.
    assert (default_param args (VObj []) = args) as ->
      by (destruct args; done).
    rewrite (destructure_get _ _ _ _ Heqr), Heqr0. simpl.
    rewrite url_template, Heqr1. simpl.
    next_request. repeat next_result.
    rewrite (js_map_what _ "data" _ _ _ Heqr2). simpl.
    same_text H.
  - unfold Server.listIssues, Stdio.listIssues.
    change "https://api.github.com/repos/" with (baseURL +:+ "/repos/").
    unfold lift, throw, mbind, M_bind, mret, M_ret.
    intros H Hstate. specialize (Hstate (is_string_true _ _ E3)).
    simpl in *. repeat next_result.
    rewrite url_template, Heqr2. simpl.
    next_request. repeat next_result.
    rewrite (js_map_what _ "data" _ _ _ Heqr3). simpl.
    assert (default_param a1 (VStr "open") = a1) as ->
      by (destruct a1; done).
    same_text H.
  - unfold Server.createIssue, Stdio.createIssue.
    change "https://api.github.com/repos/" with (baseURL +:+ "/repos/").
    unfold lift, throw, mbind, M_bind, mret, M_ret.
    intros H _. simpl in *. repeat next_result.
    rewrite (destructure_get _ _ _ _ Heqr). simpl.
    rewrite url_template, Heqr4. simpl.
    next_request. same_text H.
  - unfold Server.getFileContent, Stdio.getFileContent.
    change "https://api.github.com/repos/" with (baseURL +:+ "/repos/").
    unfold lift, throw, mbind, M_bind, mret, M_ret.
    intros H _. simpl in *. repeat next_result.
    rewrite url_template, Heqr3. simpl.
    next_request. repeat next_result.
    all: destruct (negb (is_string a4 "file")); try discriminate H.
    same_text H.
  - unfold lift, throw, mbind, M_bind. simpl.
    by destruct (template _).
Qed.

(** X9: the stdio server answers like the HTTP server.  Whenever the
    direct-call endpoint answers a call with status 200, the [tools/call]
    handler of the stdio server, given the same tool name and arguments in
    the same state, returns exactly the body of that reply and leaves the
    same state (same cache, same backend requests).  The one exception is
    [github_list_issues] called without [state], where the stdio server
    prints the defaulted state and the HTTP server the missing one. *)
Theorem stdio_agrees_with_direct_call body params name args reply st st' :
  is_direct_call body name args →
  destructure "request.params" params "name" = Ok name →
  get params "arguments" = Ok args →
  (name = VStr "github_list_issues" → get args "state" ≠ Ok VUndefined) →
  post_mcp_tools_call env body st = (Ok reply, st') →
  http_status reply = 200 →
  Stdio.tools_call env params st = (Ok (http_body reply), st').
Proof.
  intros Hbody Hname Hargs Hstate Hreply Hstatus.
  rewrite (direct_call env body name args st Hbody) in Hreply.
  destruct (Server.run_tool env name args st) as [[text|m] st1] eqn:Hrun.
  - injection Hreply as <- <-.
    pose proof (stdio_run_tool_agrees _ _ _ _ _ Hrun Hstate) as Hstdio.
    unfold Stdio.tools_call, lift, mbind, M_bind, try_catch.
    by rewrite Hname, Hargs, Hstdio.
  - injection Hreply as <- <-. discriminate Hstatus.
Qed.

(** X10: a stdio call without [arguments].  [github_list_repositories]
    falls back on its default parameter and is answered as if [arguments]
    were the empty object; each of the other four tools fails before any
    request is made: the reply is an in-band [isError] block and the state
    is unchanged. *)
Theorem stdio_call_without_arguments params n st :
  destructure "request.params" params "name" = Ok (VStr n) →
  n ∈ tool_names →
  get params "arguments" = Ok VUndefined →
  if String.eqb n "github_list_repositories" then
    Stdio.tools_call env params st
    = try_catch (Stdio.run_tool env (VStr n) (VObj []))
        (λ message,
           mret (VObj [("content", text_content ("Error: " +:+ message));
                       ("isError", VBool true)])) st
  else
    ∃ m, Stdio.tools_call env params st
         = (Ok (VObj [("content", text_content ("Error: " +:+ m));
                      ("isError", VBool true)]), st).
Proof.
  intros Hname Hn Hargs.
  unfold Stdio.tools_call, lift, mbind, M_bind. rewrite Hname, Hargs.
  unfold tool_names in Hn. simpl in Hn.
  repeat (apply elem_of_cons in Hn as [->|Hn]); [..|by apply elem_of_nil in Hn];
    simpl; try done; eexists; reflexivity.
Qed.

End StdioFacts.

(** X9 on a repository lookup. *)
Lemma stdio_agrees_with_direct_call_witness :
  let env := env_ok sample_repo in
  let body := direct "github_get_repository" acme_widgets in
  ∃ reply st',
    post_mcp_tools_call env body st0 = (Ok reply, st') ∧
    Stdio.tools_call env body st0 = (Ok (http_body reply), st').
Proof.
  intros env body. eexists _, _. split; [vm_compute; reflexivity|].
  apply (stdio_agrees_with_direct_call env body body
           (VStr "github_get_repository") acme_widgets).
  - solve_call.
  - done.
  - done.
  - intros [=].
  - vm_compute; reflexivity.
  - reflexivity.
Defined.

(** X10 on an issue listing and on a repository listing. *)
Lemma stdio_call_without_arguments_witness :
  let env := env_ok sample_repo in
  (∃ m, Stdio.tools_call env (VObj [("name", VStr "github_list_issues")]) st0
        = (Ok (VObj [("content", text_content ("Error: " +:+ m));
                     ("isError", VBool true)]), st0)) ∧
  Stdio.tools_call env (VObj [("name", VStr "github_list_repositories")]) st0
  = Stdio.tools_call env (direct "github_list_repositories" (VObj [])) st0.
Proof.
  intros env. split.
  - apply (stdio_call_without_arguments env
             (VObj [("name", VStr "github_list_issues")])
             "github_list_issues" st0); [done|decide_now|done].
  - apply (stdio_call_without_arguments env
             (VObj [("name", VStr "github_list_repositories")])
             "github_list_repositories" st0); [done|decide_now|done].
Defined.

(** ** The extended server *)

Ltac pure_result :=
  match goal with
  | |- context [match ?r with Ok _ => _ | Throw _ => _ end] =>
      lazymatch r with
      | context [Server.makeRequest] => fail
      | _ => destruct r eqn:?; simpl
      end
  end.

(** Closes a goal "there are an endpoint, options and a stateless
    continuation such that the call is this one request". *)
Ltac one_request :=
  eexists _, _, _; (split; [|split]); cycle 2;
  [ intros ?st; reflexivity
  | first [ done
          | split; [done|];
            first [ by left
                  | right; left; reflexivity
                  | right; right; eexists _, _; reflexivity ] ]
  | intros ?payload; unfold Extended.pure;
    repeat first [ solve [eexists; intros ?st; reflexivity]
                 | pure_result ] ].

(** Reduces the tests of a switch on a literal name. *)
Ltac select_case :=
  repeat match goal with
         | |- context [is_string (VStr ?a) ?b] =>
             let c := eval vm_compute in (is_string (VStr a) b) in
             change (is_string (VStr a) b) with c; cbv iota
         end.

Section ExtendedArguments.
Variable env : Env.

Ltac read_fields Hargs :=
  repeat match goal with
         | |- context [get (VObj ?fields) ?k] =>
             let v := fresh "v" in
             let E := fresh "E" in
             let P := fresh "P" in
             destruct (get_primitive fields k Hargs) as (v & E & P);
             rewrite !E; clear E
         end.

Ltac convert_fields :=
  repeat match goal with
         | |- context [to_string ?v] =>
             let s := fresh "s" in
             let E := fresh "E" in
             assert (∃ s, to_string v = Ok s) as [s E]
               by (first [ by eexists
                         | apply to_string_primitive;
                           repeat apply default_param_primitive; done ]);
             rewrite !E; clear E; simpl
         end.

Lemma template_ok parts :
  Forall (λ p, match p with
               | Lit _ => True
               | Sub e => ∃ s, e ≫= to_string = Ok s
               end) parts →
  ∃ s, template parts = Ok s.
Proof.
  induction 1 as [|[l|e] rest Hp _ [r IH]]; simpl.
  - eauto.
  - rewrite IH. simpl. eauto.
  - destruct Hp as [s ->]. rewrite IH. simpl. eauto.
Qed.

Ltac part_ok :=
  first [ exact I
        | by eexists
        | apply to_string_primitive;
          repeat apply default_param_primitive; done
        | match goal with
          | P : primitive ?v |- context [to_string ?v] =>
              let q := fresh "q" in
              destruct (to_string_primitive v P) as [q ->]; by eexists
          end ].

Ltac endpoint_ok :=
  repeat match goal with
         | |- context [if truthy ?v then _ else _] => destruct (truthy v)
         end;
  repeat match goal with
         | |- context [match template ?parts with
                       | Ok _ => _ | Throw _ => _ end] =>
             let s := fresh "s" in
             destruct (template_ok parts) as [s ->];
             [repeat (apply Forall_cons_2; [simpl; part_ok|]);
              apply Forall_nil_2|]
         end.

(** With primitive argument values, each added tool gets as far as its
    client request, whichever fields are there. *)
Lemma added_registered n fields :
  n ∈ Extended.added_names →
  Forall (λ kv, primitive kv.2) fields →
  ∃ endpoint options (k : value → M string),
    options ≠ VNull ∧ (∀ payload, Extended.pure (k payload)) ∧
    ∀ st, Extended.run_tool env (VStr n) (VObj fields) st =
          match Server.makeRequest env endpoint options st with
          | (Ok payload, st') => k payload st'
          | (Throw e, st') => (Throw e, st')
          end.
Proof.
  intros Hn Hargs. vm_compute in Hn.
  repeat (apply elem_of_cons in Hn as [->|Hn]); [..|by apply elem_of_nil in Hn].
  all: unfold Extended.run_tool; select_case.
  all: unfold Extended.listPullRequests, Extended.getPullRequest,
         Extended.createPullRequest, Extended.mergePullRequest,
         Extended.listBranches, Extended.getBranch, Extended.createBranch,
         Extended.listCommits, Extended.getCommit, Extended.searchRepositories,
         Extended.searchCode, Extended.searchIssues, Extended.search,
         Extended.listIssueComments, Extended.createIssueComment,
         Extended.updateIssue, Extended.createOrUpdateFile,
         Extended.createRepository, Extended.forkRepository, Extended.getUser,
         lift, throw, mbind, M_bind, result_bind.
  all: read_fields Hargs.
  all: endpoint_ok.
  all: one_request.
Qed.

Lemma added_unregistered n : n ∈ Extended.added_names → unregistered (VStr n).
Proof.
  intros Hn n' Hn'. vm_compute in Hn, Hn'.
  repeat (apply elem_of_cons in Hn as [->|Hn]); [..|by apply elem_of_nil in Hn].
  all: repeat (apply elem_of_cons in Hn' as [->|Hn']);
         [..|by apply elem_of_nil in Hn']; discriminate.
Qed.

End ExtendedArguments.

Section ExtendedFacts.
Variable env : Env.

#[local] Arguments template : simpl never.
#[local] Arguments to_string : simpl never.
#[local] Arguments get : simpl never.
#[local] Arguments js_map : simpl never.
#[local] Arguments JsText.map_values : simpl never.
#[local] Arguments JsText.join : simpl never.
#[local] Arguments stringify : simpl never.

Local Notation makeRequest := (Server.makeRequest env).
Local Notation run_tool := (Extended.run_tool env).

(** Every case of the switch reads its arguments, makes one
    [makeRequest] and formats the payload without touching the state. *)
Lemma run_tool_normal name args :
  (∃ m, ∀ st, run_tool name args st = (Throw m, st)) ∨
  ∃ endpoint options (k : value → M string),
    (options ≠ VNull ∧
     (default_param options (VObj []) = VObj [] ∨
      Extended.write_options (default_param options (VObj [])))) ∧
    (∀ payload, Extended.pure (k payload)) ∧
    ∀ st, run_tool name args st =
          match makeRequest endpoint options st with
          | (Ok payload, st') => k payload st'
          | (Throw e, st') => (Throw e, st')
          end.
Proof.
  unfold Extended.run_tool.
  repeat (destruct (is_string name _);
    [unfold Extended.listPullRequests, Extended.getPullRequest,
       Extended.createPullRequest, Extended.mergePullRequest,
       Extended.listBranches, Extended.getBranch, Extended.createBranch,
       Extended.listCommits, Extended.getCommit, Extended.searchRepositories,
       Extended.searchCode, Extended.searchIssues, Extended.search,
       Extended.listIssueComments, Extended.createIssueComment,
       Extended.updateIssue, Extended.createOrUpdateFile,
       Extended.createRepository, Extended.forkRepository, Extended.getUser,
       lift, throw, mbind, M_bind, result_bind; simpl;
     repeat pure_result;
     first [ left; eexists; intros st; reflexivity
           | right; one_request ]|]).
  destruct (Server.plan env name args) as [[[endpoint options] format]|m]
    eqn:Hplan.
  - right. exists endpoint, options, (λ payload st, (format payload, st)).
    split.
    { split; [by eapply plan_options|].
      destruct (plan_client_options env _ _ _ _ _ Hplan) as [->|[body ->]];
        [by left|].
      right. right. by eexists _, _. }
    split; [intros payload; by eexists|].
    intros st. rewrite run_tool_plan. unfold Server.run_plan. rewrite Hplan.
    by destruct (makeRequest endpoint options st) as [[payload|e] st'].
  - left. exists m. intros st. rewrite run_tool_plan. unfold Server.run_plan.
    by rewrite Hplan.
Qed.

(** One [makeRequest] makes at most one backend request. *)
Lemma makeRequest_fetched endpoint options st :
  options ≠ VNull →
  fetched (makeRequest endpoint options st).2 = fetched st ∨
  fetched (makeRequest endpoint options st).2
  = (fetched st
     ++ [backend_request env endpoint (default_param options (VObj []))])%list.
Proof.
  intros Hnull. rewrite (makeRequest_unfold env _ _ _ Hnull).
  destruct (valid_entry st _); [by left|]. right. apply miss_outcome_fetched.
Qed.


Lemma extended_handle_call message id name args st :
  is_call message id name args →
  Extended.handleJsonRpcRequest env message st =
    match run_tool name args st with
    | (Ok text, st') =>
        (Ok (rpc_result id (VObj [("content", text_content text)])), st')
    | (Throw m, st') => (Ok (rpc_error id (-32000) m), st')
    end.
Proof.
  intros (Hid & Hmethod & params & Hparams & Hname & Hargs).
  unfold Extended.handleJsonRpcRequest, lift, mbind, M_bind, try_catch.
  assert (∃ j, destructure "message" message "jsonrpc" = Ok j) as [j ->].
  { destruct message; try discriminate; simpl; eauto. }
  rewrite Hid, Hmethod, Hparams. simpl. rewrite Hname, Hargs.
  unfold mret, M_ret.
  destruct (Extended.run_tool env name args st) as [[text|m] st']; done.
Qed.


Lemma get_any v k x k' : get v k = Ok x → ∃ y, get v k' = Ok y.
Proof.
  intros H. apply get_defined; intros ->; discriminate H.
Qed.

Ltac read_field args k :=
  let y := fresh "v" in
  let Hy := fresh "Hv" in
  match goal with
  | H : get args _ = Ok _ |- _ =>
      destruct (get_any args _ _ k H) as [y Hy]; rewrite ?Hy
  end.

(** The one [makeRequest] behind a [github_create_or_update_file] call. *)
Lemma file_update_call args owner repo path o r st :
  get args "owner" = Ok owner → get args "repo" = Ok repo →
  get args "path" = Ok path →
  to_string owner = Ok o → to_string repo = Ok r →
  run_tool (VStr "github_create_or_update_file") args st
  = match makeRequest
            ("/repos/" +:+ o +:+ "/" +:+ r +:+ "/contents/[object Object]")
            (Extended.method_options "PUT" VUndefined) st with
    | (Ok fileUpdate, st') =>
        (template
           [Sub (c ← get fileUpdate "content"; type ← get c "type";
                 Ok (VStr (if is_string type "file" then "Created"
                           else "Updated")));
            Lit " file "; Sub (Ok path); Lit " in "; Sub (Ok owner); Lit "/";
            Sub (Ok repo); Lit (nl +:+ "Commit: ");
            Sub (commit ← get fileUpdate "commit"; get commit "sha")], st')
    | (Throw e, st') => (Throw e, st')
    end.
Proof.
  intros Howner Hrepo Hpath Ho Hr.
  unfold Extended.run_tool. simpl.
  unfold Extended.createOrUpdateFile, lift, mbind, M_bind.
  rewrite Howner, Hrepo, Hpath.
  read_field args "message". read_field args "content".
  read_field args "branch".
  simpl.
  assert (template
            [Lit "/repos/"; Sub (Ok owner); Lit "/"; Sub (Ok repo);
             Lit "/contents/";
             Sub (Ok (VObj [("path", path); ("message", v); ("content", v0);
                            ("branch", v1)]))]
          = Ok ("/repos/" +:+ o +:+ "/" +:+ r
                +:+ "/contents/[object Object]")) as ->.
  { unfold template. simpl. rewrite Ho, Hr. reflexivity. }
  reflexivity.
Qed.

Lemma miss_outcome_Ok endpoint options st payload st' :
  miss_outcome env endpoint options st = (Ok payload, st') →
  answered env (fetched st) (backend_request env endpoint options).
Proof.
  unfold miss_outcome, answered.
  destruct (backend env _ _).1 as [m|resp]; [done|].
  destruct (ok resp) eqn:Hok; [|done].
  destruct (json resp) as [d|m] eqn:Hjson; [|done].
  intros _. by exists resp, d.
Qed.

(** A successful [makeRequest] is repeated from the cache. *)
Lemma makeRequest_Ok_replay endpoint options st payload st1 st2 :
  options ≠ VNull →
  makeRequest endpoint options st = (Ok payload, st1) →
  entry_live (cacheKey endpoint (default_param options (VObj []))) st1 st2 →
  makeRequest endpoint options st2 = (Ok payload, st2).
Proof.
  intros Hnull Hfirst Hlive.
  pose proof (makeRequest_replay_entry env endpoint options st st2 Hnull)
    as Hreplay.
  rewrite Hfirst in Hreplay. simpl in Hreplay. apply Hreplay; [|done].
  intros req Hreq.
  rewrite (makeRequest_unfold env _ _ _ Hnull) in Hfirst.
  destruct (valid_entry st _).
  { injection Hfirst as _ <-. by apply app_singleton_ne in Hreq. }
  pose proof (miss_outcome_fetched env endpoint
                (default_param options (VObj [])) st) as Hlog.
  rewrite Hfirst in Hlog. simpl in Hlog. rewrite Hlog in Hreq.
  apply (inj (app (fetched st))) in Hreq as [= <-].
  by eapply miss_outcome_Ok.
Qed.

(** X12: what [github_create_or_update_file] sends.  The handler passes
    three arguments to a method of four parameters, so the object holding
    path, message, content and branch lands in the [path] parameter and
    [data] stays undefined: the only request the call can make is a [PUT]
    to [/repos/owner/repo/contents/[object Object]] without a body.
    Neither the file path nor the content nor the commit message ever
    reaches the backend. *)
Theorem file_update_sends_no_file args owner repo o r st :
  get args "owner" = Ok owner → get args "repo" = Ok repo →
  to_string owner = Ok o → to_string repo = Ok r →
  let after := (run_tool (VStr "github_create_or_update_file") args st).2 in
  fetched after = fetched st ∨
  ∃ req, fetched after = (fetched st ++ [req])%list ∧
         url req = baseURL +:+ "/repos/" +:+ o +:+ "/" +:+ r
                   +:+ "/contents/[object Object]" ∧
         get (init req) "method" = Ok (VStr "PUT") ∧
         get (init req) "body" = Ok VUndefined.
Proof.
  intros Howner Hrepo Ho Hr after. subst after.
  destruct (get_any args _ _ "path" Howner) as [path Hpath].
  rewrite (file_update_call _ _ _ _ _ _ _ Howner Hrepo Hpath Ho Hr).
  set (endpoint := "/repos/" +:+ o +:+ "/" +:+ r
                   +:+ "/contents/[object Object]").
  destruct (makeRequest_fetched endpoint
              (Extended.method_options "PUT" VUndefined) st) as [H|H];
    [done| |].
  all: destruct (makeRequest endpoint _ st) as [[fileUpdate|e] st'].
  all: simpl in *.
  1, 2: by left.
  all: right; eexists; split; [exact H|]; repeat split; reflexivity.
Qed.

(** X13: two file writes collide in the cache.  Once a
    [github_create_or_update_file] call for one path has succeeded, a call
    for any other path of the same repository, made within the TTL window
    of the entry of the first (the entry still in the cache and less than
    60000 ms old), sends nothing: it is answered from that entry and
    reports the other file as written, with the commit of the first. *)
Theorem file_updates_collide args args' o r path path' text st st1 st2 :
  get args "owner" = Ok (VStr o) → get args "repo" = Ok (VStr r) →
  get args "path" = Ok (VStr path) →
  get args' "owner" = Ok (VStr o) → get args' "repo" = Ok (VStr r) →
  get args' "path" = Ok (VStr path') →
  run_tool (VStr "github_create_or_update_file") args st = (Ok text, st1) →
  entry_live
    (cacheKey ("/repos/" +:+ o +:+ "/" +:+ r +:+ "/contents/[object Object]")
              (Extended.method_options "PUT" VUndefined)) st1 st2 →
  ∃ verb sha,
    text = verb +:+ " file " +:+ path +:+ " in " +:+ o +:+ "/" +:+ r
           +:+ nl +:+ "Commit: " +:+ sha ∧
    run_tool (VStr "github_create_or_update_file") args' st2
    = (Ok (verb +:+ " file " +:+ path' +:+ " in " +:+ o +:+ "/" +:+ r
           +:+ nl +:+ "Commit: " +:+ sha), st2).
Proof.
  intros Howner Hrepo Hpath Howner' Hrepo' Hpath' Hfirst Hlive.
  rewrite (file_update_call _ _ _ _ o r _ Howner Hrepo Hpath) in Hfirst by done.
  rewrite (file_update_call _ _ _ _ o r _ Howner' Hrepo' Hpath') by done.
  destruct (makeRequest _ _ st) as [[fileUpdate|e] st'] eqn:Hreq;
    [|discriminate Hfirst].
  injection Hfirst as Htext <-.
  assert (Hnull : Extended.method_options "PUT" VUndefined ≠ VNull) by done.
  rewrite (makeRequest_Ok_replay _ _ _ _ _ _ Hnull Hreq Hlive).
  unfold template in Htext |- *.
  destruct ((get fileUpdate "content" ≫= _) ≫= to_string) as [verb|m];
    [|discriminate Htext].
  destruct ((get fileUpdate "commit" ≫= _) ≫= to_string) as [sha|m];
    [|discriminate Htext].
  exists verb, sha.
  cbv [mbind result_bind to_string] in Htext |- *.
  rewrite string_app_nil_r in Htext |- *.
  injection Htext as <-. done.
Qed.


(** X14: what [github_create_branch] sends.  The call makes at most one
    request, a [POST] to [/repos/owner/repo/git/refs], and the [sha] it
    carries is the [from_branch] argument as given, or the text [main]
    when there is none: the name of the source branch is sent where the
    backend expects a commit SHA, and nothing looks the commit up. *)
Theorem create_branch_sends_branch_name_as_sha
    args owner repo branch from o r b st :
  get args "owner" = Ok owner → get args "repo" = Ok repo →
  get args "branch" = Ok branch → get args "from_branch" = Ok from →
  to_string owner = Ok o → to_string repo = Ok r → to_string branch = Ok b →
  let after := (run_tool (VStr "github_create_branch") args st).2 in
  fetched after = fetched st ∨
  ∃ req, fetched after = (fetched st ++ [req])%list ∧
         url req = baseURL +:+ "/repos/" +:+ o +:+ "/" +:+ r +:+ "/git/refs" ∧
         get (init req) "method" = Ok (VStr "POST") ∧
         get (init req) "body"
         = Ok (Extended.json_body
                 (VObj [("ref", VStr ("refs/heads/" +:+ b));
                        ("sha", js_or from (VStr "main"))])).
Proof.
  intros Howner Hrepo Hbranch Hfrom Ho Hr Hb after. subst after.
  unfold Extended.run_tool. select_case.
  unfold Extended.createBranch, lift, mbind, M_bind.
  rewrite Howner, Hrepo, Hbranch, Hfrom. simpl.
  assert (template [Lit "/repos/"; Sub (Ok owner); Lit "/"; Sub (Ok repo);
                    Lit "/git/refs"]
          = Ok ("/repos/" +:+ o +:+ "/" +:+ r +:+ "/git/refs")) as ->.
  { unfold template. simpl. rewrite Ho, Hr. reflexivity. }
  assert (template [Lit "refs/heads/"; Sub (Ok branch)]
          = Ok ("refs/heads/" +:+ b)) as ->.
  { unfold template. simpl. rewrite Hb. simpl. by rewrite string_app_nil_r. }
  set (endpoint := "/repos/" +:+ o +:+ "/" +:+ r +:+ "/git/refs").
  set (options := Extended.method_options "POST" _).
  destruct (makeRequest_fetched endpoint options st) as [H|H]; [done| |].
  all: destruct (makeRequest endpoint options st) as [[payload|e] st'].
  all: simpl in *.
  1, 2: by left.
  all: right; eexists; split; [exact H|]; repeat split; reflexivity.
Qed.

(** X15: [github_fork_repository] ignores [organization].  The handler
    passes it as a third argument to a method of two parameters, so two
    calls that agree on [owner] and [repo] behave alike whatever
    organization either names: same request, same reply, same state. *)
Theorem fork_ignores_organization args args' owner repo st :
  get args "owner" = Ok owner → get args "repo" = Ok repo →
  get args' "owner" = Ok owner → get args' "repo" = Ok repo →
  run_tool (VStr "github_fork_repository") args st
  = run_tool (VStr "github_fork_repository") args' st.
Proof.
  intros Howner Hrepo Howner' Hrepo'.
  destruct (get_any args _ _ "organization" Howner) as [org Horg].
  destruct (get_any args' _ _ "organization" Howner') as [org' Horg'].
  unfold Extended.run_tool. select_case.
  unfold lift, mbind, M_bind.
  by rewrite Howner, Hrepo, Howner', Hrepo', Horg, Horg'.
Qed.

(** X16: the nineteen tools the extended catalog adds are served over
    JSON-RPC only, and without validation.  For each of them and every
    arguments object with primitive field values, whichever fields are
    absent, the JSON-RPC handler goes on to the client request (with no
    valid cache entry the backend is invoked exactly once), while the
    direct-call endpoint of the same server answers 500 with
    [Unknown tool] and makes no request. *)
Theorem added_tools_only_over_jsonrpc message id body n fields st :
  is_call message id (VStr n) (VObj fields) →
  is_direct_call body (VStr n) (VObj fields) →
  n ∈ Extended.added_names →
  Forall (λ kv, primitive kv.2) fields →
  all_stale st →
  (∃ req, fetched (Extended.handleJsonRpcRequest env message st).2
          = (fetched st ++ [req])%list) ∧
  post_mcp_tools_call env body st
  = (Ok {| http_status := 500;
           http_body :=
             VObj [("content",
                    text_content ("Error: " +:+ "Unknown tool: " +:+ n));
                   ("isError", VBool true)] |}, st).
Proof.
  intros Hcall Hdirect Hn Hargs Hstale. split.
  - rewrite (extended_handle_call _ _ _ _ _ Hcall).
    destruct (added_registered env n fields Hn Hargs)
      as (endpoint & options & k & Hnull & Hk & ->).
    rewrite (makeRequest_unfold env _ _ _ Hnull).
    rewrite (all_stale_valid_entry _ _ Hstale).
    pose proof (miss_outcome_fetched env endpoint
                  (default_param options (VObj [])) st) as Hlog.
    destruct (miss_outcome env endpoint _ st) as [[payload|e] st'];
      simpl in Hlog.
    + destruct (Hk payload) as [r ->]. destruct r; simpl; eauto.
    + simpl. eauto.
  - rewrite (direct_call env _ _ _ _ Hdirect).
    rewrite run_tool_plan. unfold Server.run_plan.
    by rewrite (plan_unregistered env _ _ n (added_unregistered n Hn)).
Qed.

(** X17: which requests of the extended server carry the token.  The
    spread of [options] over the literal handed to [fetch] replaces the
    merged [headers] whenever the client method supplies its own.  So a
    request without a [method] (every read) carries the [Authorization]
    header with the token of the environment, and a request with one
    (every create, update, merge and fork) goes out with [Content-Type]
    alone. *)
Theorem write_requests_carry_no_token name args st req :
  fetched (run_tool name args st).2 = (fetched st ++ [req])%list →
  ∃ method headers,
    get (init req) "method" = Ok method ∧
    get (init req) "headers" = Ok headers ∧
    (method = VUndefined ∧
     get headers "Authorization" = Ok (VStr ("token " +:+ token env)) ∨
     method ≠ VUndefined ∧
     headers = VObj [("Content-Type", VStr "application/json")]).
Proof.
  destruct (run_tool_normal name args)
    as [[m Hm]|(endpoint & options & k & [Hnull Hshape] & Hk & Hrun)].
  { rewrite Hm. intros H. by apply app_singleton_ne in H. }
  rewrite Hrun.
  assert (fetched
            (match makeRequest endpoint options st with
             | (Ok payload, st') => k payload st'
             | (Throw e, st') => (Throw e, st')
             end).2
          = fetched (makeRequest endpoint options st).2) as ->.
  { destruct (makeRequest endpoint options st) as [[payload|e] st']; [|done].
    by destruct (Hk payload) as [r ->]. }
  destruct (makeRequest_fetched endpoint options st Hnull) as [->| ->].
  { intros H. by apply app_singleton_ne in H. }
  intros [= <-]%(inj (app (fetched st))).
  destruct Hshape as [->|[->|(method & body & ->)]].
  - eexists _, _. repeat split. by left.
  - eexists _, _. repeat split. by right.
  - eexists _, _. repeat split. by right.
Qed.

End ExtendedFacts.

(** *** Instances *)


(** X12 on a write of [README.md]. *)
Lemma file_update_sends_no_file_witness :
  let env := env_ok Extended.sample_file_update in
  let args := VObj [("owner", VStr "acme"); ("repo", VStr "widgets");
                    ("path", VStr "README.md"); ("message", VStr "docs");
                    ("content", VStr "aGVsbG8=")] in
  let after :=
    (Extended.run_tool env (VStr "github_create_or_update_file") args st0).2 in
  fetched after = fetched st0 ∨
  ∃ req, fetched after = (fetched st0 ++ [req])%list ∧
         url req = "https://api.github.com/repos/acme/widgets/contents/[object Object]" ∧
         get (init req) "method" = Ok (VStr "PUT") ∧
         get (init req) "body" = Ok VUndefined.
Proof.
  intros env args.
  by apply (file_update_sends_no_file env args (VStr "acme") (VStr "widgets")
              "acme" "widgets" st0).
Defined.

(** X13 on [README.md] followed by [LICENSE] 59.9 seconds later, with
    the older entry of [st_warm] expired in between. *)
Lemma file_updates_collide_witness :
  let env := env_ok Extended.sample_file_update in
  let args := VObj [("owner", VStr "acme"); ("repo", VStr "widgets");
                    ("path", VStr "README.md"); ("message", VStr "docs");
                    ("content", VStr "aGVsbG8=")] in
  let args' := VObj [("owner", VStr "acme"); ("repo", VStr "widgets");
                     ("path", VStr "LICENSE"); ("message", VStr "legal");
                     ("content", VStr "TUlU")] in
  let first :=
    Extended.run_tool env (VStr "github_create_or_update_file") args
      st_warm in
  let st2 := later 59900 first.2 in
  valid_entry st2 "https://api.github.com/repos/acme/widgets_{}" = None ∧
  ∃ text verb sha,
    text = verb +:+ " file " +:+ "README.md" +:+ " in " +:+ "acme" +:+ "/"
           +:+ "widgets" +:+ nl +:+ "Commit: " +:+ sha ∧
    Extended.run_tool env (VStr "github_create_or_update_file") args' st2
    = (Ok (verb +:+ " file " +:+ "LICENSE" +:+ " in " +:+ "acme" +:+ "/"
           +:+ "widgets" +:+ nl +:+ "Commit: " +:+ sha), st2).
Proof.
  intros env args args' first st2. split; [reflexivity|]. eexists.
  eapply (file_updates_collide env args args' "acme" "widgets"
            "README.md" "LICENSE" _ st_warm first.2 st2).
  - done.
  - done.
  - done.
  - done.
  - done.
  - done.
  - reflexivity.
  - decide_entry.
Defined.

(** X14 on a branch created without [from_branch]. *)
Lemma create_branch_sends_branch_name_as_sha_witness :
  let env := env_ok (VObj [("ref", VStr "refs/heads/feature")]) in
  let args := VObj [("owner", VStr "acme"); ("repo", VStr "widgets");
                    ("branch", VStr "feature")] in
  let after :=
    (Extended.run_tool env (VStr "github_create_branch") args st0).2 in
  fetched after = fetched st0 ∨
  ∃ req, fetched after = (fetched st0 ++ [req])%list ∧
         url req = "https://api.github.com/repos/acme/widgets/git/refs" ∧
         get (init req) "method" = Ok (VStr "POST") ∧
         get (init req) "body"
         = Ok (Extended.json_body
                 (VObj [("ref", VStr "refs/heads/feature");
                        ("sha", VStr "main")])).
Proof.
  intros env args.
  by apply (create_branch_sends_branch_name_as_sha env args
              (VStr "acme") (VStr "widgets") (VStr "feature") VUndefined
              "acme" "widgets" "feature" st0).
Defined.

(** X15 on a fork into an organization and a fork without one. *)
Lemma fork_ignores_organization_witness :
  let env := env_ok sample_repo in
  let args := VObj [("owner", VStr "acme"); ("repo", VStr "widgets");
                    ("organization", VStr "acme-labs")] in
  Extended.run_tool env (VStr "github_fork_repository") args st0
  = Extended.run_tool env (VStr "github_fork_repository") acme_widgets st0.
Proof.
  intros env args.
  by apply (fork_ignores_organization env args acme_widgets
              (VStr "acme") (VStr "widgets") st0).
Defined.

(** X16 on a merge called with an empty arguments object. *)
Lemma added_tools_only_over_jsonrpc_witness :
  let env := env_ok Extended.sample_merge in
  let message := call (VNum 6) "github_merge_pull_request" (VObj []) in
  let body := direct "github_merge_pull_request" (VObj []) in
  (∃ req, fetched (Extended.handleJsonRpcRequest env message st0).2
          = (fetched st0 ++ [req])%list) ∧
  post_mcp_tools_call env body st0
  = (Ok {| http_status := 500;
           http_body :=
             VObj [("content",
                    text_content
                      ("Error: " +:+ "Unknown tool: "
                       +:+ "github_merge_pull_request"));
                   ("isError", VBool true)] |}, st0).
Proof.
  intros env message body.
  apply (added_tools_only_over_jsonrpc env message (VNum 6) body
           "github_merge_pull_request" [] st0).
  - solve_call.
  - solve_call.
  - decide_now.
  - apply Forall_nil_2.
  - apply st0_all_stale.
Defined.

(** X17 on a merge: the [PUT] goes out without the token. *)
Lemma write_requests_carry_no_token_witness :
  let env := env_ok Extended.sample_merge in
  let args := VObj [("owner", VStr "acme"); ("repo", VStr "widgets");
                    ("pull_number", VNum 7)] in
  let out :=
    Extended.run_tool env (VStr "github_merge_pull_request") args st0 in
  ∃ req method headers,
    last (fetched out.2) = Some req ∧
    get (init req) "method" = Ok method ∧
    get (init req) "headers" = Ok headers ∧
    (method = VUndefined ∧
     get headers "Authorization" = Ok (VStr ("token " +:+ token env)) ∨
     method ≠ VUndefined ∧
     headers = VObj [("Content-Type", VStr "application/json")]).
Proof.
  intros env args out.
  edestruct (write_requests_carry_no_token env
               (VStr "github_merge_pull_request") args st0)
    as (method & headers & Hmethod & Hheaders & Hshape); [reflexivity|].
  eexists _, method, headers. split; [reflexivity|]. done.
Defined.
